(** * MTCLI: the chapter reading loop, the ASCII renderer and the progress
    store of [main.py], embedded in Rocq.

    Python values are modelled as the code has them: [str] as [string]
    (ASCII text), [int] as [Z], the [float] computation of the palette
    index as IEEE binary64 ([PrimFloat]), dictionaries as [gmap], the set
    of files of the working directory as [gset string].  The network, the
    display back-ends, the clock and the console are oracles gathered in a
    [world] record; every function that performs an effect threads an
    explicit [state] and returns the list of effects it performed. *)

From Stdlib Require Import ZArith Lia Bool List.
From Stdlib Require Import Floats.
From Stdlib Require Import Strings.String Strings.Ascii Numbers.DecimalString.
From stdpp Require Import gmap strings list.
Import ListNotations.

Open Scope Z_scope.

(** ** Python built-ins used by the program *)
Module Py.

(** [str(n)] for an [int]. *)
Definition str_of_int (z : Z) : string := NilZero.string_of_int (Z.to_int z).

(** Characters removed by [str.strip()] (ASCII whitespace, as
    [str.isspace] has it: TAB..CR, FS..US and SPACE). *)
Definition is_space (c : ascii) : bool :=
  let n := nat_of_ascii c in
  ((9 <=? n)%nat && (n <=? 13)%nat) || ((28 <=? n)%nat && (n <=? 32)%nat).

Fixpoint lstrip (s : string) : string :=
  match s with
  | String c r => if is_space c then lstrip r else s
  | EmptyString => EmptyString
  end.

Fixpoint rstrip (s : string) : string :=
  match s with
  | String c r =>
      match rstrip r with
      | EmptyString => if is_space c then EmptyString else String c EmptyString
      | r' => String c r'
      end
  | EmptyString => EmptyString
  end.

Definition strip (s : string) : string := rstrip (lstrip s).

Definition lower_char (c : ascii) : ascii :=
  let n := nat_of_ascii c in
  if ((65 <=? n)%nat && (n <=? 90)%nat) then ascii_of_nat (n + 32) else c.

Fixpoint lower (s : string) : string :=
  match s with
  | String c r => String (lower_char c) (lower r)
  | EmptyString => EmptyString
  end.

(** [s[k]]: a negative index counts from the end, an index out of range
    raises [IndexError] ([None]). *)
Definition str_index (s : string) (k : Z) : option ascii :=
  let n := Z.of_nat (String.length s) in
  if (0 <=? k) && (k <? n) then String.get (Z.to_nat k) s
  else if (k <? 0) && (0 <=? n + k) then String.get (Z.to_nat (n + k)) s
  else None.

(** [l[k]] on a list, same convention. *)
Definition list_index {A} (l : list A) (k : Z) : option A :=
  let n := Z.of_nat (List.length l) in
  if (0 <=? k) && (k <? n) then l !! Z.to_nat k
  else if (k <? 0) && (0 <=? n + k) then l !! Z.to_nat (n + k)
  else None.

(** [float(n)] for an [int]; exact for [|n| < 2^53]. *)
Definition float_of_int (z : Z) : float :=
  if z <? 0 then PrimFloat.opp (PrimFloat.of_uint63 (Uint63.of_Z (- z)))
  else PrimFloat.of_uint63 (Uint63.of_Z z).

(** [int(x)] for a [float]: truncation toward zero; infinities and NaN
    raise ([None]). *)
Definition int_of_float (x : float) : option Z :=
  match Prim2SF x with
  | S754_zero _ => Some 0
  | S754_finite sg m e =>
      let v := if 0 <=? e then Z.pos m * 2 ^ e else Z.pos m / 2 ^ (- e) in
      Some (if sg then - v else v)
  | S754_infinity _ => None
  | S754_nan => None
  end.

(** [c.isdigit()] and [s.isdigit()] on ASCII text: a non-empty string of
    decimal digits. *)
Definition is_digit (c : ascii) : bool :=
  let n := nat_of_ascii c in (48 <=? n)%nat && (n <=? 57)%nat.

Fixpoint all_digits (s : string) : bool :=
  match s with
  | String c r => is_digit c && all_digits r
  | EmptyString => true
  end.

Definition isdigit (s : string) : bool :=
  match s with
  | EmptyString => false
  | _ => all_digits s
  end.

(** [int(s)] for a string of decimal digits (the digit-count limit of
    recent interpreters is not modelled). *)
Fixpoint int_of_digits_from (acc : Z) (s : string) : Z :=
  match s with
  | String c r => int_of_digits_from (10 * acc + (Z.of_nat (nat_of_ascii c) - 48)) r
  | EmptyString => acc
  end.

Definition int_of_digits (s : string) : Z := int_of_digits_from 0 s.

End Py.

(** ** The ASCII renderer: [image_to_ascii_enhanced], lines 165-176 *)
Module Renderer.

Definition newline : ascii := "010"%char.

(** The palette of line 165, lightest to darkest. *)
Definition ascii_chars : string :=
  " .'`^" +:+ String "034"%char
    ",:;Il!i~+?_][}{1)(|\/tfjrxnuvczXYUJCLQ0OZmwqpdbkhao*#MW&8%B@$".

(** [int(pixel / 255 * (len(ascii_chars) - 1))], computed in binary64 as
    Python does. *)
Definition char_index (pixel : Z) : option Z :=
  Py.int_of_float
    (PrimFloat.mul
       (PrimFloat.div (Py.float_of_int pixel) (Py.float_of_int 255))
       (Py.float_of_int (Z.of_nat (String.length ascii_chars) - 1))).

(** [ascii_chars[char_index] * 2] *)
Definition pixel_chars (pixel : Z) : option string :=
  k ← char_index pixel;
  c ← Py.str_index ascii_chars k;
  Some (String c (String c EmptyString)).

(** The loop of lines 170-174 from position [i] of [enumerate(pixels)];
    [None] is an exception ([ZeroDivisionError] of [i % 0], [IndexError]
    of the palette lookup). *)
Fixpoint render_from (width i : Z) (pixels : list Z) (ascii_str : string)
  : option string :=
  match pixels with
  | [] => Some ascii_str
  | pixel :: rest =>
      if width =? 0 then None
      else
        let ascii_str :=
          if (i mod width =? 0) && negb (i =? 0)
          then ascii_str +:+ String newline EmptyString
          else ascii_str in
        match pixel_chars pixel with
        | Some cc => render_from width (i + 1) rest (ascii_str +:+ cc)
        | None => None
        end
  end.

(** Lines 167-176 on the resized, luminance-converted image, given as its
    width and its row-major pixel data. *)
Definition image_to_ascii (width : Z) (pixels : list Z) : option string :=
  render_from width 0 pixels EmptyString.

(** Number of line breaks of a text, and its lines ([s.split('\n')]). *)
Fixpoint count_newlines (s : string) : nat :=
  match s with
  | EmptyString => O
  | String c r => if Ascii.eqb c newline then S (count_newlines r) else count_newlines r
  end.

Fixpoint lines (s : string) : list string :=
  match s with
  | EmptyString => [EmptyString]
  | String c r =>
      if Ascii.eqb c newline then EmptyString :: lines r
      else match lines r with
           | l :: ls => String c l :: ls
           | [] => [String c EmptyString]
           end
  end.

End Renderer.

(** ** The progress store: [load_data], [save_data], [track_manga],
    [mark_chapter_read] *)
Module Store.

(** A chapter number as the program passes it around: the catalog's
    string, or the integer [1] of line 321. *)
Inductive pyval := PStr (s : string) | PInt (z : Z).

#[global] Instance pyval_eq_dec : EqDecision pyval.
Proof. solve_decision. Defined.

(** [str(v)] *)
Definition str (v : pyval) : string :=
  match v with
  | PStr s => s
  | PInt z => Py.str_of_int z
  end.

(** One entry of [data['tracked_manga']]. *)
Record manga_record := {
  title : string;
  read_chapters : list pyval;
  last_read : option string;
  total_chapters : Z
}.

(** [self.data] *)
Record tracker_data := {
  tracked_manga : gmap string manga_record;
  last_check : option string
}.

(** The tracker object and the file [manga_data.json] ([None]: absent). *)
Record store := {
  data : tracker_data;
  data_file : option tracker_data
}.

Definition save_data (s : store) : store :=
  {| data := data s; data_file := Some (data s) |}.

Definition set_tracked (m : gmap string manga_record) (s : store) : store :=
  {| data := {| tracked_manga := m; last_check := last_check (data s) |};
     data_file := data_file s |}.

(** Lines 273-279 (the console messages left out). *)
Definition track_manga (manga_id title : string) (s : store) : store :=
  match tracked_manga (data s) !! manga_id with
  | None =>
      save_data
        (set_tracked
           (<[manga_id := {| title := title; read_chapters := [];
                             last_read := None; total_chapters := 0 |}]>
              (tracked_manga (data s))) s)
  | Some _ => s
  end.

(** Lines 281-286; [now] is [datetime.now().isoformat()]. *)
Definition mark_chapter_read (now : string) (manga_id : string)
    (chapter_number : pyval) (s : store) : store :=
  match tracked_manga (data s) !! manga_id with
  | Some r =>
      if decide (chapter_number ∈ read_chapters r) then s
      else
        save_data
          (set_tracked
             (<[manga_id := {| title := title r;
                               read_chapters := read_chapters r ++ [chapter_number];
                               last_read := Some now;
                               total_chapters := total_chapters r |}]>
                (tracked_manga (data s))) s)
  | None => s
  end.

(** Lines 82-87: the content of [manga_data.json] when the file exists,
    the empty record otherwise. *)
Definition default_data : tracker_data :=
  {| tracked_manga := ∅; last_check := None |}.

Definition load_data (file : option tracker_data) : store :=
  {| data := match file with
             | Some d => d
             | None => default_data
             end;
     data_file := file |}.

End Store.

(** ** Effects: exceptions, console input, the outside world *)
Module Eff.

Inductive exn :=
| ValueError | KeyError | IndexError | IOError | EOFError | KeyboardInterrupt
| MarkupError | OSError.

#[global] Instance exn_eq_dec : EqDecision exn.
Proof. solve_decision. Defined.

(** What [except Exception] catches: everything but [KeyboardInterrupt]. *)
Definition is_Exception (e : exn) : bool :=
  match e with
  | KeyboardInterrupt => false
  | _ => true
  end.

Inductive outcome (A : Type) :=
| Ret (a : A)
| Raise (e : exn).
Arguments Ret {A} a.
Arguments Raise {A} e.

(** One call of [input()]: a line typed by the user, or Ctrl-C.  The end
    of the list is the end of the input ([EOFError]). *)
Inductive input_event := Line (s : string) | Interrupt.

Inductive method := Native | SystemViewer | Browser | Ascii.

#[global] Instance method_eq_dec : EqDecision method.
Proof. solve_decision. Defined.

Inductive message :=
| NoChaptersFound
| NoPagesAvailable
| ReadingChapter (chapter_number : string)
| LoadingPage (page : Z)
| FallingBackToAscii
| FailedToLoadPage (page : Z).

(** The effects a run performs, in order. *)
Inductive event :=
| EvFeed (manga_id : string) (english_only : bool)
| EvAtHome (chapter_id : string)
| EvPrint (m : message)
| EvPrompt
| EvFetch (i : Z) (url : string)
| EvSave (path : string)
| EvShow (m : method) (page : Z) (ok : bool)
| EvInput (i : Z)
| EvRemove (path : string).

(** A catalog chapter: [ch['id']] and [ch['attributes']['chapter']]
    (JSON [null] is [None]). *)
Record chapter := {
  ch_id : string;
  ch_chapter : option string
}.

(** The JSON answer of [/at-home/server/<id>]; a missing key is [None]. *)
Record at_home_chapter := {
  hash : option string;
  chapter_data : option (list string)
}.

Record at_home_payload := {
  baseUrl : option string;
  chapter_ : option at_home_chapter
}.

(** The answer of a catalog request: the decoded answer, a
    [RequestException], or a Ctrl-C typed while the request is under way
    ([KeyboardInterrupt], which [except requests.RequestException] does not
    catch). *)
Inductive answer (A : Type) :=
| Answer (a : A)
| RequestError
| CtrlC.
Arguments Answer {A} a.
Arguments RequestError {A}.
Arguments CtrlC {A}.

(** What the outside world does to the calls made at one clock value.  In
    an iteration of the page loop: the download and decoding of the page
    ([requests.get], [raise_for_status], [Image.open]), the three display
    back-ends, [image.save], the ASCII rendering and printing, a Ctrl-C
    typed during the download or during the display call of a method, and
    the printing of the message of line 262, whose markup is the text of
    the exception.  In the cleanup: [os.remove].
    [false] is a raised exception for [fetch_ok], [save_ok], [ascii_ok],
    [report_ok] ([MarkupError]) and [remove_ok] ([OSError]), and the value
    [False] returned by the back-end for [native_ok], [viewer_ok] and
    [browser_ok]. *)
Record page_env := {
  fetch_ok : bool;
  native_ok : bool;
  save_ok : bool;
  viewer_ok : bool;
  browser_ok : bool;
  ascii_ok : bool;
  fetch_ctrl_c : bool;
  display_ctrl_c : method → bool;
  report_ok : bool;
  remove_ok : bool
}.

(** The outside world.  Every external call reads the oracle at the
    current [clock] value and advances the clock, so that two calls may
    get different answers.
    - [str_float s] is Python's [str(float(s))], [None] when [float(s)]
      raises [ValueError];
    - [feed k id en] is the answer of [/manga/<id>/feed] (with or without
      the English filter), an [Answer] being the ['data'] list (empty when
      missing);
    - [at_home k id] likewise for the page list;
    - [now k] is [datetime.now().isoformat()]. *)
Record world := {
  str_float : string → option string;
  feed : nat → string → bool → answer (list chapter);
  at_home : nat → string → answer at_home_payload;
  page : nat → page_env;
  now : nat → string
}.

Record state := {
  stdin : list input_event;
  clock : nat;
  files : gset string;
  store : Store.store
}.

Definition set_stdin (l : list input_event) (st : state) : state :=
  {| stdin := l; clock := clock st; files := files st; store := store st |}.
Definition set_clock (k : nat) (st : state) : state :=
  {| stdin := stdin st; clock := k; files := files st; store := store st |}.
Definition set_files (f : gset string) (st : state) : state :=
  {| stdin := stdin st; clock := clock st; files := f; store := store st |}.
Definition set_store (s : Store.store) (st : state) : state :=
  {| stdin := stdin st; clock := clock st; files := files st; store := s |}.

(** Computations: state passing, an exception or a value, and the effects
    performed. *)
Definition M (A : Type) : Type := state → outcome A * list event * state.

Definition ret {A} (a : A) : M A := fun st => (Ret a, [], st).
Definition raise {A} (e : exn) : M A := fun st => (Raise e, [], st).
Definition bind {A B} (m : M A) (f : A → M B) : M B :=
  fun st =>
    match m st with
    | (Ret a, evs, st1) =>
        match f a st1 with
        | (r, evs', st2) => (r, evs ++ evs', st2)
        end
    | (Raise e, evs, st1) => (Raise e, evs, st1)
    end.

(** [try: m  except <handles>: h] *)
Definition try_except {A} (m : M A) (handles : exn → bool) (h : M A) : M A :=
  fun st =>
    match m st with
    | (Raise e, evs, st1) =>
        if handles e then
          match h st1 with
          | (r, evs', st2) => (r, evs ++ evs', st2)
          end
        else (Raise e, evs, st1)
    | r => r
    end.

Definition emit (e : event) : M unit := fun st => (Ret tt, [e], st).

(** An external call: read the clock and advance it. *)
Definition tick : M nat := fun st => (Ret (clock st), [], set_clock (S (clock st)) st).

(** [input()] *)
Definition input : M string :=
  fun st =>
    match stdin st with
    | [] => (Raise EOFError, [], st)
    | Line s :: rest => (Ret s, [], set_stdin rest st)
    | Interrupt :: rest => (Raise KeyboardInterrupt, [], set_stdin rest st)
    end.

(** [d[key]] on a JSON object. *)
Definition key {A} (o : option A) : M A :=
  match o with
  | Some a => ret a
  | None => raise KeyError
  end.

End Eff.

Declare Scope eff_scope.
Delimit Scope eff_scope with eff.
Notation "x <- m ;; k" := (Eff.bind m (fun x => k))
  (at level 100, m at next level, right associativity) : eff_scope.
Notation "m ;;; k" := (Eff.bind m (fun _ => k))
  (at level 100, right associativity) : eff_scope.

(** ** The catalog calls and the reading session *)
Module Reader.
Import Eff.
Open Scope eff_scope.

(** [get_chapters], lines 115-130: one request with the English filter
    and, when it brings no chapter, one without. *)
Definition get_chapters (w : world) (manga_id : string) : M (option (list chapter)) :=
  k <- tick ;;
  emit (EvFeed manga_id true) ;;;
  match feed w k manga_id true with
  | CtrlC => raise KeyboardInterrupt
  | RequestError => ret None
  | Answer [] =>
      k' <- tick ;;
      emit (EvFeed manga_id false) ;;;
      match feed w k' manga_id false with
      | CtrlC => raise KeyboardInterrupt
      | RequestError => ret None
      | Answer d => ret (Some d)
      end
  | Answer d => ret (Some d)
  end.

(** [get_chapter_pages], lines 132-143: only a [RequestException] is
    caught; a missing key propagates as [KeyError]. *)
Definition get_chapter_pages (w : world) (chapter_id : string) : M (option (list string)) :=
  k <- tick ;;
  emit (EvAtHome chapter_id) ;;;
  match at_home w k chapter_id with
  | CtrlC => raise KeyboardInterrupt
  | RequestError => ret None
  | Answer payload =>
      base_url <- key (baseUrl payload) ;;
      chapter <- key (chapter_ payload) ;;
      chapter_hash <- key (hash chapter) ;;
      fs <- key (chapter_data chapter) ;;
      ret (Some (map (fun f => base_url +:+ "/data/" +:+ chapter_hash +:+ "/" +:+ f) fs))
  end.

(** The search of lines 186-189: the first chapter whose attribute is
    truthy and satisfies [str(float(attr)) == str(chapter_number)];
    [float] raises [ValueError] on an attribute it cannot parse. *)
Fixpoint find_chapter (w : world) (chs : list chapter) (wanted : string)
  : outcome (option chapter) :=
  match chs with
  | [] => Ret None
  | ch :: rest =>
      match ch_chapter ch with
      | None => find_chapter w rest wanted
      | Some a =>
          if decide (a = EmptyString) then find_chapter w rest wanted
          else match str_float w a with
               | None => Raise ValueError
               | Some r =>
                   if decide (r = wanted) then Ret (Some ch)
                   else find_chapter w rest wanted
               end
      end
  end.

(** Lines 185-191. *)
Definition target_chapter (w : world) (chs : list chapter)
    (chapter_number : Store.pyval) : outcome (option chapter) :=
  match find_chapter w chs (Store.str chapter_number) with
  | Ret (Some ch) => Ret (Some ch)
  | Ret None => Ret (head chs)
  | Raise e => Raise e
  end.

Definition temp_path (n : Z) : string :=
  "temp_page_" +:+ Py.str_of_int n +:+ ".png".

Definition add_file (path : string) : M unit :=
  fun st => (Ret tt, [EvSave path], set_files ({[path]} ∪ files st) st).

(** A display call: a Ctrl-C typed while it runs is not caught by the
    [except Exception] of the back-ends. *)
Definition displaying {A} (env : page_env) (by_ : method) (m : M A) : M A :=
  if display_ctrl_c env by_ then raise KeyboardInterrupt else m.

(** Lines 222-226. *)
Definition try_native (env : page_env) (i : Z) (cs : string * bool) : M (string * bool) :=
  if decide (cs.1 = "1") then
    displaying env Native (emit (EvShow Native (i + 1) (native_ok env))) ;;;
    if native_ok env then ret (cs.1, true)
    else emit (EvPrint FallingBackToAscii) ;;; ret ("4", false)
  else ret cs.

(** Lines 228-236. *)
Definition try_viewer (env : page_env) (i : Z) (cs : string * bool) : M (string * bool) :=
  if decide (cs.1 = "2") then
    (if save_ok env then add_file (temp_path (i + 1)) else raise IOError) ;;;
    displaying env SystemViewer (emit (EvShow SystemViewer (i + 1) (viewer_ok env))) ;;;
    if viewer_ok env then ret (cs.1, true)
    else emit (EvPrint FallingBackToAscii) ;;; ret ("4", false)
  else ret cs.

(** Lines 238-244. *)
Definition try_browser (env : page_env) (i : Z) (cs : string * bool) : M (string * bool) :=
  if decide (cs.1 = "3") then
    displaying env Browser (emit (EvShow Browser (i + 1) (browser_ok env))) ;;;
    if browser_ok env then ret (cs.1, true)
    else emit (EvPrint FallingBackToAscii) ;;; ret ("4", false)
  else ret cs.

(** Lines 246-249. *)
Definition try_ascii (env : page_env) (i : Z) (cs : string * bool) : M unit :=
  if bool_decide (cs.1 = "4") || negb cs.2 then
    displaying env Ascii (emit (EvShow Ascii (i + 1) (ascii_ok env))) ;;;
    if ascii_ok env then ret tt else raise ValueError
  else ret tt.

(** The body of the [try] of one iteration up to the navigation prompt,
    lines 212-249; it returns the value [display_choice] has afterwards. *)
Definition show_page (w : world) (pages : list string) (i : Z)
    (display_choice : string) : M string :=
  emit (EvPrint (LoadingPage (i + 1))) ;;;
  k <- tick ;;
  let env := page w k in
  match Py.list_index pages i with
  | None => raise IndexError
  | Some url =>
      emit (EvFetch i url) ;;;
      if fetch_ctrl_c env then raise KeyboardInterrupt
      else if fetch_ok env then
        cs <- try_native env i (display_choice, false) ;;
        cs <- try_viewer env i cs ;;
        cs <- try_browser env i cs ;;
        try_ascii env i cs ;;;
        ret cs.1
      else raise IOError
  end.

Definition prepend {A} (evs : list event) (r : outcome A * list event * state)
  : outcome A * list event * state :=
  (r.1.1, evs ++ r.1.2, r.2).

(** The [while] loop of lines 211-263.  Every iteration that goes on
    consumes one line of the input, so the loop is a recursion on the
    lines still to be read; it returns how the loop was left: normally, by
    an exception that [except Exception] does not catch, or by the
    [MarkupError] of the handler's own message (line 262 prints the text of
    the exception as markup; the text of [EOFError] holds none). *)
Fixpoint walk (w : world) (pages : list string) (max_pages : Z)
    (inputs : list input_event) (i : Z) (display_choice : string)
    (st : state) {struct inputs} : outcome unit * list event * state :=
  if i <? Z.min max_pages (Z.of_nat (length pages)) then
    match show_page w pages i display_choice st with
    | (Raise e, evs, st1) =>
        if is_Exception e
        then if report_ok (page w (clock st))
             then (Ret tt, evs ++ [EvPrint (FailedToLoadPage (i + 1))],
                   set_stdin inputs st1)
             else (Raise MarkupError, evs, set_stdin inputs st1)
        else (Raise e, evs, set_stdin inputs st1)
    | (Ret display_choice, evs, st1) =>
        match inputs with
        | [] =>
            (Ret tt, evs ++ [EvInput i; EvPrint (FailedToLoadPage (i + 1))],
             set_stdin [] st1)
        | Interrupt :: rest =>
            (Raise KeyboardInterrupt, evs ++ [EvInput i], set_stdin rest st1)
        | Line s :: rest =>
            let user_input := Py.lower (Py.strip s) in
            if decide (user_input = "q") then
              (Ret tt, evs ++ [EvInput i], set_stdin rest st1)
            else if bool_decide (user_input = "b") && (0 <? i) then
              prepend (evs ++ [EvInput i])
                (walk w pages max_pages rest (i - 1) display_choice st1)
            else
              prepend (evs ++ [EvInput i])
                (walk w pages max_pages rest (i + 1) display_choice st1)
        end
    end
  else (Ret tt, [], set_stdin inputs st).

(** [os.remove(path)], outside any [try]. *)
Definition remove_file (w : world) (path : string) : M unit :=
  k <- tick ;;
  if remove_ok (page w k)
  then fun st => (Ret tt, [EvRemove path], set_files (files st ∖ {[path]}) st)
  else raise OSError.

(** Lines 266-269: the temporary files of pages [j+1], [j] from [from]
    on, [n] of them. *)
Fixpoint cleanup (w : world) (from : Z) (n : nat) : M unit :=
  match n with
  | O => ret tt
  | S n' =>
      (fun st =>
         if decide (temp_path (from + 1) ∈ files st)
         then remove_file w (temp_path (from + 1)) st
         else (Ret tt, [], st)) ;;;
      cleanup w (from + 1) n'
  end.

(** Lines 205-208. *)
Definition choose_display : M (option string) :=
  emit EvPrompt ;;;
  try_except
    (s <- input ;;
     ret (Some (let c := Py.strip s in if decide (c = EmptyString) then "1" else c)))
    (fun e => bool_decide (e = EOFError) || bool_decide (e = KeyboardInterrupt))
    (ret None).

(** Lines 180-196 of [read_chapter_enhanced]: the page list of the target
    chapter, or [None] where the function prints a message and returns
    [False]. *)
Definition open_chapter (w : world) (manga_id : string)
    (chapter_number : Store.pyval) : M (option (list string)) :=
  chapters_data <- get_chapters w manga_id ;;
  match chapters_data with
  | None | Some [] => emit (EvPrint NoChaptersFound) ;;; ret None
  | Some chs =>
      match target_chapter w chs chapter_number with
      | Raise e => raise e
      | Ret None => raise IndexError
      | Ret (Some target) =>
          pages <- get_chapter_pages w (ch_id target) ;;
          match pages with
          | None | Some [] => emit (EvPrint NoPagesAvailable) ;;; ret None
          | Some pages => ret (Some pages)
          end
      end
  end.

(** Lines 198-271 of [read_chapter_enhanced]: the prompt, the page loop,
    the cleanup and the final [return True]. *)
Definition read_pages (w : world) (pages : list string)
    (chapter_number : Store.pyval) (max_pages : Z) : M bool :=
  emit (EvPrint (ReadingChapter (Store.str chapter_number))) ;;;
  display_choice <- choose_display ;;
  match display_choice with
  | None => ret false
  | Some display_choice =>
      (fun st => walk w pages max_pages (stdin st) 0 display_choice st) ;;;
      cleanup w 0 (length pages) ;;;
      ret true
  end.

(** [read_chapter_enhanced], lines 178-271. *)
Definition read_chapter_enhanced (w : world) (manga_id : string)
    (chapter_number : Store.pyval) (max_pages : Z) : M bool :=
  pages <- open_chapter w manga_id chapter_number ;;
  match pages with
  | None => ret false
  | Some pages => read_pages w pages chapter_number max_pages
  end.

End Reader.

(** ** The end of the [search] command *)
Module Cli.
Import Eff.
Open Scope eff_scope.

Definition lift_store (f : Store.store → Store.store) : M unit :=
  fun st => (Ret tt, [], set_store (f (store st)) st).

(** [input(...).strip().lower() == 'y'] *)
Definition ask_yes : M bool :=
  s <- input ;; ret (bool_decide (Py.lower (Py.strip s) = "y")).

(** Line 321: [chapters_data['data'][0]['attributes']['chapter'] or 1]. *)
Definition first_chapter (ch : chapter) : Store.pyval :=
  match ch_chapter ch with
  | Some a => if decide (a = EmptyString) then Store.PInt 1 else Store.PStr a
  | None => Store.PInt 1
  end.

(** Lines 319-323: what [search] does once the user has asked to read. *)
Definition read_first_chapter (w : world) (manga_id : string) : M unit :=
  chapters_data <- Reader.get_chapters w manga_id ;;
  match chapters_data with
  | None | Some [] => ret tt
  | Some (ch :: _) =>
      Reader.read_chapter_enhanced w manga_id (first_chapter ch) 5 ;;;
      k <- tick ;;
      lift_store (Store.mark_chapter_read (now w k) manga_id (first_chapter ch))
  end.

(** Lines 315-323 of [search], for the entry the user has picked. *)
Definition search_selected (w : world) (manga_id title : string) : M unit :=
  track <- ask_yes ;;
  (if track then lift_store (Store.track_manga manga_id title) else ret tt) ;;;
  read_now <- ask_yes ;;
  if read_now then read_first_chapter w manga_id else ret tt.

(** One entry of the search results: [m['id']],
    [m['attributes']['title'].get('en')] and, for each tag,
    [t['attributes']['name']['en']] ([None]: the key is missing). *)
Record manga := {
  m_id : string;
  m_title_en : option string;
  m_tag_names : list (option string)
}.

(** [m['attributes']['title'].get('en', 'Unknown')] *)
Definition title_of (m : manga) : string :=
  match m_title_en m with
  | Some t => t
  | None => "Unknown"
  end.

(** [[t['attributes']['name']['en'] for t in tags]]: a tag without an
    English name raises [KeyError]. *)
Fixpoint tag_names (tags : list (option string)) : outcome (list string) :=
  match tags with
  | [] => Ret []
  | None :: _ => Raise KeyError
  | Some n :: rest =>
      match tag_names rest with
      | Ret l => Ret (n :: l)
      | Raise e => Raise e
      end
  end.

Fixpoint join (sep : string) (l : list string) : string :=
  match l with
  | [] => EmptyString
  | [x] => x
  | x :: rest => x +:+ sep +:+ join sep rest
  end.

(** Lines 301-304: the lines printed for the results, numbered from
    [idx]. *)
Fixpoint listing (idx : Z) (ms : list manga) : outcome (list string) :=
  match ms with
  | [] => Ret []
  | m :: rest =>
      match tag_names (take 3 (m_tag_names m)) with
      | Raise e => Raise e
      | Ret names =>
          match listing (idx + 1) rest with
          | Raise e => Raise e
          | Ret l =>
              Ret ((Py.str_of_int idx +:+ ". " +:+ title_of m +:+ " Tags: "
                    +:+ join ", " names) :: l)
          end
      end
  end.

(** Lines 305-311: the prompt is repeated until the user quits ([None])
    or types the number of an entry; the result is [int(choice) - 1]. *)
Fixpoint pick (n : Z) (inputs : list input_event) (st : state)
  : outcome (option Z) * list event * state :=
  match inputs with
  | [] => (Raise EOFError, [], set_stdin [] st)
  | Interrupt :: rest => (Raise KeyboardInterrupt, [], set_stdin rest st)
  | Line s :: rest =>
      let choice := Py.strip s in
      if decide (Py.lower choice = "q") then (Ret None, [], set_stdin rest st)
      else if negb (Py.isdigit choice)
              || negb ((1 <=? Py.int_of_digits choice)
                       && (Py.int_of_digits choice <=? n))
      then pick n rest st
      else (Ret (Some (Py.int_of_digits choice - 1)), [], set_stdin rest st)
  end.

(** [search], lines 295-323; [results] is what [search_manga] returned
    ([None] after a [RequestException], else the ['data'] list). *)
Definition search (w : world) (results : option (list manga)) : M unit :=
  lift_store (fun s => Store.load_data (Store.data_file s)) ;;;
  match results with
  | None | Some [] => ret tt
  | Some ms =>
      match listing 1 ms with
      | Raise e => raise e
      | Ret _ =>
          idx <- (fun st => pick (Z.of_nat (length ms)) (stdin st) st) ;;
          match idx with
          | None => ret tt
          | Some idx =>
              match Py.list_index ms idx with
              | None => raise IndexError
              | Some selected =>
                  search_selected w (m_id selected) (title_of selected)
              end
          end
      end
  end.

End Cli.

(** ** The system viewer: [display_image_terminal], lines 53-71 *)
Module Launcher.

(** What launching a program does: it runs, it exits with a non-zero
    status ([CalledProcessError]), it is not installed
    ([FileNotFoundError]), or the launch raises something else. *)
Inductive launch := Launched | ExitNonZero | NotFound | Failed.

Definition linux_viewers : list string := ["xdg-open"; "feh"; "display"; "eog"].

(** The [for] loop of lines 62-67 followed by line 68; the result and the
    programs tried, in order. *)
Fixpoint try_viewers (run : string → launch) (viewers : list string)
  : bool * list string :=
  match viewers with
  | [] => (true, [])
  | viewer :: rest =>
      match run viewer with
      | Launched => (true, [viewer])
      | ExitNonZero | NotFound =>
          let r := try_viewers run rest in (r.1, viewer :: r.2)
      | Failed => (false, [viewer])
      end
  end.

(** [system] is [platform.system()]; [run] is [subprocess.run([prog,
    image_path], check=True)] and, under the name [startfile],
    [os.startfile]. *)
Definition display_image_terminal (system : string) (run : string → launch)
  : bool * list string :=
  if decide (system = "Darwin") then
    match run "open" with
    | Launched => (true, ["open"])
    | _ => (false, ["open"])
    end
  else if decide (system = "Windows") then
    match run "startfile" with
    | Launched => (true, ["startfile"])
    | _ => (false, ["startfile"])
    end
  else if decide (system = "Linux") then try_viewers run linux_viewers
  else (true, []).

End Launcher.

(** * Vocabulary of the statements *)

Import Renderer Eff Reader.

(** ** Images *)

(** The luminance values of a single-channel 8-bit image. *)
Definition luminances : list Z := map Z.of_nat (seq 0 256).

Definition luminance (p : Z) : Prop := 0 <= p <= 255.

Definition pixel_ok (p : Z) : bool :=
  match pixel_chars p with
  | Some (String c (String c' EmptyString)) =>
      Ascii.eqb c c' && negb (Ascii.eqb c newline)
  | _ => false
  end.

Definition index_ok (p : Z) : bool :=
  match Renderer.char_index p with
  | Some k => k =? p * (67 - 1) / 255
  | None => false
  end.

(** The text built so far, after [r] full rows and [c] pixels of the
    current one. *)
Record rows_inv (width : Z) (r c : Z) (acc : string) : Prop := {
  inv_lines : ∃ ls cur, lines acc = ls ++ [cur] ∧
                Z.of_nat (length ls) = r ∧
                Forall (fun l => Z.of_nat (String.length l) = 2 * width) ls ∧
                Z.of_nat (String.length cur) = 2 * c;
  inv_breaks : Z.of_nat (count_newlines acc) = r
}.

(** ** Traces of effects *)

Definition visit (e : event) : option Z :=
  match e with
  | EvFetch i _ => Some i
  | EvInput i => Some i
  | _ => None
  end.

(** The indices at which a page is fetched or an input awaited. *)
Definition visited (evs : list event) : list Z := omap visit evs.

Definition fetch_of (e : event) : option Z :=
  match e with
  | EvFetch i _ => Some i
  | _ => None
  end.

Definition fetched (evs : list event) : list Z := omap fetch_of evs.

Definition show_of (e : event) : option (method * Z * bool) :=
  match e with
  | EvShow m p ok => Some (m, p, ok)
  | _ => None
  end.

(** The display attempts of a run. *)
Definition shows (evs : list event) : list (method * Z * bool) := omap show_of evs.

Definition failed_show (e : event) : bool :=
  match e with
  | EvShow Ascii _ _ => false
  | EvShow _ _ ok => negb ok
  | _ => false
  end.

Definition ascii_or_no_show (e : event) : bool :=
  match e with
  | EvShow Ascii _ _ => true
  | EvShow _ _ _ => false
  | _ => true
  end.

Definition has_failed (evs : list event) : bool := existsb failed_show evs.
Definition only_ascii (evs : list event) : bool := forallb ascii_or_no_show evs.

(** The events start with the notice of the downgrade and the ASCII
    rendering of page [p]; or they stop at the notice (a Ctrl-C during the
    rendering). *)
Definition starts_ascii (p : Z) (evs : list event) : bool :=
  match evs with
  | [EvPrint FallingBackToAscii] => true
  | EvPrint FallingBackToAscii :: EvShow Ascii q _ :: _ => q =? p
  | _ => false
  end.

(** Right after each download comes the ASCII rendering of that page, or
    the message of the failed load, or nothing (the run ends there). *)
Fixpoint ascii_after_fetch (evs : list event) : bool :=
  match evs with
  | [] => true
  | EvFetch i _ :: rest =>
      match rest with
      | [] => true
      | EvShow Ascii q _ :: _ => q =? i + 1
      | EvPrint (FailedToLoadPage q) :: _ => q =? i + 1
      | _ => false
      end && ascii_after_fetch rest
  | _ :: rest => ascii_after_fetch rest
  end.

(** The run stops inside a page: its last event is a download, or the
    notice of the fallback. *)
Definition ends_open (evs : list event) : bool :=
  match last evs with
  | Some (EvFetch _ _) | Some (EvPrint FallingBackToAscii) => true
  | _ => false
  end.

Definition page_of_show (e : event) : Z :=
  match e with
  | EvShow _ p _ => p
  | _ => 0
  end.

(** After a failed attempt of a back-end on a page: the notice and the
    ASCII rendering of that page, then ASCII renderings only, one for each
    page downloaded. *)
Fixpoint downgraded (evs : list event) : bool :=
  match evs with
  | [] => true
  | e :: rest =>
      (if failed_show e
       then starts_ascii (page_of_show e) rest && only_ascii rest
            && ascii_after_fetch rest
       else true)
      && downgraded rest
  end.

Definition enter_of (e : event) : option Z :=
  match e with
  | EvPrint (LoadingPage p) => Some (p - 1)
  | _ => None
  end.

(** The indices at which the body of the loop is entered (the message of
    line 212, printed before [pages[i]] is read). *)
Definition entered (evs : list event) : list Z := omap enter_of evs.

(** A world that neither interrupts the session nor breaks its
    bookkeeping: no Ctrl-C during a download or a display, the message of
    line 262 prints and [os.remove] succeeds.  Downloads, decoding,
    [image.save], the back-ends and the rendering may fail at will. *)
Definition gentle (w : world) : Prop :=
  ∀ k, fetch_ctrl_c (page w k) = false ∧
       (∀ m, display_ctrl_c (page w k) m = false) ∧
       report_ok (page w k) = true ∧ remove_ok (page w k) = true.

Definition no_show (e : event) : bool :=
  match e with
  | EvShow _ _ _ => false
  | _ => true
  end.

Definition is_remove (e : event) : bool :=
  match e with
  | EvRemove _ => true
  | _ => false
  end.

(** Effects on a page: its download, its display, its temporary file. *)
Definition page_effect (e : event) : bool :=
  match e with
  | EvFetch _ _ | EvSave _ | EvShow _ _ _ => true
  | _ => false
  end.

(** The effects of the part of the session that precedes the prompt. *)
Definition catalog_effect (e : event) : bool :=
  match e with
  | EvFeed _ _ | EvAtHome _
  | EvPrint NoChaptersFound | EvPrint NoPagesAvailable => true
  | _ => false
  end.

Definition display_choice_of (s : string) : string :=
  if decide (Py.strip s = EmptyString) then "1" else Py.strip s.

(** ** Concrete worlds for the examples *)

(** [str(float(s))] on decimal integer literals ([7] gives [7.0]); the
    other strings are outside this table and are answered like a string
    [float] rejects. *)
Definition str_float_literals (s : string) : option string :=
  match NilZero.uint_of_string s with
  | Some u => Some (NilZero.string_of_uint (Decimal.unorm u) +:+ ".0")
  | None => None
  end.

Definition ok_page : page_env :=
  {| fetch_ok := true; native_ok := true; save_ok := true;
     viewer_ok := true; browser_ok := true; ascii_ok := true;
     fetch_ctrl_c := false; display_ctrl_c := fun _ => false;
     report_ok := true; remove_ok := true |}.

Definition no_viewer : page_env :=
  {| fetch_ok := true; native_ok := true; save_ok := true;
     viewer_ok := false; browser_ok := true; ascii_ok := true;
     fetch_ctrl_c := false; display_ctrl_c := fun _ => false;
     report_ok := true; remove_ok := true |}.

Definition unreachable : page_env :=
  {| fetch_ok := false; native_ok := true; save_ok := true;
     viewer_ok := true; browser_ok := true; ascii_ok := true;
     fetch_ctrl_c := false; display_ctrl_c := fun _ => false;
     report_ok := true; remove_ok := true |}.

Definition chapters12 : list chapter :=
  [ {| ch_id := "c1"; ch_chapter := Some "1" |};
    {| ch_id := "c2"; ch_chapter := Some "2" |} ].

Definition unnumbered_then_one : list chapter :=
  [ {| ch_id := "c0"; ch_chapter := None |};
    {| ch_id := "c1"; ch_chapter := Some "1" |} ].

Definition payload3 : at_home_payload :=
  {| baseUrl := Some "https://cdn";
     chapter_ := Some {| hash := Some "h";
                         chapter_data := Some ["a.png"; "b.png"; "c.png"] |} |}.

Definition pages3 : list string :=
  ["https://cdn/data/h/a.png"; "https://cdn/data/h/b.png"; "https://cdn/data/h/c.png"].

Definition world_of (chs : list chapter) (pg : nat → page_env) : world :=
  {| str_float := str_float_literals;
     feed := fun _ _ _ => Answer chs;
     at_home := fun _ _ => Answer payload3;
     page := pg;
     now := fun _ => "2026-01-01T00:00:00" |}.

Definition offline_world : world := world_of chapters12 (fun _ => unreachable).

Definition viewer_fails_once (k : nat) : page_env :=
  if decide (k = 2%nat) then no_viewer else ok_page.

Definition empty_store : Store.store :=
  {| Store.data := {| Store.tracked_manga := ∅; Store.last_check := None |};
     Store.data_file := None |}.

Definition state0 (inputs : list Eff.input_event) : Eff.state :=
  {| Eff.stdin := inputs; Eff.clock := 0; Eff.files := ∅; Eff.store := empty_store |}.

Definition tracked_state (inputs : list input_event) : state :=
  set_store (Store.track_manga "m1" "Title" empty_store) (state0 inputs).

Definition viewer_run :=
  read_chapter_enhanced (world_of chapters12 viewer_fails_once) "m1"
    (Store.PStr "1") 5 (state0 [Line "2"; Line EmptyString; Line "q"]).


Definition three_pages_run :=
  read_pages (world_of chapters12 (fun _ => ok_page)) pages3 (Store.PStr "1") 5
    (state0 [Line "4"; Line EmptyString; Line EmptyString; Line EmptyString;
             Line EmptyString]).

Definition aborted_search :=
  Cli.search_selected offline_world "m1" "Title"
    (state0 [Line "y"; Line "y"; Line "4"]).

(** ** The store on disk *)

(** Reloading the file gives the data held in memory. *)
Definition persisted (s : Store.store) : Prop :=
  Store.data (Store.load_data (Store.data_file s)) = Store.data s.

(** The read chapters of a manga ([[]] when it is not tracked). *)
Definition chapters_read (manga_id : string) (s : Store.store) : list Store.pyval :=
  match Store.tracked_manga (Store.data s) !! manga_id with
  | Some r => Store.read_chapters r
  | None => []
  end.

(** Every tracked manga lists each read chapter once. *)
Definition no_repeats (s : Store.store) : Prop :=
  ∀ manga_id r, Store.tracked_manga (Store.data s) !! manga_id = Some r →
                NoDup (Store.read_chapters r).

Definition one_manga (manga_id : string) (r : Store.manga_record) : Store.store :=
  {| Store.data := {| Store.tracked_manga := {[ manga_id := r ]};
                      Store.last_check := None |};
     Store.data_file := None |}.

Definition berserk : Store.manga_record :=
  {| Store.title := "Berserk";
     Store.read_chapters := [Store.PStr "1"; Store.PStr "2"];
     Store.last_read := Some "2025-12-31T23:59:59";
     Store.total_chapters := 0 |}.

(** ** Sessions *)

(** The names of the temporary files of the first [n] pages. *)
Definition temp_files (n : nat) : gset string :=
  list_to_set (map (fun j => temp_path (Z.of_nat j + 1)) (seq 0 n)).

Definition is_save (e : event) : bool :=
  match e with
  | EvSave _ => true
  | _ => false
  end.

Definition download_of (e : event) : option (Z * string) :=
  match e with
  | EvFetch i url => Some (i, url)
  | _ => None
  end.

(** The downloads of a run: index and address. *)
Definition downloads (evs : list event) : list (Z * string) := omap download_of evs.

(** A line typed at a navigation prompt that moves to the next page. *)
Definition advances (ev : input_event) : bool :=
  match ev with
  | Line s =>
      negb (bool_decide (Py.lower (Py.strip s) = "q"))
      && negb (bool_decide (Py.lower (Py.strip s) = "b"))
  | Interrupt => false
  end.

Definition viewer_pages_run :=
  read_pages (world_of chapters12 (fun _ => ok_page)) pages3 (Store.PStr "1") 5
    (state0 [Line "2"; Line EmptyString; Line "q"]).

Definition letter_choice_run :=
  read_pages (world_of chapters12 (fun _ => ok_page)) pages3 (Store.PStr "1") 5
    (state0 [Line " x "; Line EmptyString; Line "q"]).

(** ** Chapter search *)

(** How the test of line 187 goes for one chapter: the chapter is passed
    over (no number, or a number whose text differs from the request), it
    is the one asked for, or its number cannot be parsed. *)
Definition skips (w : world) (wanted : string) (ch : chapter) : bool :=
  match ch_chapter ch with
  | None => true
  | Some a =>
      bool_decide (a = EmptyString) ||
      match str_float w a with
      | Some r => negb (bool_decide (r = wanted))
      | None => false
      end
  end.

Definition matches (w : world) (wanted : string) (ch : chapter) : bool :=
  match ch_chapter ch with
  | None => false
  | Some a =>
      negb (bool_decide (a = EmptyString)) && bool_decide (str_float w a = Some wanted)
  end.

Definition unparsable (w : world) (ch : chapter) : bool :=
  match ch_chapter ch with
  | None => false
  | Some a =>
      negb (bool_decide (a = EmptyString)) && bool_decide (str_float w a = None)
  end.

(** The page-list answer has every key the program reads. *)
Definition complete (p : at_home_payload) : bool :=
  match baseUrl p, chapter_ p with
  | Some _, Some c =>
      match hash c, chapter_data c with
      | Some _, Some _ => true
      | _, _ => false
      end
  | _, _ => false
  end.

Definition chapters_with_extra : list chapter :=
  [ {| ch_id := "c1"; ch_chapter := Some "1" |};
    {| ch_id := "cx"; ch_chapter := Some "10a" |} ].

Definition payload_without_hash : at_home_payload :=
  {| baseUrl := Some "https://cdn";
     chapter_ := Some {| hash := None; chapter_data := Some ["a.png"] |} |}.

Definition world_without_hash : world :=
  {| str_float := str_float_literals;
     feed := fun _ _ _ => Answer chapters12;
     at_home := fun _ _ => Answer payload_without_hash;
     page := fun _ => ok_page;
     now := fun _ => "2026-01-01T00:00:00" |}.

Definition interrupted_run :=
  read_chapter_enhanced (world_of chapters12 (fun _ => ok_page)) "m1"
    (Store.PStr "1") 5 (state0 [Line "2"; Interrupt]).



(** Pages on which something goes wrong outside the [try]: [os.remove]
    fails; the page cannot be downloaded and the message of the handler
    does not print; Ctrl-C during the download; the viewer fails and
    Ctrl-C arrives during the ASCII rendering. *)
Definition locked_files : page_env :=
  {| fetch_ok := true; native_ok := true; save_ok := true;
     viewer_ok := true; browser_ok := true; ascii_ok := true;
     fetch_ctrl_c := false; display_ctrl_c := fun _ => false;
     report_ok := true; remove_ok := false |}.

Definition bad_markup : page_env :=
  {| fetch_ok := false; native_ok := true; save_ok := true;
     viewer_ok := true; browser_ok := true; ascii_ok := true;
     fetch_ctrl_c := false; display_ctrl_c := fun _ => false;
     report_ok := false; remove_ok := true |}.

Definition ctrl_c_download : page_env :=
  {| fetch_ok := true; native_ok := true; save_ok := true;
     viewer_ok := true; browser_ok := true; ascii_ok := true;
     fetch_ctrl_c := true; display_ctrl_c := fun _ => false;
     report_ok := true; remove_ok := true |}.

Definition ctrl_c_fallback : page_env :=
  {| fetch_ok := true; native_ok := true; save_ok := true;
     viewer_ok := false; browser_ok := true; ascii_ok := true;
     fetch_ctrl_c := false;
     display_ctrl_c := fun m => bool_decide (m = Ascii);
     report_ok := true; remove_ok := true |}.

Definition session_in (pg : page_env) (inputs : list input_event) :=
  read_chapter_enhanced (world_of chapters12 (fun _ => pg)) "m1"
    (Store.PStr "1") 5 (state0 inputs).

(** The second [os.remove] of the cleanup fails. *)
Definition second_remove_fails (k : nat) : page_env :=
  if decide (k = 5%nat) then locked_files else ok_page.

Definition half_cleaned_run :=
  read_chapter_enhanced (world_of chapters12 second_remove_fails) "m1"
    (Store.PStr "1") 5 (state0 [Line "2"; Line EmptyString; Line "q"]).


(** ** The [search] command *)

(** A line typed at the pick prompt that is neither [q] nor the number of
    one of the [n] entries. *)
Definition rejected (n : Z) (ev : input_event) : bool :=
  match ev with
  | Line s =>
      negb (bool_decide (Py.lower (Py.strip s) = "q")) &&
      (negb (Py.isdigit (Py.strip s))
       || negb ((1 <=? Py.int_of_digits (Py.strip s))
                && (Py.int_of_digits (Py.strip s) <=? n)))
  | Interrupt => false
  end.

Definition two_results : list Cli.manga :=
  [ {| Cli.m_id := "m1"; Cli.m_title_en := Some "Title"; Cli.m_tag_names := [] |};
    {| Cli.m_id := "m2"; Cli.m_title_en := None;
       Cli.m_tag_names := [Some "Action"; Some "Drama"] |} ].

(** What the end of [search] may have done to the store [s]: nothing, or
    one [mark_chapter_read] for the manga. *)
Definition marked_or_same (manga_id : string) (s s' : Store.store) : Prop :=
  s' = s ∨ ∃ now chapter_number,
             s' = Store.mark_chapter_read now manga_id chapter_number s.

Definition crash_world : world := world_of chapters_with_extra (fun _ => ok_page).

Definition crashed_search :=
  Cli.search crash_world (Some two_results)
    (state0 [Line "1"; Line "y"; Line "y"; Line "4"]).

(** ** The system viewer *)

(** A launch that the loop over the Linux viewers shrugs off. *)
Definition shrugged_off (r : Launcher.launch) : bool :=
  match r with
  | Launcher.ExitNonZero | Launcher.NotFound => true
  | _ => false
  end.

Definition nothing_installed (prog : string) : Launcher.launch := Launcher.NotFound.

Definition only_feh (prog : string) : Launcher.launch :=
  if decide (prog = "feh") then Launcher.Launched else Launcher.NotFound.

(** ** The rendered text *)

(** The palette character of a luminance (a space where the program would
    raise). *)
Definition palette_char (p : Z) : ascii :=
  match pixel_chars p with
  | Some (String c _) => c
  | _ => " "%char
  end.

(** A row of pixels as text: each pixel's character, twice. *)
Fixpoint row_text (row : list Z) : string :=
  match row with
  | [] => EmptyString
  | p :: rest => String (palette_char p) (String (palette_char p) (row_text rest))
  end.

(** [sep + y1 + sep + y2 + ...] *)
Fixpoint after_each (sep : string) (l : list string) : string :=
  match l with
  | [] => EmptyString
  | y :: rest => sep +:+ y +:+ after_each sep rest
  end.

Definition palette_or_newline (c : ascii) : bool :=
  Ascii.eqb c newline || existsb (Ascii.eqb c) (list_ascii_of_string ascii_chars).

Fixpoint all_chars (f : ascii → bool) (s : string) : bool :=
  match s with
  | EmptyString => true
  | String c r => f c && all_chars f r
  end.

Definition pixel_in_palette (p : Z) : bool :=
  match pixel_chars p with
  | Some s => all_chars (fun c => existsb (Ascii.eqb c) (list_ascii_of_string ascii_chars)) s
  | None => false
  end.

Definition has_name (t : option string) : bool :=
  match t with
  | Some _ => true
  | None => false
  end.

(** The first three tags of the entry have an English name. *)
Definition named_tags (m : Cli.manga) : bool :=
  forallb has_name (take 3 (Cli.m_tag_names m)).

(** ** Proof steps *)

Ltac show_page_cases w st pages i :=
  unfold show_page, try_native, try_viewer, try_browser, try_ascii, displaying,
    add_file, bind, ret, raise, emit, tick; cbn;
  destruct (Py.list_index pages i); cbn;
  [ repeat (first [ case_decide
                  | case_bool_decide
                  | match goal with
                    | |- context [if ?b then _ else _] => destruct b
                    end ];
            simplify_eq; cbn)
  | ].

Ltac page_fact H L Hsp :=
  pose proof L as H; rewrite Hsp in H; cbn [fst snd] in H.

(** The facts [L] about the page of the current iteration. *)
Ltac page_facts L :=
  match goal with
  | Hsp : show_page ?w ?pages ?i ?c ?st = _ |- _ =>
      let H := fresh "Hpage" in
      pose proof (L w pages i c st) as H; rewrite Hsp in H; cbn [fst snd] in H
  end.


(** * Properties *)

(** ** The renderer *)

Lemma luminance_in (p : Z) : 0 <= p <= 255 → In p luminances.
Proof.
  intros Hp. unfold luminances. apply in_map_iff.
  exists (Z.to_nat p). split; [lia|]. apply in_seq. lia.
Qed.

(** A property checked on each of the 256 luminance values holds for
    every value in range. *)
Lemma by_luminance (f : Z → bool) :
  forallb f luminances = true → ∀ p, 0 <= p <= 255 → f p = true.
Proof.
  intros Hall p Hp. rewrite forallb_forall in Hall.
  apply Hall, luminance_in, Hp.
Qed.

Lemma pixel_chars_ok (p : Z) :
  0 <= p <= 255 →
  ∃ c, pixel_chars p = Some (String c (String c EmptyString)) ∧
       Ascii.eqb c newline = false.
Proof.
  intros Hp.
  assert (H : pixel_ok p = true).
  { apply by_luminance; [vm_compute; reflexivity | exact Hp]. }
  unfold pixel_ok in H.
  destruct (pixel_chars p) as [[|c [|c' [|? ?]]]|]; try discriminate.
  apply andb_true_iff in H as [Hc Hn].
  apply Ascii.eqb_eq in Hc. subst c'.
  exists c. split; [reflexivity|]. now apply negb_true_iff in Hn.
Qed.

Lemma count_newlines_app (a b : string) :
  count_newlines (a +:+ b) = (count_newlines a + count_newlines b)%nat.
Proof.
  induction a as [|c a IH]; simpl; [reflexivity|].
  destruct (Ascii.eqb c newline); simpl; now rewrite IH.
Qed.

Lemma string_length_app (a b : string) :
  String.length (a +:+ b) = (String.length a + String.length b)%nat.
Proof. induction a as [|c a IH]; simpl; [reflexivity | now rewrite IH]. Qed.

Lemma lines_snoc (a : string) : ∃ ls cur, lines a = ls ++ [cur].
Proof.
  induction a as [|c a (ls & cur & IH)]; simpl.
  - now exists [], EmptyString.
  - destruct (Ascii.eqb c newline).
    + exists (EmptyString :: ls), cur. now rewrite IH.
    + rewrite IH. destruct ls as [|l ls]; simpl.
      * now exists [], (String c cur).
      * now exists (String c l :: ls), cur.
Qed.

(** Lines of a concatenation: the last line of the first text is glued to
    the first line of the second. *)
Lemma lines_app (a b : string) ls cur lb lbs :
  lines a = ls ++ [cur] → lines b = lb :: lbs →
  lines (a +:+ b) = ls ++ (cur +:+ lb) :: lbs.
Proof.
  revert ls cur. induction a as [|c a IH]; intros ls cur Ha Hb; simpl in *.
  - destruct ls as [|? [|? ?]]; simpl in Ha; simplify_eq. simpl. exact Hb.
  - destruct (lines_snoc a) as (ls' & cur' & Ha').
    specialize (IH ls' cur' Ha' Hb).
    rewrite Ha' in Ha. rewrite IH.
    destruct (Ascii.eqb c newline).
    + rewrite app_comm_cons in Ha. apply app_inj_tail in Ha as [<- <-].
      reflexivity.
    + destruct ls' as [|l ls']; simpl in *.
      * change [String c cur'] with ([] ++ [String c cur']) in Ha.
        apply app_inj_tail in Ha as [<- <-]. reflexivity.
      * rewrite app_comm_cons in Ha. apply app_inj_tail in Ha as [<- <-].
        reflexivity.
Qed.

Lemma rows_inv_pixel width r c acc ch :
  Ascii.eqb ch newline = false →
  rows_inv width r c acc →
  rows_inv width r (c + 1) (acc +:+ String ch (String ch EmptyString)).
Proof.
  intros Hch [(ls & cur & Hl & Hr & Hall & Hcur) Hbr]. split.
  - exists ls, (cur +:+ String ch (String ch EmptyString)).
    split; [|split; [exact Hr|split; [exact Hall|]]].
    + rewrite (lines_app acc _ ls cur (String ch (String ch EmptyString)) []);
        [reflexivity | exact Hl |].
      simpl. rewrite Hch. reflexivity.
    + rewrite string_length_app. simpl. lia.
  - rewrite count_newlines_app. simpl. rewrite Hch. lia.
Qed.

Lemma rows_inv_break width r acc :
  rows_inv width r width acc →
  rows_inv width (r + 1) 0 (acc +:+ String newline EmptyString).
Proof.
  intros [(ls & cur & Hl & Hr & Hall & Hcur) Hbr]. split.
  - exists (ls ++ [cur]), EmptyString.
    split; [|split; [|split]].
    + rewrite (lines_app acc _ ls cur EmptyString [EmptyString]);
        [| exact Hl | reflexivity].
      assert (Hc : cur +:+ EmptyString = cur).
      { clear. induction cur as [|a cur IH]; [reflexivity|].
        change (String a (cur +:+ EmptyString) = String a cur). now rewrite IH. }
      rewrite Hc. now rewrite <- app_assoc.
    + rewrite length_app. simpl. lia.
    + apply Forall_app. split; [exact Hall|]. constructor; [lia | constructor].
    + reflexivity.
  - rewrite count_newlines_app. simpl. lia.
Qed.

(** The loop from inside the image: position [r * width + c] with
    [1 <= c <= width]. *)
Lemma render_from_rows width (Hw : 0 < width) pixels :
  Forall (fun p => 0 <= p <= 255) pixels →
  ∀ r c acc, 0 <= r → 1 <= c <= width → rows_inv width r c acc →
  ∃ s r' c', render_from width (r * width + c) pixels acc = Some s ∧
             r' * width + c' = r * width + c + Z.of_nat (length pixels) ∧
             0 <= r' ∧ 1 <= c' <= width ∧ rows_inv width r' c' s.
Proof.
  induction 1 as [|p pixels Hp _ IH]; intros r c acc Hr Hc Hinv.
  - exists acc, r, c. simpl. repeat split; try lia; apply Hinv.
  - destruct (pixel_chars_ok p Hp) as (ch & Hpc & Hch).
    cbn [render_from]. rewrite Hpc.
    destruct (Z.eqb_spec width 0) as [?|_]; [lia|].
    destruct (Z.eq_dec c width) as [->|Hne].
    + replace ((r * width + width) mod width) with 0
        by (symmetry; apply Z.rem_mod_eq_0; [lia|]; rewrite Z.rem_mod_nonneg by nia;
            replace (r * width + width) with ((r + 1) * width) by lia;
            apply Z.mod_mul; lia).
      rewrite Z.eqb_refl.
      destruct (Z.eqb_spec (r * width + width) 0) as [?|_]; [nia|]. simpl andb. cbv iota.
      destruct (IH (r + 1) 1
                  ((acc +:+ String newline EmptyString) +:+ String ch (String ch EmptyString)))
        as (s & r' & c' & Hs & Heq & Hr' & Hc' & Hinv'); [lia | lia | |].
      { change 1 with (0 + 1). apply rows_inv_pixel; [exact Hch|].
        now apply rows_inv_break. }
      exists s, r', c'. replace (r * width + width + 1) with ((r + 1) * width + 1) by lia.
      rewrite Hs. repeat split; try lia; try apply Hinv'.
      rewrite length_cons. lia.
    + replace ((r * width + c) mod width =? 0) with false.
      2:{ symmetry. apply Z.eqb_neq.
          rewrite Z.add_comm, Z.mod_add by lia. rewrite Z.mod_small by lia. lia. }
      simpl andb. cbv iota.
      destruct (IH r (c + 1) (acc +:+ String ch (String ch EmptyString)))
        as (s & r' & c' & Hs & Heq & Hr' & Hc' & Hinv'); [lia | lia | |].
      { now apply rows_inv_pixel. }
      exists s, r', c'. replace (r * width + c + 1) with (r * width + (c + 1)) by lia.
      rewrite Hs. repeat split; try lia; try apply Hinv'.
      rewrite length_cons. lia.
Qed.

Example palette_len : String.length Renderer.ascii_chars = 67%nat.
Proof. reflexivity. Qed.

Example render_2x2 :
  Renderer.image_to_ascii 2 [0; 255; 128; 15] =
  Some ("  $$" +:+ String Renderer.newline "uu``").
Proof. vm_compute. reflexivity. Qed.

(** C6, as the code has it: for a resized image of [width > 0] by
    [height > 0] luminance pixels the renderer returns a text of exactly
    [height] lines of [2 * width] characters each, separated by
    [height - 1] line breaks (none after the last line). *)
Theorem image_to_ascii_shape (width height : Z) (pixels : list Z) :
  0 < width → 0 < height →
  Z.of_nat (length pixels) = width * height →
  Forall luminance pixels →
  ∃ s, Renderer.image_to_ascii width pixels = Some s ∧
       Z.of_nat (Renderer.count_newlines s) = height - 1 ∧
       Z.of_nat (length (Renderer.lines s)) = height ∧
       Forall (fun l => Z.of_nat (String.length l) = 2 * width) (Renderer.lines s).
Proof.
  intros Hw Hh Hlen Hpx.
  destruct pixels as [|p rest]; [simpl in Hlen; nia|].
  apply Forall_cons in Hpx as [Hp Hrest].
  destruct (pixel_chars_ok p Hp) as (ch & Hpc & Hch).
  unfold Renderer.image_to_ascii. cbn [Renderer.render_from].
  destruct (Z.eqb_spec width 0) as [?|_]; [lia|].
  rewrite Hpc, andb_false_r.
  assert (Hinv : rows_inv width 0 1 (EmptyString +:+ String ch (String ch EmptyString))).
  { split; simpl; rewrite Hch; [|reflexivity].
    exists [], (String ch (String ch EmptyString)). repeat split; constructor. }
  destruct (render_from_rows width Hw rest Hrest 0 1 _ ltac:(lia) ltac:(lia) Hinv)
    as (s & r' & c' & Hs & Heq & Hr' & Hc' & [(ls & cur & Hl & Hls & Hall & Hcur) Hbr]).
  rewrite length_cons in Hlen.
  assert (Hr'eq : r' = height - 1) by nia.
  assert (Hc'eq : c' = width) by nia.
  subst r' c'. exists s. replace (0 * width + 1) with (0 + 1) in Hs by lia. rewrite Hs.
  split; [reflexivity|]. split; [lia|]. rewrite Hl. split.
  - rewrite length_app. simpl. lia.
  - apply Forall_app. split; [exact Hall|]. constructor; [exact Hcur | constructor].
Qed.

Lemma image_to_ascii_shape_witness :
  ∃ s, Renderer.image_to_ascii 2 [0; 255; 128; 15] = Some s ∧
       Z.of_nat (Renderer.count_newlines s) = 2 - 1 ∧
       Z.of_nat (length (Renderer.lines s)) = 2 ∧
       Forall (fun l => Z.of_nat (String.length l) = 2 * 2) (Renderer.lines s).
Proof.
  apply (image_to_ascii_shape 2 2 [0; 255; 128; 15]); [lia | lia | reflexivity |].
  repeat constructor; unfold luminance; lia.
Defined.

(** C6 as stated fails: a 1 x 1 image is rendered as one line with no
    line break at all, not [height = 1] line breaks. *)
Lemma image_to_ascii_breaks_counterexample :
  Renderer.image_to_ascii 1 [0] = Some "  " ∧
  ¬ (∀ (width height : Z) (pixels : list Z),
       0 < width → 0 < height →
       Z.of_nat (length pixels) = width * height →
       Forall luminance pixels →
       ∃ s, Renderer.image_to_ascii width pixels = Some s ∧
            Z.of_nat (Renderer.count_newlines s) = height ∧
            Forall (fun l => Z.of_nat (String.length l) = 2 * width)
                   (Renderer.lines s)).
Proof.
  split; [vm_compute; reflexivity|].
  intros H.
  destruct (H 1 1 [0]) as (s & Hs & Hn & _); [lia | lia | reflexivity | |].
  - repeat constructor; unfold luminance; lia.
  - vm_compute in Hs. injection Hs as <-. vm_compute in Hn. discriminate.
Qed.

Lemma char_index_floor (p : Z) :
  luminance p → Renderer.char_index p = Some (p * (67 - 1) / 255).
Proof.
  intros Hp.
  assert (H : index_ok p = true).
  { apply by_luminance; [vm_compute; reflexivity | exact Hp]. }
  unfold index_ok in H. destruct (Renderer.char_index p); [|discriminate].
  apply Z.eqb_eq in H. now subst.
Qed.

(** C7, as the code has it: the palette has 67 characters; for luminances
    [p <= q] the index is [floor(p * (67 - 1) / 255)] (the binary64
    computation of the program agrees with the exact quotient), luminance
    0 maps to index 0, luminance 255 to the last index, and the mapping
    is monotonic. *)
Theorem char_index_linear (p q : Z) :
  0 <= p → p <= q → q <= 255 →
  String.length Renderer.ascii_chars = 67%nat ∧
  Renderer.char_index p = Some (p * (67 - 1) / 255) ∧
  Renderer.char_index 0 = Some 0 ∧
  Renderer.char_index 255 = Some (Z.of_nat (String.length Renderer.ascii_chars) - 1) ∧
  ∃ a b, Renderer.char_index p = Some a ∧ Renderer.char_index q = Some b ∧ a <= b.
Proof.
  intros H0 Hpq H255.
  split; [reflexivity|].
  split; [apply char_index_floor; unfold luminance; lia|].
  split; [vm_compute; reflexivity|].
  split; [vm_compute; reflexivity|].
  exists (p * (67 - 1) / 255), (q * (67 - 1) / 255).
  split; [apply char_index_floor; unfold luminance; lia|].
  split; [apply char_index_floor; unfold luminance; lia|].
  apply Z.div_le_mono; lia.
Qed.

Lemma char_index_linear_witness :
  String.length Renderer.ascii_chars = 67%nat ∧
  Renderer.char_index 10 = Some (10 * (67 - 1) / 255) ∧
  Renderer.char_index 0 = Some 0 ∧
  Renderer.char_index 255 = Some (Z.of_nat (String.length Renderer.ascii_chars) - 1) ∧
  ∃ a b, Renderer.char_index 10 = Some a ∧ Renderer.char_index 200 = Some b ∧ a <= b.
Proof. apply (char_index_linear 10 200); lia. Defined.

(** C7 as stated fails: the palette of line 165 has 67 characters, not 69,
    so luminance 255 maps to index 66. *)
Lemma palette_size_counterexample :
  String.length Renderer.ascii_chars ≠ 69%nat ∧
  Renderer.char_index 255 ≠ Some (69 - 1).
Proof. split; vm_compute; discriminate. Qed.

(** ** The progress store *)

(** C9: marking a chapter of a manga that is not tracked changes neither
    the data in memory nor the file, and raises nothing. *)
Theorem mark_chapter_read_untracked (now manga_id : string)
    (chapter_number : Store.pyval) (st : Eff.state) :
  Store.tracked_manga (Store.data (Eff.store st)) !! manga_id = None →
  Store.mark_chapter_read now manga_id chapter_number (Eff.store st) = Eff.store st ∧
  Cli.lift_store (Store.mark_chapter_read now manga_id chapter_number) st
    = (Eff.Ret tt, [], st).
Proof.
  intros Hnone.
  assert (H : Store.mark_chapter_read now manga_id chapter_number (Eff.store st)
              = Eff.store st).
  { unfold Store.mark_chapter_read. now rewrite Hnone. }
  split; [exact H|].
  unfold Cli.lift_store. rewrite H. now destruct st.
Qed.

Lemma mark_chapter_read_untracked_witness :
  Store.mark_chapter_read "2026-01-01T00:00:00" "m1" (Store.PStr "1")
    (Eff.store (state0 [])) = Eff.store (state0 []) ∧
  Cli.lift_store
    (Store.mark_chapter_read "2026-01-01T00:00:00" "m1" (Store.PStr "1")) (state0 [])
    = (Eff.Ret tt, [], state0 []).
Proof.
  apply (mark_chapter_read_untracked "2026-01-01T00:00:00" "m1" (Store.PStr "1") (state0 [])).
  reflexivity.
Defined.

(** ** One page *)

Lemma show_page_visited w pages i c st :
  Forall (eq i) (visited (show_page w pages i c st).1.2) ∧
  Forall (eq i) (entered (show_page w pages i c st).1.2).
Proof.
  show_page_cases w st pages i; split; repeat constructor; lia.
Qed.

Lemma show_page_interrupted w pages i c st evs st1 :
  show_page w pages i c st = (Raise KeyboardInterrupt, evs, st1) →
  fetch_ctrl_c (page w (clock st)) = true ∨
  display_ctrl_c (page w (clock st)) Native = true ∨
  display_ctrl_c (page w (clock st)) SystemViewer = true ∨
  display_ctrl_c (page w (clock st)) Browser = true ∨
  display_ctrl_c (page w (clock st)) Ascii = true.
Proof.
  show_page_cases w st pages i; intros; simplify_eq; auto 6.
Qed.

(** What leaves the body of the [try]: an [Exception], or the
    [KeyboardInterrupt] of a Ctrl-C typed during the download or the
    display. *)
Lemma show_page_raises w pages i c st e evs st1 :
  show_page w pages i c st = (Raise e, evs, st1) →
  is_Exception e = true ∨
  (e = KeyboardInterrupt ∧
   (fetch_ctrl_c (page w (clock st)) = true ∨
    ∃ m, display_ctrl_c (page w (clock st)) m = true)).
Proof.
  intros H. destruct (is_Exception e) eqn:He; [now left|]. right.
  assert (e = KeyboardInterrupt) as ->.
  { revert H He. show_page_cases w st pages i; intros; simplify_eq; reflexivity. }
  split; [reflexivity|].
  apply show_page_interrupted in H as [?|[?|[?|[?|?]]]]; eauto.
Qed.

Lemma show_page_store w pages i c st :
  store (show_page w pages i c st).2 = store st.
Proof. show_page_cases w st pages i; reflexivity. Qed.

(** A failed back-end is followed at once by the notice and the ASCII
    rendering of the same page, and leaves [display_choice] at [4]. *)
Lemma show_page_downgraded w pages i c st :
  downgraded (show_page w pages i c st).1.2 = true ∧
  (∀ e, (show_page w pages i c st).1.1 = Raise e → is_Exception e = true →
        downgraded ((show_page w pages i c st).1.2
                    ++ [EvPrint (FailedToLoadPage (i + 1))]) = true) ∧
  (has_failed (show_page w pages i c st).1.2 = true →
   ∀ c', (show_page w pages i c st).1.1 = Ret c' → c' = "4") ∧
  (∀ c', (show_page w pages i c st).1.1 = Ret c' →
         ends_open (show_page w pages i c st).1.2 = false).
Proof.
  show_page_cases w st pages i; rewrite ?Z.eqb_refl;
    (split; [reflexivity|]; split; [intros; simplify_eq; reflexivity|];
     split; intros; simplify_eq; reflexivity).
Qed.

(** A page that stops at the notice of the fallback was interrupted. *)
Lemma show_page_falling w pages i c st :
  last (show_page w pages i c st).1.2 = Some (EvPrint FallingBackToAscii) →
  (show_page w pages i c st).1.1 = Raise KeyboardInterrupt.
Proof.
  show_page_cases w st pages i; intros; simplify_eq; reflexivity.
Qed.

(** With [display_choice] at [4] a page is downloaded and rendered as
    ASCII, nothing else. *)
Lemma show_page_ascii w pages i c st :
  c = "4" →
  only_ascii (show_page w pages i c st).1.2 = true ∧
  ascii_after_fetch (show_page w pages i c st).1.2 = true ∧
  ascii_after_fetch ((show_page w pages i c st).1.2
                     ++ [EvPrint (FailedToLoadPage (i + 1))]) = true ∧
  ∀ c', (show_page w pages i c st).1.1 = Ret c' → c' = "4".
Proof.
  intros ->.
  show_page_cases w st pages i; rewrite ?Z.eqb_refl;
    (split; [reflexivity|]; split; [reflexivity|];
     split; [reflexivity | intros; simplify_eq; reflexivity]).
Qed.

(** ** The page loop *)

Lemma only_ascii_app a b : only_ascii (a ++ b) = only_ascii a && only_ascii b.
Proof. apply forallb_app. Qed.

Lemma has_failed_app a b : has_failed (a ++ b) = has_failed a || has_failed b.
Proof. apply existsb_app. Qed.

Lemma visited_app a b : visited (a ++ b) = visited a ++ visited b.
Proof. apply omap_app. Qed.

Lemma entered_app a b : entered (a ++ b) = entered a ++ entered b.
Proof. apply omap_app. Qed.

Lemma ends_open_cons e a : a ≠ [] → ends_open (e :: a) = ends_open a.
Proof. destruct a; [done|]. reflexivity. Qed.

Lemma ascii_after_fetch_app a b :
  ends_open a = false →
  ascii_after_fetch (a ++ b) = ascii_after_fetch a && ascii_after_fetch b.
Proof.
  induction a as [|e a IH]; [reflexivity|]. intros Ho.
  destruct a as [|e' a].
  - destruct e; try reflexivity. discriminate.
  - rewrite ends_open_cons in Ho by done. specialize (IH Ho).
    change ((e :: e' :: a) ++ b) with (e :: (e' :: a) ++ b).
    destruct e; try exact IH.
    change (ascii_after_fetch (EvFetch i url :: (e' :: a) ++ b))
      with (match e' with
            | EvShow Ascii q _ => q =? i + 1
            | EvPrint (FailedToLoadPage q) => q =? i + 1
            | _ => false
            end && ascii_after_fetch ((e' :: a) ++ b)).
    change (ascii_after_fetch (EvFetch i url :: e' :: a))
      with (match e' with
            | EvShow Ascii q _ => q =? i + 1
            | EvPrint (FailedToLoadPage q) => q =? i + 1
            | _ => false
            end && ascii_after_fetch (e' :: a)).
    rewrite IH. now rewrite andb_assoc.
Qed.

Lemma starts_ascii_inv p evs :
  starts_ascii p evs = true →
  evs = [EvPrint FallingBackToAscii] ∨
  ∃ ok rest, evs = EvPrint FallingBackToAscii :: EvShow Ascii p ok :: rest.
Proof.
  destruct evs as [|e1 [|e2 evs]]; try discriminate;
    destruct e1 as [| |m1| | | | | |]; try discriminate;
    destruct m1; try discriminate; [now left|].
  destruct e2 as [| | | | | |m2 q ok| |]; try discriminate.
  destruct m2; try discriminate. cbn. intros ->%Z.eqb_eq. eauto.
Qed.

Lemma starts_ascii_app p a b :
  starts_ascii p a = true → ends_open a = false →
  starts_ascii p (a ++ b) = true.
Proof.
  intros [->|(ok & rest & ->)]%starts_ascii_inv; [discriminate|]. intros _.
  cbn. apply Z.eqb_refl.
Qed.

Lemma starts_ascii_open p a : starts_ascii p a = true → a ≠ [].
Proof. now destruct a. Qed.

(** Two stretches of a run put end to end. *)
Lemma downgraded_app a b :
  downgraded a = true → downgraded b = true → ends_open a = false →
  (has_failed a = true → only_ascii b = true ∧ ascii_after_fetch b = true) →
  downgraded (a ++ b) = true.
Proof.
  induction a as [|e a IH]; intros Ha Hb Ho Hf; [exact Hb|].
  cbn [app downgraded] in *. apply andb_true_iff in Ha as [He Ha].
  apply andb_true_iff. split.
  - destruct (failed_show e) eqn:Hfe; [|reflexivity].
    apply andb_true_iff in He as [He Haf]. apply andb_true_iff in He as [Hs Hoa].
    destruct Hf as [Hb1 Hb2]; [cbn; now rewrite Hfe|].
    rewrite ends_open_cons in Ho by (now apply starts_ascii_open in Hs).
    rewrite (starts_ascii_app _ _ _ Hs Ho), only_ascii_app, Hoa, Hb1.
    now rewrite (ascii_after_fetch_app _ _ Ho), Haf, Hb2.
  - destruct a as [|e' a]; [exact Hb|].
    apply IH; [exact Ha | exact Hb | |].
    + rewrite ends_open_cons in Ho; [exact Ho | discriminate].
    + intros Hfa. apply Hf. unfold has_failed in *.
      change (existsb failed_show (e :: e' :: a))
        with (failed_show e || existsb failed_show (e' :: a)).
      rewrite Hfa. apply orb_true_r.
Qed.

(** One unfolding of the loop. *)
Lemma walk_eq w pages max_pages inputs i c st :
  walk w pages max_pages inputs i c st =
  if i <? Z.min max_pages (Z.of_nat (length pages)) then
    match show_page w pages i c st with
    | (Raise e, evs, st1) =>
        if is_Exception e
        then if report_ok (page w (clock st))
             then (Ret tt, evs ++ [EvPrint (FailedToLoadPage (i + 1))],
                   set_stdin inputs st1)
             else (Raise MarkupError, evs, set_stdin inputs st1)
        else (Raise e, evs, set_stdin inputs st1)
    | (Ret c', evs, st1) =>
        match inputs with
        | [] =>
            (Ret tt, evs ++ [EvInput i; EvPrint (FailedToLoadPage (i + 1))],
             set_stdin [] st1)
        | Interrupt :: rest =>
            (Raise KeyboardInterrupt, evs ++ [EvInput i], set_stdin rest st1)
        | Line s :: rest =>
            if decide (Py.lower (Py.strip s) = "q") then
              (Ret tt, evs ++ [EvInput i], set_stdin rest st1)
            else if bool_decide (Py.lower (Py.strip s) = "b") && (0 <? i) then
              prepend (evs ++ [EvInput i]) (walk w pages max_pages rest (i - 1) c' st1)
            else
              prepend (evs ++ [EvInput i]) (walk w pages max_pages rest (i + 1) c' st1)
        end
    end
  else (Ret tt, [], set_stdin inputs st).
Proof. destruct inputs; reflexivity. Qed.

(** Induction along the iterations of the loop: the ways an iteration
    ends, each with what the code knows at that point. *)
Lemma walk_ind w pages max_pages
    (P : list input_event → Z → string → state →
         outcome unit * list event * state → Prop) :
  (∀ inputs i c st,
     ¬ i < Z.min max_pages (Z.of_nat (length pages)) →
     P inputs i c st (Ret tt, [], set_stdin inputs st)) →
  (∀ inputs i c st e evs st1,
     i < Z.min max_pages (Z.of_nat (length pages)) →
     show_page w pages i c st = (Raise e, evs, st1) →
     is_Exception e = true → report_ok (page w (clock st)) = true →
     P inputs i c st
       (Ret tt, evs ++ [EvPrint (FailedToLoadPage (i + 1))], set_stdin inputs st1)) →
  (∀ inputs i c st e evs st1,
     i < Z.min max_pages (Z.of_nat (length pages)) →
     show_page w pages i c st = (Raise e, evs, st1) →
     is_Exception e = true → report_ok (page w (clock st)) = false →
     P inputs i c st (Raise MarkupError, evs, set_stdin inputs st1)) →
  (∀ inputs i c st evs st1,
     i < Z.min max_pages (Z.of_nat (length pages)) →
     show_page w pages i c st = (Raise KeyboardInterrupt, evs, st1) →
     fetch_ctrl_c (page w (clock st)) = true ∨
     (∃ m, display_ctrl_c (page w (clock st)) m = true) →
     P inputs i c st (Raise KeyboardInterrupt, evs, set_stdin inputs st1)) →
  (∀ i c st c' evs st1,
     i < Z.min max_pages (Z.of_nat (length pages)) →
     show_page w pages i c st = (Ret c', evs, st1) →
     P [] i c st
       (Ret tt, evs ++ [EvInput i; EvPrint (FailedToLoadPage (i + 1))],
        set_stdin [] st1)) →
  (∀ rest i c st c' evs st1,
     i < Z.min max_pages (Z.of_nat (length pages)) →
     show_page w pages i c st = (Ret c', evs, st1) →
     P (Interrupt :: rest) i c st
       (Raise KeyboardInterrupt, evs ++ [EvInput i], set_stdin rest st1)) →
  (∀ s rest i c st c' evs st1,
     i < Z.min max_pages (Z.of_nat (length pages)) →
     show_page w pages i c st = (Ret c', evs, st1) →
     Py.lower (Py.strip s) = "q" →
     P (Line s :: rest) i c st (Ret tt, evs ++ [EvInput i], set_stdin rest st1)) →
  (∀ s rest i c st c' evs st1 r,
     i < Z.min max_pages (Z.of_nat (length pages)) →
     show_page w pages i c st = (Ret c', evs, st1) →
     Py.lower (Py.strip s) = "b" → 0 < i →
     P rest (i - 1) c' st1 r →
     P (Line s :: rest) i c st (prepend (evs ++ [EvInput i]) r)) →
  (∀ s rest i c st c' evs st1 r,
     i < Z.min max_pages (Z.of_nat (length pages)) →
     show_page w pages i c st = (Ret c', evs, st1) →
     Py.lower (Py.strip s) ≠ "q" →
     Py.lower (Py.strip s) ≠ "b" ∨ i <= 0 →
     P rest (i + 1) c' st1 r →
     P (Line s :: rest) i c st (prepend (evs ++ [EvInput i]) r)) →
  ∀ inputs i c st, P inputs i c st (walk w pages max_pages inputs i c st).
Proof.
  intros Hdone Hexn Hmark Hctrl Heof Hint Hquit Hback Hnext inputs.
  assert (Hraise : ∀ inputs i c st e evs st1,
             i < Z.min max_pages (Z.of_nat (length pages)) →
             show_page w pages i c st = (Raise e, evs, st1) →
             P inputs i c st
               (if is_Exception e
                then if report_ok (page w (clock st))
                     then (Ret tt, evs ++ [EvPrint (FailedToLoadPage (i + 1))],
                           set_stdin inputs st1)
                     else (Raise MarkupError, evs, set_stdin inputs st1)
                else (Raise e, evs, set_stdin inputs st1))).
  { intros inps i c st e evs st1 Hlt Hsp.
    destruct (show_page_raises _ _ _ _ _ _ _ _ Hsp) as [He|[-> Hc]].
    - rewrite He. destruct (report_ok (page w (clock st))) eqn:Hr;
        [eapply Hexn | eapply Hmark]; eauto.
    - cbn. eapply Hctrl; eauto. }
  induction inputs as [|ev rest IH]; intros i c st; rewrite walk_eq;
    (destruct (Z.ltb_spec i (Z.min max_pages (Z.of_nat (length pages))));
     [|apply Hdone; lia]);
    destruct (show_page w pages i c st) as [[[c'|e] evs] st1] eqn:Hsp.
  - eapply Heof; eauto.
  - now apply Hraise.
  - destruct ev as [s|]; [|eapply Hint; eauto].
    case_decide; [eapply Hquit; eauto|].
    case_bool_decide; cbn [andb].
    + destruct (Z.ltb_spec 0 i).
      * eapply Hback; eauto.
      * eapply Hnext; eauto.
    + eapply Hnext; eauto.
  - now apply Hraise.
Qed.

Lemma walk_visited w pages max_pages inputs i c st :
  0 <= i →
  Forall (fun j => 0 <= j < Z.min max_pages (Z.of_nat (length pages)))
         (visited (walk w pages max_pages inputs i c st).1.2) ∧
  Forall (fun j => 0 <= j < Z.min max_pages (Z.of_nat (length pages)))
         (entered (walk w pages max_pages inputs i c st).1.2).
Proof.
  revert inputs i c st.
  apply (walk_ind w pages max_pages
           (fun _ i _ _ r =>
              0 <= i →
              Forall (fun j => 0 <= j < Z.min max_pages (Z.of_nat (length pages)))
                     (visited r.1.2) ∧
              Forall (fun j => 0 <= j < Z.min max_pages (Z.of_nat (length pages)))
                     (entered r.1.2)));
    cbn [fst snd prepend]; intros.
  1: split; constructor.
  all: page_facts show_page_visited; destruct Hpage as [Hv He].
  all: assert (Hv' : Forall (fun j => 0 <= j < Z.min max_pages (Z.of_nat (length pages)))
                            (visited evs))
         by (eapply Forall_impl; [exact Hv|]; intros j <-; lia).
  all: assert (He' : Forall (fun j => 0 <= j < Z.min max_pages (Z.of_nat (length pages)))
                            (entered evs))
         by (eapply Forall_impl; [exact He|]; intros j <-; lia).
  all: rewrite ?visited_app, ?entered_app; cbn [visited entered omap visit enter_of].
  all: rewrite ?app_nil_r.
  all: try (split; [try exact Hv' | try exact He'];
            repeat (apply Forall_app; split); try assumption;
            repeat constructor; lia).
  all: match goal with
       | IH : _ → _ ∧ _ |- _ => destruct IH as [IHv IHe]; [lia|]
       end.
  all: split; repeat (apply Forall_app; split); try assumption;
       repeat constructor; lia.
Qed.


Lemma walk_store w pages max_pages inputs i c st :
  store (walk w pages max_pages inputs i c st).2 = store st.
Proof.
  revert inputs i c st.
  apply (walk_ind w pages max_pages (fun _ _ _ st r => store r.2 = store st));
    cbn [fst snd prepend]; intros;
    try page_facts show_page_store;
    try reflexivity; try assumption; congruence.
Qed.

Lemma ends_open_app a b :
  ends_open (a ++ b) = match b with [] => ends_open a | _ => ends_open b end.
Proof.
  unfold ends_open. rewrite last_app. destruct b as [|e b]; [reflexivity|].
  destruct (last (e :: b)) eqn:Hl; [reflexivity|].
  now apply last_None in Hl.
Qed.

(** A loop that ends normally does not stop between a download and its
    display. *)
Lemma walk_closed w pages max_pages inputs i c st :
  (walk w pages max_pages inputs i c st).1.1 = Ret tt →
  ends_open (walk w pages max_pages inputs i c st).1.2 = false.
Proof.
  revert inputs i c st.
  apply (walk_ind w pages max_pages
           (fun _ _ _ _ r => r.1.1 = Ret tt → ends_open r.1.2 = false));
    cbn [fst snd prepend]; intros; try discriminate;
    rewrite ?ends_open_app; try reflexivity.
  all: match goal with
       | IH : ?a → _, Ha : ?a |- _ => specialize (IH Ha)
       end.
  all: destruct (r.1.2); [reflexivity | assumption].
Qed.

Lemma downgraded_tail evs t :
  downgraded evs = true → ends_open evs = false →
  downgraded t = true → only_ascii t = true → ascii_after_fetch t = true →
  downgraded (evs ++ t) = true.
Proof. intros. apply downgraded_app; auto. Qed.

Lemma ascii_tail evs t :
  only_ascii evs = true → ascii_after_fetch evs = true → ends_open evs = false →
  only_ascii t = true → ascii_after_fetch t = true →
  only_ascii (evs ++ t) = true ∧ ascii_after_fetch (evs ++ t) = true.
Proof.
  intros Ha Hf Ho Ha' Hf'.
  now rewrite only_ascii_app, ascii_after_fetch_app, Ha, Hf, Ha', Hf'.
Qed.

(** The downgrade along the loop: a failed back-end is followed by the
    ASCII rendering of its page, and from then on each page downloaded is
    rendered as ASCII. *)
Lemma walk_downgraded w pages max_pages inputs i c st :
  downgraded (walk w pages max_pages inputs i c st).1.2 = true ∧
  (c = "4" → only_ascii (walk w pages max_pages inputs i c st).1.2 = true ∧
             ascii_after_fetch (walk w pages max_pages inputs i c st).1.2 = true).
Proof.
  revert inputs i c st.
  apply (walk_ind w pages max_pages
           (fun _ _ c _ r =>
              downgraded r.1.2 = true ∧
              (c = "4" → only_ascii r.1.2 = true ∧
                         ascii_after_fetch r.1.2 = true)));
    cbn [fst snd prepend]; intros.
  1: now split.
  all: page_facts show_page_downgraded;
       destruct Hpage as (Hd & Hd' & Hc & Ho).
  all: page_facts show_page_ascii; rename Hpage into Ha.
  (* the page did not complete *)
  1-3: split; [eauto|];
       intros Hc4; destruct (Ha Hc4) as (Ha1 & Ha2 & Ha3 & _);
       rewrite ?only_ascii_app, ?Ha1; split; try assumption; reflexivity.
  (* the page completed: the navigation prompt follows *)
  all: specialize (Ho _ eq_refl).
  1-3: split;
       [ apply downgraded_tail; auto
       | intros Hc4; destruct (Ha Hc4) as (Ha1 & Ha2 & _);
         apply ascii_tail; auto ].
  (* another iteration *)
  all: match goal with
       | IH : _ ∧ _ |- _ => destruct IH as [IH1 IH2]
       end.
  all: rewrite <- app_assoc; split;
       [ apply downgraded_app; auto;
         intros Hf; apply (IH2 (Hc Hf _ eq_refl))
       | intros Hc4; destruct (Ha Hc4) as (Ha1 & Ha2 & _ & Ha4);
         destruct (IH2 (Ha4 _ eq_refl)); apply ascii_tail; auto ].
Qed.

(** ** The session *)

Lemma bind_eq {A B} (m : M A) (f : A → M B) st :
  bind m f st =
  match m st with
  | (Ret a, evs, st1) => prepend evs (f a st1)
  | (Raise e, evs, st1) => (Raise e, evs, st1)
  end.
Proof.
  unfold bind, prepend. destruct (m st) as [[[a|e] evs] st1]; [|reflexivity].
  now destruct (f a st1) as [[r evs'] st2].
Qed.

(** The cleanup removes files only; what can stop it is an [os.remove]
    that fails. *)
Lemma cleanup_spec w n : ∀ from st,
  ∃ r evs st', cleanup w from n st = (r, evs, st') ∧
               (r = Ret tt ∨
                r = Raise OSError ∧ ∃ k, remove_ok (page w k) = false) ∧
               forallb is_remove evs = true ∧
               store st' = store st ∧ stdin st' = stdin st.
Proof.
  induction n as [|n IH]; intros from st; cbn [cleanup].
  - exists (Ret tt), [], st. split; [reflexivity|]. split; [now left|]. done.
  - rewrite bind_eq. destruct (decide (temp_path (from + 1) ∈ files st)).
    + unfold remove_file. rewrite bind_eq. unfold tick. cbn [prepend fst snd].
      destruct (remove_ok (page w (clock st))) eqn:Hrm.
      * match goal with
        | |- context [cleanup w (from + 1) n ?s] =>
            destruct (IH (from + 1) s) as (r & evs & st' & Hc & Hr & He & Hst & Hin)
        end.
        rewrite Hc. cbn [prepend fst snd app].
        exists r, (EvRemove (temp_path (from + 1)) :: evs), st'.
        split; [reflexivity|]. split; [exact Hr|]. cbn. now rewrite He.
      * exists (Raise OSError), [], (set_clock (S (clock st)) st).
        split; [reflexivity|]. split; [right; eauto|]. done.
    + destruct (IH (from + 1) st) as (r & evs & st' & Hc & Hr & He & Hst & Hin).
      rewrite Hc. exists r, evs, st'. split; [reflexivity|]. done.
Qed.

Lemma cleanup_gentle w n from st :
  gentle w → (cleanup w from n st).1.1 = Ret tt.
Proof.
  intros Hw.
  destruct (cleanup_spec w n from st) as (r & evs & st' & -> & [->|[_ [k Hk]]] & _);
    [reflexivity|].
  destruct (Hw k) as (_ & _ & _ & Hr). congruence.
Qed.

(** The catalog request ends with the chapter list, with [None] after a
    request error, or with the [KeyboardInterrupt] of a Ctrl-C. *)
Lemma get_chapters_spec w manga_id st :
  ∃ r evs k, get_chapters w manga_id st = (r, evs, set_clock k st) ∧
             forallb catalog_effect evs = true ∧
             ((∃ d, r = Ret d) ∨ r = Raise KeyboardInterrupt).
Proof.
  unfold get_chapters, bind, tick, emit, ret, raise. cbn.
  destruct (feed w (clock st) manga_id true) as [[|ch chs]| |]; cbn;
    try destruct (feed w (S (clock st)) manga_id false); cbn;
    eexists _, _, _;
    (split; [destruct st; reflexivity | split; [reflexivity | eauto]]).
Qed.

Lemma open_chapter_spec w manga_id chapter_number st :
  ∃ r evs k, open_chapter w manga_id chapter_number st = (r, evs, set_clock k st) ∧
             forallb catalog_effect evs = true ∧
             r ≠ Ret (Some []).
Proof.
  unfold open_chapter, bind at 1.
  destruct (get_chapters_spec w manga_id st) as (r & evs & k & -> & Hevs & Hr).
  destruct r as [[[|ch chs]|]|e]; cbn.
  1,3: eexists _, _, k; split; [reflexivity|]; rewrite forallb_app, Hevs; cbn; done.
  2: eexists _, _, k; split; [reflexivity|]; done.
  destruct (target_chapter w (ch :: chs) chapter_number) as [[target|]|e]; cbn.
  2,3: eexists _, _, k; split; [reflexivity|]; rewrite forallb_app, Hevs; done.
  unfold get_chapter_pages, bind, tick, emit, ret, key, raise. cbn.
  destruct (at_home w k (ch_id target)) as [[[b|] [[[h|] [d|]]|]]| |]; cbn;
    try destruct (map _ d) eqn:?; cbn;
    eexists _, _, _; (split; [reflexivity|]); rewrite ?forallb_app, Hevs; done.
Qed.

Lemma read_pages_interrupted w pages cn max_pages st :
  (stdin st = [] ∨ ∃ rest, stdin st = Interrupt :: rest) →
  ∃ st', read_pages w pages cn max_pages st =
           (Ret false, [EvPrint (ReadingChapter (Store.str cn)); EvPrompt], st') ∧
         files st' = files st ∧ store st' = store st.
Proof.
  intros [H|[rest H]];
    unfold read_pages, choose_display, try_except, input, bind, emit, ret;
    cbn; rewrite H; cbn; eexists; split; try reflexivity; now split.
Qed.

(** After an answered prompt: the loop, then the cleanup if the loop
    ended normally, then [return True] if the cleanup did. *)
Lemma read_pages_answered w pages cn max_pages st s rest :
  stdin st = Line s :: rest →
  ∃ evs2 st2,
    read_pages w pages cn max_pages st =
      (match (walk w pages max_pages rest 0 (display_choice_of s)
                (set_stdin rest st)).1.1 with
       | Ret _ =>
           match (cleanup w 0 (length pages)
                    (walk w pages max_pages rest 0 (display_choice_of s)
                       (set_stdin rest st)).2).1.1 with
           | Ret _ => Ret true
           | Raise e => Raise e
           end
       | Raise e => Raise e
       end,
       EvPrint (ReadingChapter (Store.str cn)) :: EvPrompt ::
         (walk w pages max_pages rest 0 (display_choice_of s)
            (set_stdin rest st)).1.2 ++ evs2,
       st2) ∧
    forallb is_remove evs2 = true ∧ store st2 = store st ∧
    ((walk w pages max_pages rest 0 (display_choice_of s)
        (set_stdin rest st)).1.1 ≠ Ret tt → evs2 = []).
Proof.
  intros H.
  unfold read_pages, choose_display, try_except, input, bind, emit, ret.
  cbn. rewrite H. cbn. fold (display_choice_of s).
  pose proof (walk_store w pages max_pages rest 0 (display_choice_of s)
                (set_stdin rest st)) as Hst.
  destruct (walk w pages max_pages rest 0 (display_choice_of s) (set_stdin rest st))
    as [[[[]|e] evs] st1]; cbn in *.
  - destruct (cleanup_spec w (length pages) 0 st1)
      as (r & evs2 & st2 & -> & Hr & He & Hs & _).
    exists evs2, st2. cbn.
    destruct r as [[]|e]; rewrite ?app_nil_r;
      (split; [reflexivity|]; split; [exact He|]; split; [congruence|done]).
  - exists [], st1. rewrite app_nil_r. split; [reflexivity|]. now split.
Qed.

Lemma read_chapter_enhanced_cases w manga_id cn max_pages st :
  ∃ evs k,
    forallb catalog_effect evs = true ∧
    ((∃ r, read_chapter_enhanced w manga_id cn max_pages st = (r, evs, set_clock k st) ∧
           r ≠ Ret true) ∨
     (∃ pages, read_chapter_enhanced w manga_id cn max_pages st =
               prepend evs (read_pages w pages cn max_pages (set_clock k st)))).
Proof.
  unfold read_chapter_enhanced, bind.
  destruct (open_chapter_spec w manga_id cn st) as (r & evs & k & -> & Hevs & _).
  exists evs, k. split; [exact Hevs|].
  destruct r as [[pages|]|e].
  - right. exists pages. unfold prepend.
    now destruct (read_pages w pages cn max_pages (set_clock k st)) as [[? ?] ?].
  - left. exists (Ret false). cbn. rewrite app_nil_r. now split.
  - left. exists (Raise e). now split.
Qed.

Lemma forallb_impl {A} (f g : A → bool) (l : list A) :
  (∀ x, f x = true → g x = true) → forallb f l = true → forallb g l = true.
Proof.
  intros Hfg. rewrite !forallb_forall. auto.
Qed.

Lemma no_show_quiet evs :
  forallb no_show evs = true →
  downgraded evs = true ∧ has_failed evs = false ∧ only_ascii evs = true.
Proof.
  induction evs as [|e evs IH]; [done|]. cbn [forallb].
  intros [He Hevs]%andb_true_iff. destruct (IH Hevs) as (Hs & Hf & Ha).
  cbn [downgraded]. unfold has_failed, only_ascii in *. cbn [existsb forallb].
  rewrite Hs, Hf, Ha. now destruct e.
Qed.

Lemma catalog_quiet evs :
  forallb catalog_effect evs = true → forallb no_show evs = true.
Proof. apply forallb_impl. now intros []. Qed.

Lemma remove_quiet evs :
  forallb is_remove evs = true → forallb no_show evs = true.
Proof. apply forallb_impl. now intros []. Qed.

Lemma remove_no_fetch evs :
  forallb is_remove evs = true → ascii_after_fetch evs = true.
Proof.
  induction evs as [|e evs IH]; [done|]. cbn [forallb].
  intros [He Hevs]%andb_true_iff. destruct e; try discriminate. now apply IH.
Qed.

Lemma catalog_closed evs :
  forallb catalog_effect evs = true → ends_open evs = false.
Proof.
  intros H. unfold ends_open. destruct (last evs) as [e|] eqn:Hl; [|reflexivity].
  apply last_Some_elem_of in Hl. apply list_elem_of_In in Hl.
  rewrite forallb_forall in H. specialize (H _ Hl). now destruct e as [| |[]| | | | | |].
Qed.

Lemma read_pages_downgraded w pages cn max_pages st :
  downgraded (read_pages w pages cn max_pages st).1.2 = true.
Proof.
  destruct (stdin st) as [|[s|] rest] eqn:Hin.
  - destruct (read_pages_interrupted w pages cn max_pages st) as (st' & -> & _);
      [now left | reflexivity].
  - destruct (read_pages_answered w pages cn max_pages st s rest Hin)
      as (evs2 & st2 & -> & Hr & _ & Hnil).
    cbn [fst snd].
    change (downgraded ([EvPrint (ReadingChapter (Store.str cn)); EvPrompt] ++
                    (walk w pages max_pages rest 0 (display_choice_of s)
                       (set_stdin rest st)).1.2 ++ evs2) = true).
    destruct (walk_downgraded w pages max_pages rest 0 (display_choice_of s)
                (set_stdin rest st)) as [Hd _].
    apply downgraded_app; [reflexivity| |reflexivity|discriminate].
    destruct ((walk w pages max_pages rest 0 (display_choice_of s)
                 (set_stdin rest st)).1.1) as [[]|e] eqn:Hret.
    + apply downgraded_tail; auto using walk_closed, remove_no_fetch.
      * now apply remove_quiet, no_show_quiet in Hr.
      * now apply remove_quiet, no_show_quiet in Hr.
    + rewrite Hnil, app_nil_r; [exact Hd | discriminate].
  - destruct (read_pages_interrupted w pages cn max_pages st) as (st' & -> & _);
      [right; eauto | reflexivity].
Qed.

Lemma session_downgraded w manga_id cn max_pages st :
  downgraded (read_chapter_enhanced w manga_id cn max_pages st).1.2 = true.
Proof.
  destruct (read_chapter_enhanced_cases w manga_id cn max_pages st)
    as (evs & k & Hevs & [(r & -> & _)|(pages & ->)]);
    pose proof (catalog_closed _ Hevs) as Ho;
    apply catalog_quiet, no_show_quiet in Hevs as (Hs & Hf & Ha); cbn [fst snd prepend].
  - exact Hs.
  - apply downgraded_app; auto using read_pages_downgraded. congruence.
Qed.

(** Only an interruption leaves a run at the notice of the fallback. *)
Lemma walk_falling w pages max_pages inputs i c st :
  last (walk w pages max_pages inputs i c st).1.2
    = Some (EvPrint FallingBackToAscii) →
  (walk w pages max_pages inputs i c st).1.1 = Raise KeyboardInterrupt.
Proof.
  revert inputs i c st.
  apply (walk_ind w pages max_pages
           (fun _ _ _ _ r =>
              last r.1.2 = Some (EvPrint FallingBackToAscii) →
              r.1.1 = Raise KeyboardInterrupt));
    cbn [fst snd prepend]; intros; try reflexivity.
  1: discriminate.
  all: page_facts show_page_falling.
  all: repeat match goal with
              | H : last (_ ++ _) = _ |- _ => rewrite last_app in H; cbn in H
              end;
       try discriminate.
  1: match goal with
     | H : last evs = _ |- _ => specialize (Hpage H); now simplify_eq
     end.
  all: destruct (last r.1.2) in *; [auto|];
       match goal with
       | H : last (_ ++ _) = _ |- _ => rewrite last_app in H; discriminate
       end.
Qed.

Lemma remove_last evs e :
  forallb is_remove evs = true → last evs = Some e → is_remove e = true.
Proof.
  intros H Hl. apply last_Some_elem_of, list_elem_of_In in Hl.
  rewrite forallb_forall in H. auto.
Qed.

Lemma session_falling w manga_id cn max_pages st :
  last (read_chapter_enhanced w manga_id cn max_pages st).1.2
    = Some (EvPrint FallingBackToAscii) →
  (read_chapter_enhanced w manga_id cn max_pages st).1.1 = Raise KeyboardInterrupt.
Proof.
  destruct (read_chapter_enhanced_cases w manga_id cn max_pages st)
    as (evs & k & Hevs & [(r & -> & _)|(pages & ->)]); cbn [fst snd prepend].
  - intros Hl. apply catalog_closed in Hevs. unfold ends_open in Hevs.
    now rewrite Hl in Hevs.
  - destruct (stdin st) as [|[s|] rest] eqn:Hin.
    + destruct (read_pages_interrupted w pages cn max_pages (set_clock k st))
        as (st' & -> & _); [now left|]. cbn [fst snd].
      rewrite last_app. discriminate.
    + destruct (read_pages_answered w pages cn max_pages (set_clock k st) s rest Hin)
        as (evs2 & st2 & -> & Hr & _ & Hnil). cbn [fst snd].
      pose proof (walk_falling w pages max_pages rest 0 (display_choice_of s)
                    (set_stdin rest (set_clock k st))) as Hw.
      change (EvPrint (ReadingChapter (Store.str cn)) :: EvPrompt ::
                (walk w pages max_pages rest 0 (display_choice_of s)
                   (set_stdin rest (set_clock k st))).1.2 ++ evs2)
        with ([EvPrint (ReadingChapter (Store.str cn)); EvPrompt] ++
                (walk w pages max_pages rest 0 (display_choice_of s)
                   (set_stdin rest (set_clock k st))).1.2 ++ evs2).
      rewrite !last_app.
      destruct (last evs2) as [e|] eqn:Hl2.
      { intros He. simplify_eq. now apply (remove_last _ _ Hr) in Hl2. }
      destruct (last (walk w pages max_pages rest 0 (display_choice_of s)
                        (set_stdin rest (set_clock k st))).1.2);
        [|discriminate].
      intros He. now rewrite (Hw He).
    + destruct (read_pages_interrupted w pages cn max_pages (set_clock k st))
        as (st' & -> & _); [right; eauto|]. cbn [fst snd].
      rewrite last_app. discriminate.
Qed.

Lemma downgraded_split l1 e l2 :
  downgraded (l1 ++ e :: l2) = true → failed_show e = true →
  starts_ascii (page_of_show e) l2 = true ∧ only_ascii l2 = true ∧
  ascii_after_fetch l2 = true.
Proof.
  induction l1 as [|e1 l1 IH]; cbn [app downgraded]; intros H He.
  - rewrite He in H. repeat (apply andb_true_iff in H as [H ?]). auto.
  - apply andb_true_iff in H as [_ H]. auto.
Qed.

Lemma only_ascii_shows evs :
  only_ascii evs = true → Forall (fun a => a.1.1 = Ascii) (shows evs).
Proof.
  induction evs as [|e evs IH]; [constructor|].
  unfold only_ascii. cbn [forallb]. intros [He Hevs]%andb_true_iff.
  destruct e; cbn; auto. destruct m; try discriminate. constructor; auto.
Qed.

(** C1, as the code has it: when the attempt of the chosen back-end fails
    on a page, [display_choice] becomes [4] for the rest of the session.
    The notice and the ASCII rendering of that same page follow at once
    (unless a Ctrl-C during the rendering ends the session there); every
    display attempt after the failed one, on that page and on the later
    ones, is an ASCII rendering, and each page downloaded afterwards is
    rendered as ASCII right after its download (or its load fails): the
    original choice is not tried again. *)
Theorem fallback_persists w manga_id cn max_pages st l1 m p l2 :
  (read_chapter_enhanced w manga_id cn max_pages st).1.2
    = l1 ++ EvShow m p false :: l2 →
  m ≠ Ascii →
  (l2 = [EvPrint FallingBackToAscii] ∧
   (read_chapter_enhanced w manga_id cn max_pages st).1.1
     = Raise KeyboardInterrupt ∨
   ∃ ok rest, l2 = EvPrint FallingBackToAscii :: EvShow Ascii p ok :: rest) ∧
  Forall (fun a => a.1.1 = Ascii) (shows l2) ∧
  ascii_after_fetch l2 = true.
Proof.
  intros Hevs Hm.
  destruct (downgraded_split l1 (EvShow m p false) l2) as (Hs & Ha & Hf).
  - rewrite <- Hevs. apply session_downgraded.
  - now destruct m.
  - split; [|split; [now apply only_ascii_shows | exact Hf]].
    apply starts_ascii_inv in Hs as [->|Hs]; [left | now right].
    split; [reflexivity|]. apply session_falling. rewrite Hevs.
    rewrite last_app. reflexivity.
Qed.

Lemma fallback_persists_witness :
  let l2 := [EvPrint FallingBackToAscii; EvShow Ascii 1 true; EvInput 0;
             EvPrint (LoadingPage 2); EvFetch 1 "https://cdn/data/h/b.png";
             EvShow Ascii 2 true; EvInput 1; EvRemove "temp_page_1.png"] in
  (l2 = [EvPrint FallingBackToAscii] ∧ viewer_run.1.1 = Raise KeyboardInterrupt ∨
   ∃ ok rest, l2 = EvPrint FallingBackToAscii :: EvShow Ascii 1 ok :: rest) ∧
  Forall (fun a => a.1.1 = Ascii) (shows l2) ∧
  ascii_after_fetch l2 = true.
Proof.
  apply (fallback_persists (world_of chapters12 viewer_fails_once) "m1"
           (Store.PStr "1") 5 (state0 [Line "2"; Line EmptyString; Line "q"])
           [EvFeed "m1" true; EvAtHome "c1"; EvPrint (ReadingChapter "1");
            EvPrompt; EvPrint (LoadingPage 1);
            EvFetch 0 "https://cdn/data/h/a.png"; EvSave "temp_page_1.png"]
           SystemViewer 1).
  - vm_compute. reflexivity.
  - discriminate.
Defined.

(** C1 as stated fails: the system viewer fails on page 1 only (it would
    work on page 2), yet page 2 is fetched and shown as ASCII without the
    viewer being tried. *)
Lemma fallback_retry_counterexample :
  viewer_ok (viewer_fails_once 3) = true ∧
  fetched viewer_run.1.2 = [0; 1] ∧
  shows viewer_run.1.2 =
    [(SystemViewer, 1, false); (Ascii, 1, true); (Ascii, 2, true)] ∧
  ¬ (∃ ok, In (EvShow SystemViewer 2 ok) viewer_run.1.2).
Proof.
  split; [reflexivity|]. split; [vm_compute; reflexivity|].
  split; [vm_compute; reflexivity|].
  intros [ok Hin]. vm_compute in Hin.
  repeat (destruct Hin as [Hin|Hin]; [discriminate Hin|]). exact Hin.
Qed.





(** The two ways of returning [False] before the prompt, on a catalog
    without chapters and on a chapter without pages. *)
Example read_chapter_enhanced_false :
  (read_chapter_enhanced (world_of [] (fun _ => ok_page)) "m1" (Store.PStr "1") 5
     (state0 [Line "4"])).1 =
    (Ret false, [EvFeed "m1" true; EvFeed "m1" false; EvPrint NoChaptersFound]) ∧
  (read_chapter_enhanced
     {| str_float := str_float_literals;
        feed := fun _ _ _ => Answer chapters12;
        at_home := fun _ _ => RequestError;
        page := fun _ => ok_page;
        now := fun _ => "2026-01-01T00:00:00" |}
     "m1" (Store.PStr "1") 5 (state0 [Line "4"])).1 =
    (Ret false, [EvFeed "m1" true; EvAtHome "c1"; EvPrint NoPagesAvailable]).
Proof. split; vm_compute; reflexivity. Qed.


Lemma catalog_not_page evs :
  forallb catalog_effect evs = true →
  forallb (fun e => negb (page_effect e)) evs = true.
Proof. apply forallb_impl. now intros [| |[]| | | | | |]. Qed.

Lemma catalog_not_prompt evs :
  forallb catalog_effect evs = true → ¬ In EvPrompt evs.
Proof.
  rewrite forallb_forall. intros H Hin. now apply H in Hin.
Qed.

(** C10: when the display prompt meets the end of the input or Ctrl-C,
    [read_chapter_enhanced] returns [False]; no page has been fetched or
    displayed and no temporary file written. *)
Theorem prompt_interrupted w manga_id cn max_pages st :
  stdin st = [] ∨ (∃ rest, stdin st = Interrupt :: rest) →
  (In EvPrompt (read_chapter_enhanced w manga_id cn max_pages st).1.2 →
   (read_chapter_enhanced w manga_id cn max_pages st).1.1 = Ret false) ∧
  forallb (fun e => negb (page_effect e))
    (read_chapter_enhanced w manga_id cn max_pages st).1.2 = true ∧
  files (read_chapter_enhanced w manga_id cn max_pages st).2 = files st.
Proof.
  intros Hin.
  destruct (read_chapter_enhanced_cases w manga_id cn max_pages st)
    as (evs & k & Hevs & [(r & -> & Hr)|(pages & ->)]); cbn [fst snd prepend].
  - split; [intros H; now apply catalog_not_prompt in H|].
    split; [now apply catalog_not_page | reflexivity].
  - destruct (read_pages_interrupted w pages cn max_pages (set_clock k st))
      as (st' & -> & Hf & _); [exact Hin|]. cbn [fst snd].
    split; [reflexivity|]. split; [|exact Hf].
    rewrite forallb_app, (catalog_not_page _ Hevs). reflexivity.
Qed.

Lemma prompt_interrupted_witness :
  let run := read_chapter_enhanced (world_of chapters12 (fun _ => ok_page)) "m1"
               (Store.PStr "1") 5 (state0 [Interrupt; Line "q"]) in
  (In EvPrompt run.1.2 → run.1.1 = Ret false) ∧
  forallb (fun e => negb (page_effect e)) run.1.2 = true ∧
  files run.2 = files (state0 [Interrupt; Line "q"]).
Proof.
  apply (prompt_interrupted (world_of chapters12 (fun _ => ok_page)) "m1"
           (Store.PStr "1") 5 (state0 [Interrupt; Line "q"])).
  right. exists [Line "q"]. reflexivity.
Defined.

Example eof_at_prompt_run :
  (read_chapter_enhanced (world_of chapters12 (fun _ => ok_page)) "m1"
     (Store.PStr "1") 5 (state0 [])).1 =
  (Ret false, [EvFeed "m1" true; EvAtHome "c1";
               EvPrint (ReadingChapter "1"); EvPrompt]).
Proof. vm_compute. reflexivity. Qed.

Lemma remove_not_visited evs :
  forallb is_remove evs = true → visited evs = [] ∧ entered evs = [].
Proof.
  induction evs as [|e evs IH]; [done|]. cbn [forallb].
  intros [He Hevs]%andb_true_iff. destruct e; try discriminate.
  cbn. now apply IH.
Qed.

(** C5: in every session over a page list, each index at which the body
    of the loop is entered, a page fetched or an input awaited satisfies
    [0 <= i < min(max_pages, len(pages))]; with [max_pages = 5] and three
    pages the session enters the loop at the indices 0, 1, 2 and ends on
    the empty input at index 2, leaving the next line unread. *)
Theorem page_index_in_range w pages cn max_pages st :
  Forall (fun j => 0 <= j < Z.min max_pages (Z.of_nat (length pages)))
         (visited (read_pages w pages cn max_pages st).1.2) ∧
  Forall (fun j => 0 <= j < Z.min max_pages (Z.of_nat (length pages)))
         (entered (read_pages w pages cn max_pages st).1.2) ∧
  (three_pages_run.1.1 = Ret true ∧
   entered three_pages_run.1.2 = [0; 1; 2] ∧
   fetched three_pages_run.1.2 = [0; 1; 2] ∧
   visited three_pages_run.1.2 = [0; 0; 1; 1; 2; 2] ∧
   stdin three_pages_run.2 = [Line EmptyString]).
Proof.
  apply and_assoc. split.
  - destruct (stdin st) as [|[s|] rest] eqn:Hin.
    + destruct (read_pages_interrupted w pages cn max_pages st) as (st' & -> & _);
        [now left | split; constructor].
    + destruct (read_pages_answered w pages cn max_pages st s rest Hin)
        as (evs2 & st2 & -> & Hr & _).
      cbn [fst snd]. apply remove_not_visited in Hr as [Hv He].
      change (EvPrint (ReadingChapter (Store.str cn)) :: EvPrompt ::
                (walk w pages max_pages rest 0 (display_choice_of s)
                   (set_stdin rest st)).1.2 ++ evs2)
        with ([EvPrint (ReadingChapter (Store.str cn)); EvPrompt] ++
                (walk w pages max_pages rest 0 (display_choice_of s)
                   (set_stdin rest st)).1.2 ++ evs2).
      rewrite !visited_app, !entered_app, Hv, He, !app_nil_r.
      now apply walk_visited.
    + destruct (read_pages_interrupted w pages cn max_pages st) as (st' & -> & _);
        [right; eauto | split; constructor].
  - repeat split; vm_compute; reflexivity.
Qed.

(** C4, what the code does: at index 0 the input [b] is not a step back
    (the guard [i > 0] fails) and falls into the [else] branch, which moves
    on to index 1. *)
Theorem back_on_first_page_advances w pages max_pages s rest c st c' evs st1 :
  Py.lower (Py.strip s) = "b" →
  0 < Z.min max_pages (Z.of_nat (length pages)) →
  show_page w pages 0 c st = (Ret c', evs, st1) →
  walk w pages max_pages (Line s :: rest) 0 c st =
  prepend (evs ++ [EvInput 0]) (walk w pages max_pages rest 1 c' st1).
Proof.
  intros Hb Hlt Hsp. rewrite walk_eq, Hsp.
  destruct (Z.ltb_spec 0 (Z.min max_pages (Z.of_nat (length pages)))); [|lia].
  rewrite Hb. reflexivity.
Qed.

Lemma back_on_first_page_advances_witness :
  let w := world_of chapters12 (fun _ => ok_page) in
  walk w pages3 5 [Line "b"; Line "q"] 0 "4" (state0 []) =
  prepend ([EvPrint (LoadingPage 1); EvFetch 0 "https://cdn/data/h/a.png";
            EvShow Ascii 1 true] ++ [EvInput 0])
    (walk w pages3 5 [Line "q"] 1 "4" (set_clock 1 (state0 []))).
Proof.
  apply (back_on_first_page_advances (world_of chapters12 (fun _ => ok_page))
           pages3 5 "b" [Line "q"] "4" (state0 []) "4").
  - reflexivity.
  - reflexivity.
  - reflexivity.
Defined.

Example back_on_first_page_run :
  fetched (read_pages (world_of chapters12 (fun _ => ok_page)) pages3
             (Store.PStr "1") 5 (state0 [Line "4"; Line "b"; Line "q"])).1.2
  = [0; 1].
Proof. vm_compute. reflexivity. Qed.

(** C8, what the code does: the request [1] (the integer of line 321, or
    the string of the catalog) is compared as text with [str(float(attr))],
    which is [1.0] for the chapter numbered 1, so the chapter is not found
    and the first one of the list is taken. *)
Theorem integer_request_misses_chapter w (request : Store.pyval) :
  str_float w "1" = Some "1.0" →
  Store.str request = "1" →
  target_chapter w unnumbered_then_one request =
  Ret (Some {| ch_id := "c0"; ch_chapter := None |}).
Proof.
  intros Hf Hr. unfold target_chapter, unnumbered_then_one.
  cbn. rewrite Hf, Hr. reflexivity.
Qed.

Lemma integer_request_misses_chapter_witness :
  target_chapter (world_of unnumbered_then_one (fun _ => ok_page))
    unnumbered_then_one (Cli.first_chapter {| ch_id := "c0"; ch_chapter := None |}) =
  Ret (Some {| ch_id := "c0"; ch_chapter := None |}).
Proof.
  apply (integer_request_misses_chapter
           (world_of unnumbered_then_one (fun _ => ok_page)) (Store.PInt 1)).
  - reflexivity.
  - reflexivity.
Defined.

Lemma read_chapter_enhanced_store w manga_id cn max_pages st :
  store (read_chapter_enhanced w manga_id cn max_pages st).2 = store st.
Proof.
  destruct (read_chapter_enhanced_cases w manga_id cn max_pages st)
    as (evs & k & Hevs & [(r & -> & Hr)|(pages & ->)]); cbn [fst snd prepend].
  - reflexivity.
  - destruct (stdin st) as [|[s|] rest] eqn:Hin.
    + destruct (read_pages_interrupted w pages cn max_pages (set_clock k st))
        as (st' & -> & _ & Hs); [now left | exact Hs].
    + destruct (read_pages_answered w pages cn max_pages (set_clock k st) s rest Hin)
        as (evs2 & st2 & -> & _ & Hs & _). exact Hs.
    + destruct (read_pages_interrupted w pages cn max_pages (set_clock k st))
        as (st' & -> & _ & Hs); [right; eauto | exact Hs].
Qed.

(** ** The end of [search] *)

Lemma mark_chapter_read_marks now manga_id chapter_number s rec :
  Store.tracked_manga (Store.data s) !! manga_id = Some rec →
  ∃ rec', Store.tracked_manga
            (Store.data (Store.mark_chapter_read now manga_id chapter_number s))
            !! manga_id = Some rec' ∧
          chapter_number ∈ Store.read_chapters rec'.
Proof.
  intros Hrec. unfold Store.mark_chapter_read. rewrite Hrec.
  case_decide as Hin.
  - now exists rec.
  - eexists. cbn. rewrite lookup_insert_eq. split; [reflexivity|].
    cbn. apply elem_of_app. right. now apply list_elem_of_singleton.
Qed.

(** C3, as the code has it: [search] ignores what the reading session
    returns.  Whenever [read_chapter_enhanced] returns, with [True] or
    [False], after a complete reading or after an abort, the chapter is
    passed to [mark_chapter_read] and, for a tracked manga, recorded as
    read; only a session that raises leaves the store as it was. *)
Theorem mark_follows_any_return w manga_id st ch chs evs1 st1 r evs2 st2 :
  get_chapters w manga_id st = (Ret (Some (ch :: chs)), evs1, st1) →
  read_chapter_enhanced w manga_id (Cli.first_chapter ch) 5 st1 = (r, evs2, st2) →
  match r with
  | Ret _ =>
      ∃ st3,
        Cli.read_first_chapter w manga_id st = (Ret tt, evs1 ++ evs2, st3) ∧
        store st3 =
          Store.mark_chapter_read (now w (clock st2)) manga_id
            (Cli.first_chapter ch) (store st) ∧
        ∀ rec, Store.tracked_manga (Store.data (store st)) !! manga_id = Some rec →
               ∃ rec', Store.tracked_manga (Store.data (store st3)) !! manga_id
                         = Some rec' ∧
                       Cli.first_chapter ch ∈ Store.read_chapters rec'
  | Raise e =>
      Cli.read_first_chapter w manga_id st = (Raise e, evs1 ++ evs2, st2) ∧
      store st2 = store st
  end.
Proof.
  intros Hg Hr.
  assert (Hs1 : store st1 = store st).
  { destruct (get_chapters_spec w manga_id st) as (? & ? & k & Hg' & _).
    rewrite Hg in Hg'. now simplify_eq. }
  assert (Hs2 : store st2 = store st).
  { pose proof (read_chapter_enhanced_store w manga_id (Cli.first_chapter ch) 5 st1) as H.
    rewrite Hr in H. cbn in H. congruence. }
  destruct r as [b|e];
    unfold Cli.read_first_chapter, bind at 1; rewrite Hg;
    unfold bind at 1; rewrite Hr.
  - unfold bind, tick, Cli.lift_store. cbn. rewrite !app_nil_r.
    eexists. split; [reflexivity|]. cbn. rewrite Hs2. split; [reflexivity|].
    intros rec Hrec. now apply (mark_chapter_read_marks _ _ _ _ rec).
  - split; [reflexivity | exact Hs2].
Qed.

Lemma mark_follows_any_return_witness :
  ∃ st3,
    Cli.read_first_chapter offline_world "m1" (tracked_state [Line "4"]) =
      (Ret tt,
       [EvFeed "m1" true] ++
       [EvFeed "m1" true; EvAtHome "c1"; EvPrint (ReadingChapter "1"); EvPrompt;
        EvPrint (LoadingPage 1); EvFetch 0 "https://cdn/data/h/a.png";
        EvPrint (FailedToLoadPage 1)], st3) ∧
    store st3 =
      Store.mark_chapter_read "2026-01-01T00:00:00" "m1" (Store.PStr "1")
        (store (tracked_state [Line "4"])) ∧
    ∀ rec, Store.tracked_manga (Store.data (store (tracked_state [Line "4"]))) !! "m1"
             = Some rec →
           ∃ rec', Store.tracked_manga (Store.data (store st3)) !! "m1" = Some rec' ∧
                   Store.PStr "1" ∈ Store.read_chapters rec'.
Proof.
  apply (mark_follows_any_return offline_world "m1" (tracked_state [Line "4"])
           {| ch_id := "c1"; ch_chapter := Some "1" |}
           [{| ch_id := "c2"; ch_chapter := Some "2" |}]
           [EvFeed "m1" true] (set_clock 1 (tracked_state [Line "4"]))
           (Ret true)
           [EvFeed "m1" true; EvAtHome "c1"; EvPrint (ReadingChapter "1"); EvPrompt;
            EvPrint (LoadingPage 1); EvFetch 0 "https://cdn/data/h/a.png";
            EvPrint (FailedToLoadPage 1)]
           (set_stdin [] (set_clock 4 (tracked_state [Line "4"])))).
  - reflexivity.
  - reflexivity.
Defined.

(** C3 as stated fails: the session aborts on the download of the first
    page, nothing is displayed, and chapter 1 is recorded as read. *)
Lemma marked_after_abort_counterexample :
  aborted_search.1.1 = Ret tt ∧
  In (EvPrint (FailedToLoadPage 1)) aborted_search.1.2 ∧
  shows aborted_search.1.2 = [] ∧
  Store.read_chapters <$>
    Store.tracked_manga (Store.data (store aborted_search.2)) !! "m1"
  = Some [Store.PStr "1"].
Proof.
  split; [vm_compute; reflexivity|].
  split; [vm_compute; tauto|].
  split; vm_compute; reflexivity.
Qed.


(** * Further properties *)

#[local] Set Warnings "-clear-no-such-hyp".


(** ** The progress store *)

Lemma save_data_persisted s : persisted (Store.save_data s).
Proof. reflexivity. Qed.

(** X1: the file follows the memory.  A store obtained by [load_data]
    reloads to itself, and [track_manga] and [mark_chapter_read] keep it
    so: whenever they change the data they write the file. *)
Theorem store_stays_persisted (file : option Store.tracker_data)
    (now manga_id title : string) (chapter_number : Store.pyval) (s : Store.store) :
  persisted s →
  persisted (Store.load_data file) ∧
  persisted (Store.track_manga manga_id title s) ∧
  persisted (Store.mark_chapter_read now manga_id chapter_number s).
Proof.
  intros Hs. split; [now destruct file|]. split.
  - unfold Store.track_manga.
    destruct (Store.tracked_manga (Store.data s) !! manga_id);
      [exact Hs | apply save_data_persisted].
  - unfold Store.mark_chapter_read.
    destruct (Store.tracked_manga (Store.data s) !! manga_id); [|exact Hs].
    case_decide; [exact Hs | apply save_data_persisted].
Qed.

Lemma store_stays_persisted_witness :
  persisted (Store.load_data None) ∧
  persisted (Store.track_manga "m1" "Title" (Store.load_data None)) ∧
  persisted (Store.mark_chapter_read "2026-01-01T00:00:00" "m1" (Store.PStr "1")
               (Store.load_data None)).
Proof.
  apply (store_stays_persisted None "2026-01-01T00:00:00" "m1" "Title"
           (Store.PStr "1") (Store.load_data None)).
  reflexivity.
Defined.

Lemma mark_chapter_read_lookup now manga_id chapter_number s r :
  Store.tracked_manga (Store.data s) !! manga_id = Some r →
  chapter_number ∉ Store.read_chapters r →
  Store.tracked_manga
    (Store.data (Store.mark_chapter_read now manga_id chapter_number s)) !! manga_id
  = Some {| Store.title := Store.title r;
            Store.read_chapters := Store.read_chapters r ++ [chapter_number];
            Store.last_read := Some now;
            Store.total_chapters := Store.total_chapters r |}.
Proof.
  intros Hr Hnin. unfold Store.mark_chapter_read. rewrite Hr.
  case_decide; [done|]. cbn. apply lookup_insert_eq.
Qed.

Lemma mark_chapter_read_known now manga_id chapter_number s r :
  Store.tracked_manga (Store.data s) !! manga_id = Some r →
  chapter_number ∈ Store.read_chapters r →
  Store.mark_chapter_read now manga_id chapter_number s = s.
Proof.
  intros Hr Hin. unfold Store.mark_chapter_read. rewrite Hr. now case_decide.
Qed.

Lemma mark_chapter_read_other now manga_id chapter_number s other :
  other ≠ manga_id →
  Store.tracked_manga
    (Store.data (Store.mark_chapter_read now manga_id chapter_number s)) !! other
  = Store.tracked_manga (Store.data s) !! other.
Proof.
  intros Hne. unfold Store.mark_chapter_read.
  destruct (Store.tracked_manga (Store.data s) !! manga_id); [|done].
  case_decide; [done|]. cbn. now apply lookup_insert_ne.
Qed.

(** X2: marking is idempotent.  Marking a chapter a second time, at any
    later time, changes nothing: neither the list, nor [last_read], nor
    the file. *)
Theorem mark_chapter_read_twice (now1 now2 manga_id : string)
    (chapter_number : Store.pyval) (s : Store.store) :
  Store.mark_chapter_read now2 manga_id chapter_number
    (Store.mark_chapter_read now1 manga_id chapter_number s)
  = Store.mark_chapter_read now1 manga_id chapter_number s.
Proof.
  destruct (Store.tracked_manga (Store.data s) !! manga_id) as [r|] eqn:Hr.
  - destruct (decide (chapter_number ∈ Store.read_chapters r)) as [Hin|Hnin].
    + rewrite (mark_chapter_read_known now1 _ _ _ r Hr Hin).
      apply (mark_chapter_read_known now2 _ _ _ r Hr Hin).
    + eapply mark_chapter_read_known.
      * apply (mark_chapter_read_lookup now1 _ _ _ r Hr Hnin).
      * cbn. apply elem_of_app. right. now apply list_elem_of_singleton.
  - assert (H : Store.mark_chapter_read now1 manga_id chapter_number s = s).
    { unfold Store.mark_chapter_read. now rewrite Hr. }
    rewrite H. unfold Store.mark_chapter_read. now rewrite Hr.
Qed.

(** X3: no chapter is ever listed twice.  If every tracked manga lists
    each of its read chapters once, this is still so after
    [mark_chapter_read]. *)
Theorem mark_chapter_read_no_repeats (now manga_id : string)
    (chapter_number : Store.pyval) (s : Store.store) :
  no_repeats s →
  no_repeats (Store.mark_chapter_read now manga_id chapter_number s).
Proof.
  intros Hs other r' Hr'.
  destruct (decide (other = manga_id)) as [->|Hne].
  - destruct (Store.tracked_manga (Store.data s) !! manga_id) as [r|] eqn:Hr.
    + destruct (decide (chapter_number ∈ Store.read_chapters r)) as [Hin|Hnin].
      * rewrite (mark_chapter_read_known now _ _ _ r Hr Hin) in Hr'.
        now apply (Hs manga_id).
      * rewrite (mark_chapter_read_lookup now _ _ _ r Hr Hnin) in Hr'.
        injection Hr' as <-. cbn.
        apply NoDup_app. split; [now apply (Hs manga_id)|].
        split; [|apply NoDup_singleton].
        intros x Hx ->%list_elem_of_singleton. contradiction.
    + unfold Store.mark_chapter_read in Hr'. rewrite Hr in Hr'. congruence.
  - rewrite mark_chapter_read_other in Hr' by exact Hne. now apply (Hs other).
Qed.

Lemma mark_chapter_read_no_repeats_witness :
  no_repeats (Store.mark_chapter_read "2026-01-01T00:00:00" "m1" (Store.PStr "3")
                (one_manga "m1" berserk)).
Proof.
  apply (mark_chapter_read_no_repeats "2026-01-01T00:00:00" "m1" (Store.PStr "3")
           (one_manga "m1" berserk)).
  intros manga_id r Hr. cbn in Hr.
  apply lookup_singleton_Some in Hr as [_ <-]. cbn.
  apply (bool_decide_unpack _). vm_compute. exact I.
Defined.

(** X4: marking only appends.  For every manga tracked before
    [mark_chapter_read], the record is still there afterwards with the same
    title and chapter count, and its former read chapters are a prefix of
    the new list; the records of the other mangas are untouched. *)
Theorem mark_chapter_read_appends (now manga_id : string)
    (chapter_number : Store.pyval) (s : Store.store) (other : string)
    (r : Store.manga_record) :
  Store.tracked_manga (Store.data s) !! other = Some r →
  ∃ r', Store.tracked_manga
          (Store.data (Store.mark_chapter_read now manga_id chapter_number s)) !! other
        = Some r' ∧
        Store.title r' = Store.title r ∧
        Store.total_chapters r' = Store.total_chapters r ∧
        Store.read_chapters r `prefix_of` Store.read_chapters r' ∧
        (other ≠ manga_id → r' = r).
Proof.
  intros Hr.
  destruct (decide (other = manga_id)) as [->|Hne].
  - destruct (decide (chapter_number ∈ Store.read_chapters r)) as [Hin|Hnin].
    + rewrite (mark_chapter_read_known now _ _ _ r Hr Hin). now exists r.
    + rewrite (mark_chapter_read_lookup now _ _ _ r Hr Hnin).
      eexists. split; [reflexivity|]. cbn. repeat split; [|done].
      now apply prefix_app_r.
  - rewrite mark_chapter_read_other by exact Hne. now exists r.
Qed.

Lemma mark_chapter_read_appends_witness :
  ∃ r', Store.tracked_manga
          (Store.data (Store.mark_chapter_read "2026-01-01T00:00:00" "m1"
                         (Store.PStr "3") (one_manga "m1" berserk))) !! "m1"
        = Some r' ∧
        Store.title r' = Store.title berserk ∧
        Store.total_chapters r' = Store.total_chapters berserk ∧
        Store.read_chapters berserk `prefix_of` Store.read_chapters r' ∧
        ("m1" ≠ "m1" → r' = berserk).
Proof.
  apply (mark_chapter_read_appends "2026-01-01T00:00:00" "m1" (Store.PStr "3")
           (one_manga "m1" berserk) "m1" berserk).
  apply lookup_singleton_eq.
Defined.

(** X5: tracking never erases progress.  Whatever manga is tracked with
    [track_manga], the record of every manga tracked before (the same one
    included) is left as it was. *)
Theorem track_manga_keeps_records (manga_id title other : string)
    (s : Store.store) (r : Store.manga_record) :
  Store.tracked_manga (Store.data s) !! other = Some r →
  Store.tracked_manga (Store.data (Store.track_manga manga_id title s)) !! other
  = Some r.
Proof.
  intros Hr. unfold Store.track_manga.
  destruct (Store.tracked_manga (Store.data s) !! manga_id) eqn:Hid; [exact Hr|].
  cbn. rewrite lookup_insert_ne; [exact Hr|]. intros ->. congruence.
Qed.

Lemma track_manga_keeps_records_witness :
  Store.tracked_manga
    (Store.data (Store.track_manga "m1" "Other title" (one_manga "m1" berserk))) !! "m1"
  = Some berserk.
Proof.
  apply (track_manga_keeps_records "m1" "Other title" "m1" (one_manga "m1" berserk)
           berserk).
  apply lookup_singleton_eq.
Defined.

(** X6: track, mark, read back.  For a manga not tracked yet,
    [track_manga] followed by [mark_chapter_read] leaves a record with the
    given title, exactly that chapter read and the time of the marking,
    and the file holds the same data. *)
Theorem track_then_mark (now manga_id title : string)
    (chapter_number : Store.pyval) (s : Store.store) :
  Store.tracked_manga (Store.data s) !! manga_id = None →
  let s' := Store.mark_chapter_read now manga_id chapter_number
              (Store.track_manga manga_id title s) in
  Store.tracked_manga (Store.data s') !! manga_id
  = Some {| Store.title := title; Store.read_chapters := [chapter_number];
            Store.last_read := Some now; Store.total_chapters := 0 |} ∧
  Store.data_file s' = Some (Store.data s').
Proof.
  intros Hnone s'. subst s'.
  assert (Ht : Store.tracked_manga
                 (Store.data (Store.track_manga manga_id title s)) !! manga_id
               = Some {| Store.title := title; Store.read_chapters := [];
                         Store.last_read := None; Store.total_chapters := 0 |}).
  { unfold Store.track_manga. rewrite Hnone. cbn. apply lookup_insert_eq. }
  split.
  - rewrite (mark_chapter_read_lookup now _ _ _ _ Ht); [reflexivity|]. cbn. set_solver.
  - unfold Store.mark_chapter_read. rewrite Ht. cbn.
    case_decide as Hin; [cbn in Hin; set_solver | reflexivity].
Qed.

Lemma track_then_mark_witness :
  let s' := Store.mark_chapter_read "2026-01-01T00:00:00" "m1" (Store.PInt 1)
              (Store.track_manga "m1" "Title" (Store.load_data None)) in
  Store.tracked_manga (Store.data s') !! "m1"
  = Some {| Store.title := "Title"; Store.read_chapters := [Store.PInt 1];
            Store.last_read := Some "2026-01-01T00:00:00";
            Store.total_chapters := 0 |} ∧
  Store.data_file s' = Some (Store.data s').
Proof.
  apply (track_then_mark "2026-01-01T00:00:00" "m1" "Title" (Store.PInt 1)
           (Store.load_data None)).
  reflexivity.
Defined.

(** ** The page loop, continued *)

Lemma show_page_files w pages i c st :
  0 <= i →
  files (show_page w pages i c st).2 = files st ∨
  (i < Z.of_nat (length pages) ∧
   files (show_page w pages i c st).2 = {[temp_path (i + 1)]} ∪ files st).
Proof.
  intros Hi. unfold show_page, bind, emit, tick. cbn.
  destruct (Py.list_index pages i) eqn:Hidx; [|now left].
  assert (Hlt : i < Z.of_nat (length pages)).
  { unfold Py.list_index in Hidx.
    destruct (Z.leb_spec 0 i), (Z.ltb_spec i (Z.of_nat (length pages)));
      cbn in Hidx; try lia.
    destruct (Z.ltb_spec i 0); cbn in Hidx; [lia | discriminate]. }
  revert Hidx. clear Hi.
  unfold try_native, try_viewer, try_browser, try_ascii, displaying, add_file,
    bind, ret, raise, emit; cbn.
  repeat (first [ case_decide
                | case_bool_decide
                | match goal with
                  | |- context [if ?b then _ else _] => destruct b
                  end ];
          simplify_eq; cbn); auto.
Qed.

Lemma temp_path_in_temp_files (i : Z) (n : nat) :
  0 <= i < Z.of_nat n → temp_path (i + 1) ∈ temp_files n.
Proof.
  intros Hi. unfold temp_files. apply elem_of_list_to_set, list_elem_of_fmap.
  exists (Z.to_nat i). split; [f_equal; lia|].
  apply elem_of_seq. lia.
Qed.

(** The loop only adds temporary files of its pages. *)
Lemma walk_files w pages max_pages inputs i c st :
  0 <= i →
  files st ⊆ files (walk w pages max_pages inputs i c st).2 ∧
  files (walk w pages max_pages inputs i c st).2
    ⊆ files st ∪ temp_files (length pages).
Proof.
  revert inputs i c st.
  apply (walk_ind w pages max_pages
           (fun _ i _ st r =>
              0 <= i →
              files st ⊆ files r.2 ∧
              files r.2 ⊆ files st ∪ temp_files (length pages)));
    cbn [fst snd prepend]; intros.
  1: set_solver.
  all: match goal with
       | Hsp : show_page _ _ ?i ?c ?st = _, Hi : 0 <= ?i |- _ =>
           destruct (show_page_files w pages i c st Hi) as [Hf|[Hlt Hf]];
           rewrite Hsp in Hf; cbn in Hf;
           try (pose proof (temp_path_in_temp_files i (length pages)
                              ltac:(lia)))
       end.
  all: try (specialize (H3 ltac:(lia)); destruct H3 as [IH1 IH2]).
  all: cbn; generalize dependent (temp_files (length pages));
       generalize dependent (temp_path (i + 1)); intros; set_solver.
Qed.

Lemma cleanup_files w n : ∀ from st,
  (cleanup w from n st).1.1 = Ret tt →
  files (cleanup w from n st).2 =
  files st ∖ list_to_set (map (fun j => temp_path (from + Z.of_nat j + 1)) (seq 0 n)).
Proof.
  induction n as [|n IH]; intros from st; cbn [cleanup].
  - cbn. set_solver.
  - assert (Hmap : map (fun j => temp_path (from + Z.of_nat j + 1)) (seq 0 (S n))
                   = temp_path (from + 1)
                     :: map (fun j => temp_path (from + 1 + Z.of_nat j + 1)) (seq 0 n)).
    { cbn [seq map]. f_equal; [f_equal; lia|].
      rewrite <- seq_shift, map_map. apply map_ext. intros j. f_equal. lia. }
    rewrite Hmap. cbn [list_to_set]. rewrite bind_eq.
    destruct (decide (temp_path (from + 1) ∈ files st)) as [Hin|Hin].
    + unfold remove_file. rewrite bind_eq. unfold tick. cbn [prepend fst snd].
      destruct (remove_ok (page w (clock st))); [|discriminate].
      match goal with
      | |- context [cleanup w (from + 1) n ?s] =>
          pose proof (IH (from + 1) s) as H;
          destruct (cleanup w (from + 1) n s) as [[r evs] st'] eqn:Hc
      end.
      cbn in *. intros Hr. rewrite (H Hr). set_solver.
    + pose proof (IH (from + 1) st) as H.
      destruct (cleanup w (from + 1) n st) as [[r evs] st'] eqn:Hc.
      cbn in *. intros Hr. rewrite (H Hr). set_solver.
Qed.

(** An answered prompt: the loop, then the cleanup when the loop ended
    normally, then [return True] when the cleanup did. *)
Lemma read_pages_unfold w pages cn max_pages st s rest :
  stdin st = Line s :: rest →
  read_pages w pages cn max_pages st =
  let r := walk w pages max_pages rest 0 (display_choice_of s) (set_stdin rest st) in
  match r.1.1 with
  | Ret _ =>
      (match (cleanup w 0 (length pages) r.2).1.1 with
       | Ret _ => Ret true
       | Raise e => Raise e
       end,
       EvPrint (ReadingChapter (Store.str cn)) :: EvPrompt ::
         r.1.2 ++ (cleanup w 0 (length pages) r.2).1.2,
       (cleanup w 0 (length pages) r.2).2)
  | Raise e =>
      (Raise e, EvPrint (ReadingChapter (Store.str cn)) :: EvPrompt :: r.1.2, r.2)
  end.
Proof.
  intros H.
  unfold read_pages, choose_display, try_except, input, bind, emit, ret.
  cbn. rewrite H. cbn. fold (display_choice_of s).
  destruct (walk w pages max_pages rest 0 (display_choice_of s) (set_stdin rest st))
    as [[[[]|e] evs] st1]; cbn.
  - destruct (cleanup w 0 (length pages) st1) as [[[[]|e] evs2] st2];
      cbn; rewrite ?app_nil_r; reflexivity.
  - rewrite ?app_nil_r. reflexivity.
Qed.

Lemma read_pages_true w pages cn max_pages st :
  (read_pages w pages cn max_pages st).1.1 = Ret true →
  ∃ s rest, stdin st = Line s :: rest ∧
    (walk w pages max_pages rest 0 (display_choice_of s) (set_stdin rest st)).1.1
      = Ret tt ∧
    (cleanup w 0 (length pages)
       (walk w pages max_pages rest 0 (display_choice_of s) (set_stdin rest st)).2).1.1
      = Ret tt.
Proof.
  intros Hr. destruct (stdin st) as [|[s|] rest] eqn:Hin.
  - destruct (read_pages_interrupted w pages cn max_pages st) as (st' & H & _);
      [now left|]. rewrite H in Hr. discriminate.
  - exists s, rest. split; [reflexivity|].
    rewrite (read_pages_unfold _ _ _ _ _ _ _ Hin) in Hr. cbn zeta in Hr.
    destruct (walk w pages max_pages rest 0 (display_choice_of s)
                (set_stdin rest st)) as [[[[]|e] evs] st1]; [|discriminate].
    split; [reflexivity|]. cbn in *.
    destruct (cleanup w 0 (length pages) st1) as [[[[]|e] evs2] st2];
      [reflexivity | discriminate].
  - destruct (read_pages_interrupted w pages cn max_pages st) as (st' & H & _);
      [right; eauto|]. rewrite H in Hr. discriminate.
Qed.

(** X7: the cleanup is exact.  When the session over a page list returns
    [True], the files left are those present before it, minus every
    [temp_page_<k>.png] for [k] from 1 to the number of pages: the files
    the session wrote are gone, and so are older files of those names. *)
Theorem session_cleans_up w pages cn max_pages st :
  (read_pages w pages cn max_pages st).1.1 = Ret true →
  files (read_pages w pages cn max_pages st).2
  = files st ∖ temp_files (length pages).
Proof.
  intros Hr. destruct (read_pages_true _ _ _ _ _ Hr) as (s & rest & Hin & Hw & Hc).
  rewrite (read_pages_unfold _ _ _ _ _ _ _ Hin). cbn zeta. rewrite Hw. cbn [snd].
  rewrite cleanup_files by exact Hc.
  destruct (walk_files w pages max_pages rest 0 (display_choice_of s)
              (set_stdin rest st) ltac:(lia)) as [H1 H2].
  cbn in H1, H2. unfold temp_files in *. cbn. set_solver.
Qed.

Lemma session_cleans_up_witness :
  files viewer_pages_run.2
  = files (state0 [Line "2"; Line EmptyString; Line "q"]) ∖ temp_files (length pages3).
Proof.
  apply (session_cleans_up (world_of chapters12 (fun _ => ok_page)) pages3
           (Store.PStr "1") 5 (state0 [Line "2"; Line EmptyString; Line "q"])).
  vm_compute. reflexivity.
Defined.

Lemma show_page_other_choice w pages i c st :
  c ≠ "2" →
  forallb (fun e => negb (is_save e)) (show_page w pages i c st).1.2 = true ∧
  ∀ c', (show_page w pages i c st).1.1 = Ret c' → c' ≠ "2".
Proof.
  intros Hc.
  show_page_cases w st pages i;
    (split; [reflexivity | intros; simplify_eq; done]).
Qed.

Lemma walk_no_save w pages max_pages inputs i c st :
  c ≠ "2" →
  forallb (fun e => negb (is_save e)) (walk w pages max_pages inputs i c st).1.2 = true.
Proof.
  revert inputs i c st.
  apply (walk_ind w pages max_pages
           (fun _ _ c _ r =>
              c ≠ "2" → forallb (fun e => negb (is_save e)) r.1.2 = true));
    cbn [fst snd prepend]; intros; cbv beta in *; [reflexivity|..].
  all: match goal with
       | Hsp : show_page _ _ ?i ?c ?st = _, Hc : ?c ≠ "2" |- _ =>
           destruct (show_page_other_choice w pages i c st Hc) as [Hs Hc'];
           rewrite Hsp in Hs, Hc'; cbn [fst snd] in Hs, Hc'
       end.
  all: rewrite ?forallb_app, Hs; cbn; try reflexivity.
  all: match goal with
       | IH : _ → forallb _ _ = true |- _ => apply IH, Hc', eq_refl
       end.
Qed.

(** X8: only the system viewer writes files.  If the answer to the
    display prompt is anything but [2], the session saves no temporary
    file. *)
Theorem only_viewer_saves w pages cn max_pages st s rest :
  stdin st = Line s :: rest →
  display_choice_of s ≠ "2" →
  forallb (fun e => negb (is_save e)) (read_pages w pages cn max_pages st).1.2 = true.
Proof.
  intros Hin Hc. rewrite (read_pages_unfold _ _ _ _ _ _ _ Hin). cbn zeta.
  pose proof (walk_no_save w pages max_pages rest 0 (display_choice_of s)
                (set_stdin rest st) Hc) as Hw.
  destruct (walk w pages max_pages rest 0 (display_choice_of s) (set_stdin rest st))
    as [[[[]|e] evs] st1]; cbn in *; [|exact Hw].
  rewrite forallb_app, Hw.
  destruct (cleanup_spec w (length pages) 0 st1) as (rc & evs2 & st2 & -> & _ & Hr & _).
  cbn. eapply forallb_impl; [|exact Hr]. now intros [].
Qed.

Lemma only_viewer_saves_witness :
  forallb (fun e => negb (is_save e)) three_pages_run.1.2 = true.
Proof.
  apply (only_viewer_saves (world_of chapters12 (fun _ => ok_page)) pages3
           (Store.PStr "1") 5
           (state0 [Line "4"; Line EmptyString; Line EmptyString; Line EmptyString;
                    Line EmptyString])
           "4" [Line EmptyString; Line EmptyString; Line EmptyString; Line EmptyString]).
  - reflexivity.
  - discriminate.
Defined.

Lemma show_page_unknown_choice w pages i c st :
  c ≠ "1" → c ≠ "2" → c ≠ "3" →
  only_ascii (show_page w pages i c st).1.2 = true ∧
  ∀ c', (show_page w pages i c st).1.1 = Ret c' → c' = c.
Proof.
  intros H1 H2 H3.
  show_page_cases w st pages i;
    (split; [reflexivity | intros; simplify_eq; done]).
Qed.

Lemma walk_unknown_choice w pages max_pages inputs i c st :
  c ≠ "1" → c ≠ "2" → c ≠ "3" →
  only_ascii (walk w pages max_pages inputs i c st).1.2 = true.
Proof.
  revert inputs i c st.
  apply (walk_ind w pages max_pages
           (fun _ _ c _ r =>
              c ≠ "1" → c ≠ "2" → c ≠ "3" → only_ascii r.1.2 = true));
    cbn [fst snd prepend]; intros; cbv beta in *; [reflexivity|..].
  all: match goal with
       | Hsp : show_page _ _ ?i ?c ?st = _,
         H1 : ?c ≠ "1", H2 : ?c ≠ "2", H3 : ?c ≠ "3" |- _ =>
           destruct (show_page_unknown_choice w pages i c st H1 H2 H3) as [Hs Hc'];
           rewrite Hsp in Hs, Hc'; cbn [fst snd] in Hs, Hc'
       end.
  all: rewrite ?only_ascii_app, Hs; cbn; try reflexivity.
  all: specialize (Hc' _ eq_refl); subst; auto.
Qed.

(** X9: every answer but [1], [2] and [3] means ASCII.  If the answer to
    the display prompt is none of these three (for instance [4], or [x]),
    every display attempt of the session is an ASCII rendering. *)
Theorem other_answers_render_ascii w pages cn max_pages st s rest :
  stdin st = Line s :: rest →
  display_choice_of s ≠ "1" → display_choice_of s ≠ "2" → display_choice_of s ≠ "3" →
  Forall (fun a => a.1.1 = Ascii) (shows (read_pages w pages cn max_pages st).1.2).
Proof.
  intros Hin H1 H2 H3. apply only_ascii_shows.
  rewrite (read_pages_unfold _ _ _ _ _ _ _ Hin). cbn zeta.
  pose proof (walk_unknown_choice w pages max_pages rest 0 (display_choice_of s)
                (set_stdin rest st) H1 H2 H3) as Hw.
  destruct (walk w pages max_pages rest 0 (display_choice_of s) (set_stdin rest st))
    as [[[[]|e] evs] st1]; cbn in *; [|exact Hw].
  change (only_ascii (evs ++ (cleanup w 0 (length pages) st1).1.2) = true).
  unfold only_ascii in *. rewrite forallb_app, Hw.
  destruct (cleanup_spec w (length pages) 0 st1) as (rc & evs2 & st2 & -> & _ & Hr & _).
  cbn. now apply remove_quiet, no_show_quiet in Hr as (_ & _ & Ha).
Qed.

Lemma other_answers_render_ascii_witness :
  Forall (fun a => a.1.1 = Ascii) (shows letter_choice_run.1.2).
Proof.
  apply (other_answers_render_ascii (world_of chapters12 (fun _ => ok_page)) pages3
           (Store.PStr "1") 5 (state0 [Line " x "; Line EmptyString; Line "q"])
           " x " [Line EmptyString; Line "q"]).
  - reflexivity.
  - discriminate.
  - discriminate.
  - discriminate.
Defined.

Lemma list_index_nonneg {A} (l : list A) (i : Z) (x : A) :
  0 <= i → Py.list_index l i = Some x → l !! Z.to_nat i = Some x.
Proof.
  intros Hi. unfold Py.list_index.
  destruct (Z.leb_spec 0 i); [|lia].
  destruct (Z.ltb_spec i (Z.of_nat (length l))); cbn; [done|].
  destruct (Z.ltb_spec i 0); cbn; [lia | discriminate].
Qed.

Lemma show_page_downloads w pages i c st :
  (downloads (show_page w pages i c st).1.2 = [] ∨
   ∃ url, Py.list_index pages i = Some url ∧
          downloads (show_page w pages i c st).1.2 = [(i, url)]).
Proof.
  unfold show_page, bind, emit, tick. cbn.
  destruct (Py.list_index pages i) as [url|]; [|now left].
  right. exists url. split; [reflexivity|].
  unfold try_native, try_viewer, try_browser, try_ascii, displaying, add_file,
    bind, ret, raise, emit; cbn.
  repeat (first [ case_decide
                | case_bool_decide
                | match goal with
                  | |- context [if ?b then _ else _] => destruct b
                  end ];
          simplify_eq; cbn); reflexivity.
Qed.

Lemma downloads_app a b : downloads (a ++ b) = downloads a ++ downloads b.
Proof. apply omap_app. Qed.

Lemma remove_no_download evs : forallb is_remove evs = true → downloads evs = [].
Proof.
  induction evs as [|e evs IH]; [reflexivity|]. cbn [forallb].
  intros [He Hevs]%andb_true_iff. destruct e; try discriminate.
  cbn. now apply IH.
Qed.

Lemma walk_downloads w pages max_pages inputs i c st :
  0 <= i →
  Forall (fun d => 0 <= d.1 ∧ pages !! Z.to_nat d.1 = Some d.2)
         (downloads (walk w pages max_pages inputs i c st).1.2) ∧
  (length (downloads (walk w pages max_pages inputs i c st).1.2)
   <= length inputs + 1)%nat.
Proof.
  revert inputs i c st.
  apply (walk_ind w pages max_pages
           (fun inputs i _ _ r =>
              0 <= i →
              Forall (fun d => 0 <= d.1 ∧ pages !! Z.to_nat d.1 = Some d.2)
                     (downloads r.1.2) ∧
              (length (downloads r.1.2) <= length inputs + 1)%nat));
    cbn [fst snd prepend]; intros.
  1: split; [constructor | cbn; lia].
  all: match goal with
       | Hsp : show_page _ _ ?i ?c ?st = _ |- _ =>
           destruct (show_page_downloads w pages i c st) as [Hd|(url & Hu & Hd)];
           rewrite Hsp in Hd; cbn [fst snd] in Hd;
           try apply list_index_nonneg in Hu; try lia
       end.
  all: try (specialize (H3 ltac:(lia)); destruct H3 as [IH1 IH2]).
  all: rewrite ?downloads_app, Hd; cbn [downloads omap download_of app length].
  all: split; [repeat constructor; cbn; auto | cbn; lia].
Qed.

(** X10: the session downloads pages of the list only.  Every download
    of a session is made at an index [i >= 0] of the page list and fetches
    the address stored there. *)
Theorem downloads_follow_page_list w pages cn max_pages st :
  Forall (fun d => 0 <= d.1 ∧ pages !! Z.to_nat d.1 = Some d.2)
         (downloads (read_pages w pages cn max_pages st).1.2).
Proof.
  destruct (stdin st) as [|[s|] rest] eqn:Hin.
  - destruct (read_pages_interrupted w pages cn max_pages st) as (st' & -> & _);
      [now left | constructor].
  - rewrite (read_pages_unfold _ _ _ _ _ _ _ Hin). cbn zeta.
    destruct (walk_downloads w pages max_pages rest 0 (display_choice_of s)
                (set_stdin rest st) ltac:(lia)) as [Hw _].
    destruct (walk w pages max_pages rest 0 (display_choice_of s) (set_stdin rest st))
      as [[[[]|e] evs] st1]; cbn in *; [|exact Hw].
    change (Forall (fun d => 0 <= d.1 ∧ pages !! Z.to_nat d.1 = Some d.2)
              (downloads (evs ++ (cleanup w 0 (length pages) st1).1.2))).
    destruct (cleanup_spec w (length pages) 0 st1) as (rc & evs2 & st2 & -> & _ & Hr & _).
    rewrite downloads_app. cbn [fst snd]. rewrite (remove_no_download _ Hr), app_nil_r.
    exact Hw.
  - destruct (read_pages_interrupted w pages cn max_pages st) as (st' & -> & _);
      [right; eauto | constructor].
Qed.

(** X11: one download per line at most.  A session never downloads more
    pages than there are lines on its input: the first line answers the
    display prompt and every download but the last is followed by the
    reading of one line. *)
Theorem downloads_bounded_by_input w pages cn max_pages st :
  (length (downloads (read_pages w pages cn max_pages st).1.2)
   <= length (stdin st))%nat.
Proof.
  destruct (stdin st) as [|[s|] rest] eqn:Hin.
  - destruct (read_pages_interrupted w pages cn max_pages st) as (st' & -> & _);
      [now left | cbn; lia].
  - rewrite (read_pages_unfold _ _ _ _ _ _ _ Hin). cbn zeta.
    destruct (walk_downloads w pages max_pages rest 0 (display_choice_of s)
                (set_stdin rest st) ltac:(lia)) as [_ Hw].
    destruct (walk w pages max_pages rest 0 (display_choice_of s) (set_stdin rest st))
      as [[[[]|e] evs] st1]; cbn [fst snd length] in *;
      [|change (length (downloads evs) <= S (length rest))%nat; lia].
    change (length (downloads (evs ++ (cleanup w 0 (length pages) st1).1.2))
            <= S (length rest))%nat.
    destruct (cleanup_spec w (length pages) 0 st1) as (rc & evs2 & st2 & -> & _ & Hr & _).
    rewrite downloads_app. cbn [fst snd]. rewrite (remove_no_download _ Hr), app_nil_r. lia.
  - destruct (read_pages_interrupted w pages cn max_pages st) as (st' & -> & _);
      [right; eauto | cbn; lia].
Qed.

(** ** The choice of the chapter *)

Lemma find_chapter_skip w wanted pre l :
  forallb (skips w wanted) pre = true →
  find_chapter w (pre ++ l) wanted = find_chapter w l wanted.
Proof.
  induction pre as [|ch pre IH]; [reflexivity|]. cbn [forallb app find_chapter].
  intros [Hch Hpre]%andb_true_iff. unfold skips in Hch.
  destruct (ch_chapter ch) as [a|]; [|now apply IH].
  case_decide; [now apply IH|].
  rewrite bool_decide_eq_false_2 in Hch by done. cbn in Hch.
  destruct (str_float w a) as [r|]; [|discriminate].
  case_decide; [|now apply IH].
  rewrite bool_decide_eq_true_2 in Hch by done. discriminate.
Qed.

Lemma find_chapter_found w chs wanted ch :
  find_chapter w chs wanted = Ret (Some ch) →
  ch ∈ chs ∧ matches w wanted ch = true.
Proof.
  induction chs as [|c chs IH]; cbn [find_chapter]; [discriminate|].
  unfold matches.
  destruct (ch_chapter c) as [a|] eqn:Ha.
  - case_decide as He.
    + intros H. destruct (IH H). split; [now right | done].
    + destruct (str_float w a) as [r|] eqn:Hr; [|discriminate].
      case_decide as Hw.
      * intros [= <-]. split; [now left|]. rewrite Ha.
        rewrite bool_decide_eq_false_2 by done.
        rewrite bool_decide_eq_true_2; [done | congruence].
      * intros H. destruct (IH H). split; [now right | done].
  - intros H. destruct (IH H). split; [now right | done].
Qed.


(** X12: the chapter read is one of the list.  Whatever the request, the
    chapter chosen by lines 185-191 belongs to the fetched list, and it is
    either the first chapter or a chapter whose number, printed as a
    float, is the text of the request. *)
Theorem target_chapter_in_list w chs (request : Store.pyval) ch :
  target_chapter w chs request = Ret (Some ch) →
  ch ∈ chs ∧ (head chs = Some ch ∨ matches w (Store.str request) ch = true).
Proof.
  unfold target_chapter.
  destruct (find_chapter w chs (Store.str request)) as [[found|]|e] eqn:Hf;
    [| |discriminate].
  - intros [= <-]. destruct (find_chapter_found _ _ _ _ Hf). auto.
  - intros [= Hh]. split; [|now left].
    destruct chs; [discriminate|]. injection Hh as <-. now left.
Qed.

Lemma target_chapter_in_list_witness :
  {| ch_id := "c2"; ch_chapter := Some "2" |} ∈ chapters12 ∧
  (head chapters12 = Some {| ch_id := "c2"; ch_chapter := Some "2" |} ∨
   matches (world_of chapters12 (fun _ => ok_page)) (Store.str (Store.PStr "2.0"))
     {| ch_id := "c2"; ch_chapter := Some "2" |} = true).
Proof.
  apply (target_chapter_in_list (world_of chapters12 (fun _ => ok_page)) chapters12
           (Store.PStr "2.0")).
  reflexivity.
Defined.

(** X13: the first chapter with the requested number wins.  If the
    chapters before it are passed over and its number, printed as a float,
    is the text of the request, that chapter is chosen, whatever follows
    it in the list. *)
Theorem first_match_is_chosen w pre ch post (request : Store.pyval) :
  forallb (skips w (Store.str request)) pre = true →
  matches w (Store.str request) ch = true →
  target_chapter w (pre ++ ch :: post) request = Ret (Some ch).
Proof.
  intros Hpre Hm. unfold target_chapter.
  rewrite (find_chapter_skip _ _ _ _ Hpre). cbn [find_chapter].
  unfold matches in Hm. destruct (ch_chapter ch) as [a|]; [|discriminate].
  apply andb_true_iff in Hm as [Ha Hr].
  apply negb_true_iff, bool_decide_eq_false in Ha.
  apply bool_decide_eq_true in Hr.
  case_decide; [done|]. rewrite Hr. now case_decide.
Qed.

Lemma first_match_is_chosen_witness :
  target_chapter (world_of chapters12 (fun _ => ok_page))
    ([{| ch_id := "c1"; ch_chapter := Some "1" |}] ++
     {| ch_id := "c2"; ch_chapter := Some "2" |} :: [])
    (Store.PStr "2.0")
  = Ret (Some {| ch_id := "c2"; ch_chapter := Some "2" |}).
Proof.
  apply (first_match_is_chosen (world_of chapters12 (fun _ => ok_page))
           [{| ch_id := "c1"; ch_chapter := Some "1" |}]
           {| ch_id := "c2"; ch_chapter := Some "2" |} [] (Store.PStr "2.0")).
  - reflexivity.
  - reflexivity.
Defined.

(** X14: without a match the first chapter is read.  If every chapter of
    the list is passed over (no number, or a number whose float text
    differs from the request), the first chapter of the list is chosen;
    nothing is raised. *)
Theorem no_match_falls_back w chs (request : Store.pyval) :
  forallb (skips w (Store.str request)) chs = true →
  target_chapter w chs request = Ret (head chs).
Proof.
  intros Hs. unfold target_chapter.
  rewrite <- (app_nil_r chs) at 1.
  rewrite (find_chapter_skip _ _ _ _ Hs). reflexivity.
Qed.

Lemma no_match_falls_back_witness :
  target_chapter (world_of chapters12 (fun _ => ok_page)) chapters12 (Store.PStr "7")
  = Ret (head chapters12).
Proof.
  apply (no_match_falls_back (world_of chapters12 (fun _ => ok_page)) chapters12
           (Store.PStr "7")).
  reflexivity.
Defined.

(** X15: a chapter number that is not a number stops the session.  If a
    chapter whose number [float] cannot parse (such as [10a]) is reached
    before a match, [read_chapter_enhanced] raises [ValueError] right after
    the chapter list is fetched: no page list is requested and no prompt
    shown. *)
Theorem unparsable_chapter_raises w manga_id (request : Store.pyval) max_pages st
    pre ch post :
  feed w (clock st) manga_id true = Answer (pre ++ ch :: post) →
  forallb (skips w (Store.str request)) pre = true →
  unparsable w ch = true →
  read_chapter_enhanced w manga_id request max_pages st
  = (Raise ValueError, [EvFeed manga_id true], set_clock (S (clock st)) st).
Proof.
  intros Hfeed Hpre Hu.
  assert (Ht : target_chapter w (pre ++ ch :: post) request = Raise ValueError).
  { unfold target_chapter. rewrite (find_chapter_skip _ _ _ _ Hpre).
    cbn [find_chapter]. unfold unparsable in Hu.
    destruct (ch_chapter ch) as [a|]; [|discriminate].
    apply andb_true_iff in Hu as [Ha Hr].
    apply negb_true_iff, bool_decide_eq_false in Ha.
    apply bool_decide_eq_true in Hr.
    case_decide; [done|]. now rewrite Hr. }
  unfold read_chapter_enhanced, open_chapter, get_chapters, bind, tick, emit, ret, raise.
  cbn. rewrite Hfeed.
  destruct (pre ++ ch :: post) as [|c0 l] eqn:Hl; [now destruct pre|].
  cbn. rewrite Ht. cbn. now destruct st.
Qed.

Lemma unparsable_chapter_raises_witness :
  read_chapter_enhanced (world_of chapters_with_extra (fun _ => ok_page)) "m1"
    (Store.PStr "2") 5 (state0 [Line "4"])
  = (Raise ValueError, [EvFeed "m1" true], set_clock 1 (state0 [Line "4"])).
Proof.
  apply (unparsable_chapter_raises (world_of chapters_with_extra (fun _ => ok_page))
           "m1" (Store.PStr "2") 5 (state0 [Line "4"])
           [{| ch_id := "c1"; ch_chapter := Some "1" |}]
           {| ch_id := "cx"; ch_chapter := Some "10a" |} []).
  - reflexivity.
  - reflexivity.
  - reflexivity.
Defined.

(** X16: a page-list answer with a missing key is not caught.  When the
    answer of the page-list request lacks [baseUrl], [chapter], [hash] or
    [data], [read_chapter_enhanced] raises [KeyError] (it does not report
    that no page is available); no prompt is shown and the input is left
    unread. *)
Theorem incomplete_page_list_raises w manga_id (request : Store.pyval) max_pages st
    chs evs1 st1 target payload :
  get_chapters w manga_id st = (Ret (Some chs), evs1, st1) →
  target_chapter w chs request = Ret (Some target) →
  at_home w (clock st1) (ch_id target) = Answer payload →
  complete payload = false →
  read_chapter_enhanced w manga_id request max_pages st
  = (Raise KeyError, evs1 ++ [EvAtHome (ch_id target)], set_clock (S (clock st1)) st1).
Proof.
  intros Hg Ht Hp Hc.
  unfold read_chapter_enhanced, open_chapter, bind at 1 2. rewrite Hg.
  destruct chs as [|c0 l]; [discriminate|]. rewrite Ht.
  unfold get_chapter_pages, bind, tick, emit, ret, raise, key. cbn. rewrite Hp.
  unfold complete in Hc.
  destruct (baseUrl payload), (chapter_ payload) as [[[h|] [d|]]|];
    try discriminate; reflexivity.
Qed.

Lemma incomplete_page_list_raises_witness :
  read_chapter_enhanced world_without_hash "m1" (Store.PStr "1") 5 (state0 [Line "4"])
  = (Raise KeyError, [EvFeed "m1" true] ++ [EvAtHome "c1"],
     set_clock 2 (set_clock 1 (state0 [Line "4"]))).
Proof.
  apply (incomplete_page_list_raises world_without_hash "m1" (Store.PStr "1") 5
           (state0 [Line "4"]) chapters12 [EvFeed "m1" true]
           (set_clock 1 (state0 [Line "4"]))
           {| ch_id := "c1"; ch_chapter := Some "1" |} payload_without_hash).
  - reflexivity.
  - reflexivity.
  - reflexivity.
  - reflexivity.
Defined.

(** ** What leaves the session *)






(** Each of the escapes after the prompt happens: [os.remove] fails in
    the cleanup; the message of the handler does not print; Ctrl-C
    arrives during a download, or during the ASCII rendering that follows
    a failed viewer. *)
Example escapes_after_the_prompt :
  (session_in locked_files [Line "2"; Line "q"]).1 =
    (Raise OSError,
     [EvFeed "m1" true; EvAtHome "c1"; EvPrint (ReadingChapter "1"); EvPrompt;
      EvPrint (LoadingPage 1); EvFetch 0 "https://cdn/data/h/a.png";
      EvSave "temp_page_1.png"; EvShow SystemViewer 1 true; EvInput 0]) ∧
  (session_in bad_markup [Line "4"]).1 =
    (Raise MarkupError,
     [EvFeed "m1" true; EvAtHome "c1"; EvPrint (ReadingChapter "1"); EvPrompt;
      EvPrint (LoadingPage 1); EvFetch 0 "https://cdn/data/h/a.png"]) ∧
  (session_in ctrl_c_download [Line "4"]).1 =
    (Raise KeyboardInterrupt,
     [EvFeed "m1" true; EvAtHome "c1"; EvPrint (ReadingChapter "1"); EvPrompt;
      EvPrint (LoadingPage 1); EvFetch 0 "https://cdn/data/h/a.png"]) ∧
  (session_in ctrl_c_fallback [Line "2"]).1 =
    (Raise KeyboardInterrupt,
     [EvFeed "m1" true; EvAtHome "c1"; EvPrint (ReadingChapter "1"); EvPrompt;
      EvPrint (LoadingPage 1); EvFetch 0 "https://cdn/data/h/a.png";
      EvSave "temp_page_1.png"; EvShow SystemViewer 1 false;
      EvPrint FallingBackToAscii]).
Proof. repeat split; vm_compute; reflexivity. Qed.

Example interrupt_leaves_temp_file :
  interrupted_run.1.1 = Raise KeyboardInterrupt ∧
  elements (files interrupted_run.2) = ["temp_page_1.png"].
Proof. split; vm_compute; reflexivity. Qed.





(** The [OSError] of the cleanup is another matter: the files removed
    before the failing [os.remove] are gone. *)
Example failed_cleanup_is_partial :
  half_cleaned_run.1.1 = Raise OSError ∧
  In (EvRemove "temp_page_1.png") half_cleaned_run.1.2 ∧
  elements (files half_cleaned_run.2) = ["temp_page_2.png"].
Proof.
  split; [vm_compute; reflexivity|]. split; [vm_compute; tauto|].
  vm_compute. reflexivity.
Qed.

(** ** Reading straight through *)

Lemma fetched_app a b : fetched (a ++ b) = fetched a ++ fetched b.
Proof. apply omap_app. Qed.

Lemma remove_not_fetched evs : forallb is_remove evs = true → fetched evs = [].
Proof.
  induction evs as [|e evs IH]; [reflexivity|]. cbn [forallb].
  intros [He Hevs]%andb_true_iff. destruct e; try discriminate.
  cbn. now apply IH.
Qed.

Lemma show_page_all_ok w pages i c st :
  page w (clock st) = ok_page →
  0 <= i < Z.of_nat (length pages) →
  ∃ evs st1, show_page w pages i c st = (Ret c, evs, st1) ∧ fetched evs = [i].
Proof.
  intros Hok Hi. unfold show_page, bind, emit, tick. cbn. rewrite Hok.
  assert (Hidx : ∃ url, Py.list_index pages i = Some url).
  { unfold Py.list_index.
    destruct (Z.leb_spec 0 i), (Z.ltb_spec i (Z.of_nat (length pages))); try lia.
    cbn. apply lookup_lt_is_Some. lia. }
  destruct Hidx as [url ->].
  unfold try_native, try_viewer, try_browser, try_ascii, displaying, add_file,
    bind, ret, raise, emit; cbn.
  repeat (first [case_decide | case_bool_decide]; simplify_eq; cbn);
    eexists _, _; split; reflexivity.
Qed.

Lemma walk_straight w pages max_pages inputs :
  (∀ k, page w k = ok_page) →
  forallb advances inputs = true →
  ∀ i c st, 0 <= i →
  (walk w pages max_pages inputs i c st).1.1 = Ret tt ∧
  fetched (walk w pages max_pages inputs i c st).1.2
  = seqZ i (Z.min (Z.of_nat (length inputs) + 1)
              (Z.max 0 (Z.min max_pages (Z.of_nat (length pages)) - i))).
Proof.
  intros Hok. induction inputs as [|ev rest IH]; intros Hadv i c st Hi;
    rewrite walk_eq;
    destruct (Z.ltb_spec i (Z.min max_pages (Z.of_nat (length pages)))) as [Hlt|Hge].
  - destruct (show_page_all_ok w pages i c st (Hok _) ltac:(lia))
      as (evs & st1 & -> & Hf).
    cbn [fst snd]. split; [reflexivity|].
    rewrite fetched_app, Hf. cbn [length].
    replace (Z.min (Z.of_nat 0 + 1) _) with 1 by lia. reflexivity.
  - cbn. split; [reflexivity|].
    replace (Z.min _ _) with 0 by lia. reflexivity.
  - destruct (show_page_all_ok w pages i c st (Hok _) ltac:(lia))
      as (evs & st1 & -> & Hf).
    cbn [forallb] in Hadv. apply andb_true_iff in Hadv as [Hev Hrest].
    destruct ev as [s|]; [|discriminate]. unfold advances in Hev.
    apply andb_true_iff in Hev as [Hq Hb].
    apply negb_true_iff, bool_decide_eq_false in Hq.
    apply negb_true_iff in Hb.
    destruct (decide (Py.lower (Py.strip s) = "q")); [done|].
    rewrite Hb. cbn [andb fst snd prepend].
    destruct (IH Hrest (i + 1) c st1 ltac:(lia)) as [IH1 IH2].
    split; [exact IH1|].
    rewrite !fetched_app, Hf, IH2. cbn [fetched omap fetch_of app length].
    change (fetched [EvInput i]) with (@nil Z). cbn [app].
    rewrite (seqZ_cons i) by lia. f_equal. f_equal; lia.
  - cbn. split; [reflexivity|].
    replace (Z.min _ _) with 0 by lia. reflexivity.
Qed.

(** X19: reading straight through.  When every page downloads and
    displays, no Ctrl-C arrives, the temporary files can be removed and
    each line typed at the navigation prompt moves forward (anything but
    [q] and [b]), the session returns [True] and has downloaded the pages
    of index 0, 1, 2, ... in this order, as many as there are lines plus
    one, and at most min(max_pages, number of pages). *)
Theorem straight_reading w pages cn max_pages st s lines :
  (∀ k, page w k = ok_page) →
  stdin st = Line s :: lines →
  forallb advances lines = true →
  (read_pages w pages cn max_pages st).1.1 = Ret true ∧
  fetched (read_pages w pages cn max_pages st).1.2
  = seqZ 0 (Z.min (Z.of_nat (length lines) + 1)
              (Z.max 0 (Z.min max_pages (Z.of_nat (length pages))))).
Proof.
  intros Hok Hin Hadv. rewrite (read_pages_unfold _ _ _ _ _ _ _ Hin). cbn zeta.
  destruct (walk_straight w pages max_pages lines Hok Hadv 0 (display_choice_of s)
              (set_stdin lines st) ltac:(lia)) as [Hr Hf].
  assert (Hw : gentle w) by (intros k; rewrite Hok; repeat split).
  rewrite Hr. cbn [fst snd]. rewrite (cleanup_gentle _ _ _ _ Hw).
  split; [reflexivity|].
  change (fetched ((walk w pages max_pages lines 0 (display_choice_of s)
                      (set_stdin lines st)).1.2 ++
                   (cleanup w 0 (length pages)
                      (walk w pages max_pages lines 0 (display_choice_of s)
                         (set_stdin lines st)).2).1.2) = 
          seqZ 0 (Z.min (Z.of_nat (length lines) + 1)
                   (Z.max 0 (Z.min max_pages (Z.of_nat (length pages)))))).
  rewrite fetched_app, Hf.
  destruct (cleanup_spec w (length pages) 0
              (walk w pages max_pages lines 0 (display_choice_of s)
                 (set_stdin lines st)).2) as (rc & evs2 & st2 & -> & _ & Hrm & _).
  cbn [fst snd]. rewrite (remove_not_fetched _ Hrm), app_nil_r.
  f_equal. lia.
Qed.

Lemma straight_reading_witness :
  three_pages_run.1.1 = Ret true ∧
  fetched three_pages_run.1.2
  = seqZ 0 (Z.min (Z.of_nat (length [Line EmptyString; Line EmptyString;
                                      Line EmptyString; Line EmptyString]) + 1)
              (Z.max 0 (Z.min 5 (Z.of_nat (length pages3))))).
Proof.
  apply (straight_reading (world_of chapters12 (fun _ => ok_page)) pages3
           (Store.PStr "1") 5
           (state0 [Line "4"; Line EmptyString; Line EmptyString; Line EmptyString;
                    Line EmptyString])
           "4" [Line EmptyString; Line EmptyString; Line EmptyString; Line EmptyString]).
  - reflexivity.
  - reflexivity.
  - reflexivity.
Defined.

(** ** The [search] command *)

Lemma pick_first_valid n inputs : ∀ st idx evs st',
  Cli.pick n inputs st = (Ret (Some idx), evs, st') →
  0 <= idx < n ∧
  ∃ skipped s, inputs = skipped ++ Line s :: stdin st' ∧
               forallb (rejected n) skipped = true ∧
               Py.isdigit (Py.strip s) = true ∧
               Py.int_of_digits (Py.strip s) = idx + 1.
Proof.
  induction inputs as [|ev rest IH]; intros st idx evs st'; cbn [Cli.pick];
    [discriminate|].
  destruct ev as [s|]; [|discriminate].
  case_decide as Hq; [discriminate|].
  destruct (Py.isdigit (Py.strip s)) eqn:Hd; cbn [negb orb].
  - destruct (Z.leb_spec 1 (Py.int_of_digits (Py.strip s))) as [H1|H1];
      destruct (Z.leb_spec (Py.int_of_digits (Py.strip s)) n) as [H2|H2];
      cbn [andb negb].
    1: { intros [= <- <- <-]. split; [lia|].
         exists [], s. cbn. repeat split; auto; lia. }
    all: intros Hp; destruct (IH _ _ _ _ Hp) as (Hr & sk & s' & -> & Hsk & Hs');
      (split; [exact Hr|]); exists (Line s :: sk), s';
      (split; [reflexivity|]); split; [|exact Hs']; cbn [forallb rejected];
      rewrite Hsk, Hd, bool_decide_eq_false_2 by done; cbn [negb orb andb].
    + destruct (Z.leb_spec (Py.int_of_digits (Py.strip s)) n); [lia|].
      destruct (Z.leb_spec 1 (Py.int_of_digits (Py.strip s))); reflexivity.
    + destruct (Z.leb_spec 1 (Py.int_of_digits (Py.strip s))); [lia|]. reflexivity.
    + destruct (Z.leb_spec 1 (Py.int_of_digits (Py.strip s))); [lia|]. reflexivity.
  - intros Hp; destruct (IH _ _ _ _ Hp) as (Hr & sk & s' & -> & Hsk & Hs').
    split; [exact Hr|]. exists (Line s :: sk), s'.
    split; [reflexivity|]. split; [|exact Hs']. cbn [forallb rejected].
    rewrite Hsk, Hd, bool_decide_eq_false_2 by done. reflexivity.
Qed.

(** X20: the pick is always an entry of the list.  When the pick prompt
    of [search] yields an index, it is the number typed on the first line
    that is made of digits and denotes a number between 1 and the number
    of results, minus one: the lines before were rejected, and the index
    points inside the result list, so that [results['data'][idx]]
    exists. *)
Theorem pick_in_range (ms : list Cli.manga) inputs st idx evs st' :
  Cli.pick (Z.of_nat (length ms)) inputs st = (Ret (Some idx), evs, st') →
  (∃ m, Py.list_index ms idx = Some m ∧ ms !! Z.to_nat idx = Some m) ∧
  ∃ skipped s, inputs = skipped ++ Line s :: stdin st' ∧
               forallb (rejected (Z.of_nat (length ms))) skipped = true ∧
               Py.isdigit (Py.strip s) = true ∧
               Py.int_of_digits (Py.strip s) = idx + 1.
Proof.
  intros Hp. destruct (pick_first_valid _ _ _ _ _ _ Hp)
    as (Hr & sk & s & Hin & Hsk & Hd & Hs).
  split; [|now exists sk, s].
  destruct (lookup_lt_is_Some_2 ms (Z.to_nat idx) ltac:(lia)) as [m Hm].
  exists m. split; [|exact Hm]. unfold Py.list_index.
  destruct (Z.leb_spec 0 idx), (Z.ltb_spec idx (Z.of_nat (length ms))); try lia.
  exact Hm.
Qed.

Lemma pick_in_range_witness :
  (∃ m, Py.list_index two_results 1 = Some m ∧ two_results !! Z.to_nat 1 = Some m) ∧
  ∃ skipped s,
    [Line "0"; Line "three"; Line "7"; Line " 2 "; Line "y"]
      = skipped ++ Line s :: stdin (set_stdin [Line "y"] (state0 [])) ∧
    forallb (rejected (Z.of_nat (length two_results))) skipped = true ∧
    Py.isdigit (Py.strip s) = true ∧
    Py.int_of_digits (Py.strip s) = 1 + 1.
Proof.
  apply (pick_in_range two_results
           [Line "0"; Line "three"; Line "7"; Line " 2 "; Line "y"]
           (state0 []) 1 [] (set_stdin [Line "y"] (state0 []))).
  reflexivity.
Defined.

Lemma track_manga_persisted manga_id title s :
  persisted s → persisted (Store.track_manga manga_id title s).
Proof.
  intros Hs. unfold Store.track_manga.
  destruct (Store.tracked_manga (Store.data s) !! manga_id);
    [exact Hs | apply save_data_persisted].
Qed.

Lemma mark_chapter_read_persisted now manga_id chapter_number s :
  persisted s → persisted (Store.mark_chapter_read now manga_id chapter_number s).
Proof.
  intros Hs. unfold Store.mark_chapter_read.
  destruct (Store.tracked_manga (Store.data s) !! manga_id); [|exact Hs].
  case_decide; [exact Hs | apply save_data_persisted].
Qed.

Lemma mark_chapter_read_tracked now manga_id chapter_number s other :
  is_Some (Store.tracked_manga (Store.data s) !! other) →
  is_Some (Store.tracked_manga
             (Store.data (Store.mark_chapter_read now manga_id chapter_number s))
             !! other).
Proof.
  intros [r Hr]. destruct (decide (other = manga_id)) as [->|Hne].
  - destruct (decide (chapter_number ∈ Store.read_chapters r)) as [Hin|Hnin].
    + rewrite (mark_chapter_read_known now _ _ _ r Hr Hin). eauto.
    + rewrite (mark_chapter_read_lookup now _ _ _ r Hr Hnin). eauto.
  - rewrite mark_chapter_read_other by exact Hne. eauto.
Qed.

Lemma read_first_chapter_store w manga_id st :
  marked_or_same manga_id (store st) (store (Cli.read_first_chapter w manga_id st).2).
Proof.
  unfold Cli.read_first_chapter, bind at 1.
  destruct (get_chapters_spec w manga_id st) as (r & evs & k & -> & _).
  destruct r as [[[|ch chs]|]|e0]; cbn [fst snd]; try (now left).
  unfold bind at 1.
  pose proof (read_chapter_enhanced_store w manga_id (Cli.first_chapter ch) 5
                (set_clock k st)) as Hs.
  destruct (read_chapter_enhanced w manga_id (Cli.first_chapter ch) 5 (set_clock k st))
    as [[[b|e] evs2] st2]; cbn [fst snd] in *.
  - unfold bind, tick, Cli.lift_store. cbn. right. rewrite Hs. eauto.
  - left. exact Hs.
Qed.

Lemma ask_yes_spec st :
  store (Cli.ask_yes st).2 = store st ∧
  ((Cli.ask_yes st).1.1 = Ret true →
   ∃ s rest, stdin st = Line s :: rest ∧ Py.lower (Py.strip s) = "y") ∧
  (∀ s rest, stdin st = Line s :: rest →
             (Cli.ask_yes st).1.1 = Ret (bool_decide (Py.lower (Py.strip s) = "y"))).
Proof.
  unfold Cli.ask_yes. rewrite bind_eq. unfold input, ret.
  destruct (stdin st) as [|[s|] rest]; cbn; repeat split; try discriminate.
  - intros [= H%bool_decide_eq_true]. eauto.
  - now intros ? ? [= <- <-].
Qed.

Lemma after_tracking_prompt w manga_id st :
  marked_or_same manga_id (store st)
    (store ((read_now <- Cli.ask_yes ;;
             if read_now then Cli.read_first_chapter w manga_id else ret tt)%eff st).2).
Proof.
  rewrite bind_eq. destruct (ask_yes_spec st) as (Hs & _ & _).
  destruct (Cli.ask_yes st) as [[[[]|e] evs] st1]; cbn [fst snd prepend] in *.
  - rewrite <- Hs. apply read_first_chapter_store.
  - left. exact Hs.
  - left. exact Hs.
Qed.

Lemma search_selected_store w manga_id title st :
  marked_or_same manga_id (store st)
    (store (Cli.search_selected w manga_id title st).2) ∨
  ((∃ s rest, stdin st = Line s :: rest ∧ Py.lower (Py.strip s) = "y") ∧
   marked_or_same manga_id (Store.track_manga manga_id title (store st))
     (store (Cli.search_selected w manga_id title st).2)).
Proof.
  unfold Cli.search_selected. rewrite bind_eq.
  destruct (ask_yes_spec st) as (Hs & Hy & _).
  destruct (Cli.ask_yes st) as [[[[]|e] evs] st1]; cbn [fst snd prepend] in *.
  - right. split; [now apply Hy|].
    rewrite bind_eq. unfold Cli.lift_store at 1. cbn [fst snd prepend].
    rewrite <- Hs.
    apply (after_tracking_prompt w manga_id
             (set_store (Store.track_manga manga_id title (store st1)) st1)).
  - left. rewrite bind_eq. unfold ret at 1. cbn [fst snd prepend].
    rewrite <- Hs. apply after_tracking_prompt.
  - left. left. exact Hs.
Qed.

Lemma pick_store n inputs : ∀ st, store (Cli.pick n inputs st).2 = store st.
Proof.
  induction inputs as [|[s|] rest IH]; intros st; cbn [Cli.pick]; try reflexivity.
  case_decide; [reflexivity|].
  destruct (_ || _); [apply IH | reflexivity].
Qed.

Lemma marked_or_same_persisted manga_id s s' :
  marked_or_same manga_id s s' → persisted s → persisted s'.
Proof.
  intros [->|(now & ch & ->)] Hs; [exact Hs|].
  now apply mark_chapter_read_persisted.
Qed.

(** X21: the file follows the memory through [search].  However a run of
    [search] ends (no result, quit, end of input, an exception of the
    reading session, a complete reading), the data it leaves in memory is
    what reloading the file would give. *)
Theorem search_leaves_store_persisted w results st :
  persisted (store (Cli.search w results st).2).
Proof.
  unfold Cli.search. rewrite bind_eq. unfold Cli.lift_store at 1.
  cbn [fst snd prepend].
  set (st0 := set_store (Store.load_data (Store.data_file (store st))) st).
  assert (H0 : persisted (store st0)) by (cbn; now destruct (Store.data_file _)).
  destruct results as [[|m ms]|]; [exact H0 | | exact H0].
  destruct (Cli.listing 1 (m :: ms)) as [l|e]; [|exact H0].
  rewrite bind_eq.
  pose proof (pick_store (Z.of_nat (length (m :: ms))) (stdin st0) st0) as Hp.
  destruct (Cli.pick (Z.of_nat (length (m :: ms))) (stdin st0) st0)
    as [[[[idx|]|e] evs] st1]; cbn [fst snd prepend] in *.
  - destruct (Py.list_index (m :: ms) idx) as [selected|];
      [|cbn; rewrite Hp; exact H0].
    destruct (search_selected_store w (Cli.m_id selected) (Cli.title_of selected) st1)
      as [Hs|[_ Hs]];
      (eapply marked_or_same_persisted; [exact Hs|]); rewrite Hp;
      [exact H0 | now apply track_manga_persisted].
  - cbn. rewrite Hp. exact H0.
  - rewrite Hp. exact H0.
Qed.

(** X22: tracking survives a failed reading.  When the user answers [y]
    to the tracking prompt, the manga is tracked when [search]'s last part
    ends, whatever happens afterwards: declined reading, end of input, or
    an exception raised by the reading session. *)
Theorem tracking_survives w manga_id title st s rest :
  stdin st = Line s :: rest →
  Py.lower (Py.strip s) = "y" →
  is_Some (Store.tracked_manga
             (Store.data (store (Cli.search_selected w manga_id title st).2))
             !! manga_id).
Proof.
  intros Hin Hy.
  assert (Ht : is_Some (Store.tracked_manga
                          (Store.data (Store.track_manga manga_id title (store st)))
                          !! manga_id)).
  { unfold Store.track_manga.
    destruct (Store.tracked_manga (Store.data (store st)) !! manga_id) eqn:Hl;
      [rewrite Hl; eauto|]. cbn. rewrite lookup_insert_eq. eauto. }
  assert (Hm : marked_or_same manga_id (Store.track_manga manga_id title (store st))
                 (store (Cli.search_selected w manga_id title st).2)).
  { unfold Cli.search_selected. rewrite bind_eq.
    destruct (ask_yes_spec st) as (Hs & _ & Hl). specialize (Hl _ _ Hin).
    rewrite bool_decide_eq_true_2 in Hl by exact Hy.
    destruct (Cli.ask_yes st) as [[r evs] st1]; cbn [fst snd] in *. subst r.
    cbn [prepend snd]. rewrite bind_eq. unfold Cli.lift_store at 1.
    cbn [fst snd prepend]. rewrite <- Hs.
    apply (after_tracking_prompt w manga_id
             (set_store (Store.track_manga manga_id title (store st1)) st1)). }
  destruct Hm as [->|(now & ch & ->)]; [exact Ht|].
  now apply mark_chapter_read_tracked.
Qed.

Lemma tracking_survives_witness :
  is_Some (Store.tracked_manga
             (Store.data (store (Cli.search_selected crash_world "m1" "Title"
                                   (state0 [Line "y"; Line "y"; Line "4"])).2))
             !! "m1").
Proof.
  apply (tracking_survives crash_world "m1" "Title"
           (state0 [Line "y"; Line "y"; Line "4"]) "y" [Line "y"; Line "4"]).
  - reflexivity.
  - reflexivity.
Defined.

Example crashed_search_run :
  crashed_search.1.1 = Raise ValueError ∧
  Store.title <$> Store.tracked_manga (Store.data (store crashed_search.2)) !! "m1"
  = Some "Title" ∧
  Store.data_file (store crashed_search.2) = Some (Store.data (store crashed_search.2)).
Proof. repeat split; vm_compute; reflexivity. Qed.

(** ** The system viewer *)

Lemma try_viewers_spec run viewers :
  ∃ tried left_over result,
    Launcher.try_viewers run viewers = (result, tried) ∧
    viewers = tried ++ left_over ∧
    forallb (fun v => shrugged_off (run v)) (removelast tried) = true ∧
    match last tried with
    | Some v =>
        match run v with
        | Launcher.Launched => result = true
        | Launcher.Failed => result = false
        | _ => result = true ∧ left_over = []
        end
    | None => result = true ∧ viewers = []
    end.
Proof.
  induction viewers as [|v rest (tried & lo & res & IH & Hv & Hs & Hl)];
    cbn [Launcher.try_viewers].
  - now exists [], [], true.
  - destruct (run v) eqn:Hr.
    + exists [v], rest, true. cbn. now rewrite Hr.
    + rewrite IH. cbn [fst snd]. exists (v :: tried), lo, res.
      split; [reflexivity|]. split; [now rewrite Hv|].
      destruct tried as [|t tried'].
      * cbn in *. rewrite Hr. destruct Hl as [-> ->]. cbn in Hv. now subst.
      * split.
        -- cbn [removelast forallb]. rewrite Hr. cbn [removelast] in Hs. exact Hs.
        -- rewrite last_cons_cons.
           destruct (last (t :: tried')) eqn:Hlt; [exact Hl|].
           apply last_None in Hlt. discriminate.
    + rewrite IH. cbn [fst snd]. exists (v :: tried), lo, res.
      split; [reflexivity|]. split; [now rewrite Hv|].
      destruct tried as [|t tried'].
      * cbn in *. rewrite Hr. destruct Hl as [-> ->]. cbn in Hv. now subst.
      * split.
        -- cbn [removelast forallb]. rewrite Hr. cbn [removelast] in Hs. exact Hs.
        -- rewrite last_cons_cons.
           destruct (last (t :: tried')) eqn:Hlt; [exact Hl|].
           apply last_None in Hlt. discriminate.
    + exists [v], rest, false. cbn. now rewrite Hr.
Qed.

(** X23: on Linux a missing viewer is not a failure.  If none of the four
    viewers raises anything but [CalledProcessError] or
    [FileNotFoundError] (for instance when none is installed),
    [display_image_terminal] returns [True], having tried the viewers in
    the order [xdg-open], [feh], [display], [eog] up to the first one that
    ran: the viewers tried before the last one did not run, and either
    the last one tried ran or all four were tried. *)
Theorem linux_viewer_reports_success run :
  (∀ v, v ∈ Launcher.linux_viewers → run v ≠ Launcher.Failed) →
  (Launcher.display_image_terminal "Linux" run).1 = true ∧
  (Launcher.display_image_terminal "Linux" run).2 `prefix_of` Launcher.linux_viewers ∧
  forallb (fun v => shrugged_off (run v))
    (removelast (Launcher.display_image_terminal "Linux" run).2) = true ∧
  ((∃ v, last (Launcher.display_image_terminal "Linux" run).2 = Some v ∧
         run v = Launcher.Launched) ∨
   (Launcher.display_image_terminal "Linux" run).2 = Launcher.linux_viewers).
Proof.
  intros Hok.
  change (Launcher.display_image_terminal "Linux" run)
    with (Launcher.try_viewers run Launcher.linux_viewers).
  destruct (try_viewers_spec run Launcher.linux_viewers)
    as (tried & lo & res & -> & Hv & Hs & Hl). cbn [fst snd].
  destruct (last tried) as [v|] eqn:Hlast; [|now destruct Hl].
  assert (Hin : v ∈ Launcher.linux_viewers).
  { rewrite Hv. apply elem_of_app. left.
    apply last_Some in Hlast as [l' ->]. apply elem_of_app. right. now left. }
  specialize (Hok v Hin).
  assert (Hres : res = true) by (destruct (run v); try done; now destruct Hl).
  split; [exact Hres|]. split; [now exists lo|]. split; [exact Hs|].
  destruct (run v) eqn:Hr; try done.
  - left. eauto.
  - right. destruct Hl as [_ ->]. now rewrite app_nil_r in Hv.
  - right. destruct Hl as [_ ->]. now rewrite app_nil_r in Hv.
Qed.

Lemma linux_viewer_reports_success_witness :
  (Launcher.display_image_terminal "Linux" nothing_installed).1 = true ∧
  (Launcher.display_image_terminal "Linux" nothing_installed).2
    `prefix_of` Launcher.linux_viewers ∧
  forallb (fun v => shrugged_off (nothing_installed v))
    (removelast (Launcher.display_image_terminal "Linux" nothing_installed).2) = true ∧
  ((∃ v, last (Launcher.display_image_terminal "Linux" nothing_installed).2 = Some v ∧
         nothing_installed v = Launcher.Launched) ∨
   (Launcher.display_image_terminal "Linux" nothing_installed).2
     = Launcher.linux_viewers).
Proof.
  apply (linux_viewer_reports_success nothing_installed).
  intros v _. discriminate.
Defined.

(** X24: a reported failure is a launch that raised.  On every platform,
    when [display_image_terminal] returns [False] the last program it
    tried did not run; on Linux that launch raised something other than
    [CalledProcessError] and [FileNotFoundError]. *)
Theorem viewer_failure_is_a_raise system run :
  (Launcher.display_image_terminal system run).1 = false →
  ∃ prog, last (Launcher.display_image_terminal system run).2 = Some prog ∧
          run prog ≠ Launcher.Launched ∧
          (system = "Linux" → run prog = Launcher.Failed).
Proof.
  unfold Launcher.display_image_terminal.
  repeat case_decide; subst; try discriminate.
  - destruct (run "open") eqn:Hr; try discriminate; intros _;
      (exists "open"; split; [reflexivity|]; split; [congruence | discriminate]).
  - destruct (run "startfile") eqn:Hr; try discriminate; intros _;
      (exists "startfile"; split; [reflexivity|]; split; [congruence | discriminate]).
  - destruct (try_viewers_spec run Launcher.linux_viewers)
      as (tried & lo & res & -> & Hv & Hs & Hl). cbn [fst snd]. intros ->.
    destruct (last tried) as [v|]; [|now destruct Hl].
    exists v. split; [reflexivity|].
    destruct (run v); try done; now destruct Hl.
Qed.

Lemma viewer_failure_is_a_raise_witness :
  ∃ prog,
    last (Launcher.display_image_terminal "Darwin" nothing_installed).2 = Some prog ∧
    nothing_installed prog ≠ Launcher.Launched ∧
    ("Darwin" = "Linux" → nothing_installed prog = Launcher.Failed).
Proof.
  apply (viewer_failure_is_a_raise "Darwin" nothing_installed).
  reflexivity.
Defined.

Example viewers_in_order :
  Launcher.display_image_terminal "Linux" only_feh = (true, ["xdg-open"; "feh"]) ∧
  Launcher.display_image_terminal "FreeBSD" nothing_installed = (true, []).
Proof. split; reflexivity. Qed.

(** ** The rendered text *)

Lemma string_app_assoc (a b c : string) : (a +:+ b) +:+ c = a +:+ (b +:+ c).
Proof.
  induction a as [|x a IH]; [reflexivity|].
  change (String x ((a +:+ b) +:+ c) = String x (a +:+ (b +:+ c))). now rewrite IH.
Qed.

Lemma string_app_nil_r (a : string) : a +:+ EmptyString = a.
Proof.
  induction a as [|x a IH]; [reflexivity|].
  change (String x (a +:+ EmptyString) = String x a). now rewrite IH.
Qed.

Lemma pixel_chars_row p : luminance p → pixel_chars p = Some (row_text [p]).
Proof.
  intros Hp. destruct (pixel_chars_ok p Hp) as (c & Hc & _).
  cbn [row_text]. unfold palette_char. now rewrite Hc.
Qed.

(** The pixels of a row after the first: no line break is inserted. *)
Lemma render_from_inside width (Hw : 0 < width) row : ∀ rest i acc,
  Forall luminance row →
  (∀ j, 0 <= j < Z.of_nat (length row) → (i + j) mod width ≠ 0 ∨ i + j = 0) →
  render_from width i (row ++ rest) acc
  = render_from width (i + Z.of_nat (length row)) rest (acc +:+ row_text row).
Proof.
  induction row as [|p row IH]; intros rest i acc Hl Hnb.
  - cbn [app length row_text]. now rewrite Z.add_0_r, string_app_nil_r.
  - apply Forall_cons in Hl as [Hp Hl].
    cbn [app render_from]. rewrite (pixel_chars_row p Hp).
    destruct (Z.eqb_spec width 0); [lia|].
    assert (Hb : (i mod width =? 0) && negb (i =? 0) = false).
    { destruct (Hnb 0) as [H|H]; [cbn [length]; lia | |];
        rewrite Z.add_0_r in H.
      - apply Z.eqb_neq in H. now rewrite H.
      - subst. now rewrite andb_false_r. }
    rewrite Hb. rewrite IH; [|exact Hl|].
    + rewrite string_app_assoc. cbn [length]. f_equal. lia.
    + intros j Hj. replace (i + 1 + j) with (i + (j + 1)) by lia.
      apply Hnb. cbn [length]. lia.
Qed.

Lemma mod_inside (width r j : Z) :
  0 < width → 0 < j < width → (r * width + j) mod width ≠ 0.
Proof.
  intros Hw Hj. rewrite Z.add_comm, Z.mod_add by lia.
  rewrite Z.mod_small by lia. lia.
Qed.

(** A whole row that is not the first: a line break, then the row. *)
Lemma render_from_row width (Hw : 0 < width) row rest r acc :
  Forall luminance row → Z.of_nat (length row) = width → 0 < r →
  render_from width (r * width) (row ++ rest) acc
  = render_from width ((r + 1) * width) rest
      (acc +:+ String newline EmptyString +:+ row_text row).
Proof.
  intros Hl Hlen Hr. destruct row as [|p row]; [cbn in Hlen; lia|].
  apply Forall_cons in Hl as [Hp Hl].
  cbn [app render_from]. rewrite (pixel_chars_row p Hp).
  destruct (Z.eqb_spec width 0); [lia|].
  rewrite Z.mod_mul by lia. cbn [Z.eqb andb].
  destruct (Z.eqb_spec (r * width) 0); [nia|]. cbn [negb].
  rewrite (render_from_inside width Hw row rest); [|exact Hl|].
  - rewrite !string_app_assoc. cbn [length] in Hlen. f_equal. lia.
  - intros j Hj. left. replace (r * width + 1 + j) with (r * width + (j + 1)) by lia.
    apply mod_inside; [lia|]. cbn [length] in Hlen. lia.
Qed.

Lemma render_from_rows_text width (Hw : 0 < width) rows : ∀ r acc,
  Forall (fun row => Z.of_nat (length row) = width ∧ Forall luminance row) rows →
  0 < r →
  render_from width (r * width) (concat rows) acc
  = Some (acc +:+ after_each (String newline EmptyString) (map row_text rows)).
Proof.
  induction rows as [|row rows IH]; intros r acc Hrows Hr.
  - cbn. now rewrite string_app_nil_r.
  - apply Forall_cons in Hrows as [[Hlen Hl] Hrows].
    cbn [concat map after_each].
    rewrite (render_from_row width Hw row (concat rows) r acc Hl Hlen Hr).
    rewrite (IH (r + 1)) by (auto; lia).
    now rewrite !string_app_assoc.
Qed.

Lemma join_after_each sep x l :
  Cli.join sep (x :: l) = x +:+ after_each sep l.
Proof.
  revert x. induction l as [|y l IH]; intros x.
  - cbn. now rewrite string_app_nil_r.
  - change (Cli.join sep (x :: y :: l)) with (x +:+ sep +:+ Cli.join sep (y :: l)).
    now rewrite IH.
Qed.

(** X25: the text is the image, row by row.  For an image given as rows
    of [width > 0] luminance values, the renderer returns the rows from
    top to bottom, each pixel as its palette character written twice, and
    the rows joined by single line breaks. *)
Theorem image_is_rendered_row_by_row (width : Z) (rows : list (list Z)) :
  0 < width →
  Forall (fun row => Z.of_nat (length row) = width ∧ Forall luminance row) rows →
  image_to_ascii width (concat rows)
  = Some (Cli.join (String newline EmptyString) (map row_text rows)).
Proof.
  intros Hw Hrows. unfold image_to_ascii.
  destruct rows as [|row rows]; [reflexivity|].
  apply Forall_cons in Hrows as [[Hlen Hl] Hrows].
  cbn [concat map]. rewrite join_after_each.
  rewrite (render_from_inside width Hw row (concat rows) 0 EmptyString Hl).
  - replace (0 + Z.of_nat (length row)) with (1 * width) by lia.
    now apply render_from_rows_text.
  - intros j Hj. destruct (Z.eq_dec j 0) as [->|Hne]; [now right|].
    left. replace (0 + j) with (0 * width + j) by lia. apply mod_inside; lia.
Qed.

Lemma image_is_rendered_row_by_row_witness :
  image_to_ascii 2 (concat [[0; 255]; [128; 15]])
  = Some (Cli.join (String newline EmptyString) (map row_text [[0; 255]; [128; 15]])).
Proof.
  apply (image_is_rendered_row_by_row 2 [[0; 255]; [128; 15]]).
  - lia.
  - repeat constructor; unfold luminance; lia.
Defined.

Lemma all_chars_app f a b :
  all_chars f (a +:+ b) = all_chars f a && all_chars f b.
Proof.
  induction a as [|x a IH]; [reflexivity|].
  change (f x && all_chars f (a +:+ b) = f x && all_chars f a && all_chars f b).
  rewrite IH. now rewrite andb_assoc.
Qed.

Lemma pixel_chars_palette p s :
  luminance p → pixel_chars p = Some s → all_chars palette_or_newline s = true.
Proof.
  intros Hp Hs.
  assert (H : pixel_in_palette p = true).
  { apply by_luminance; [vm_compute; reflexivity | exact Hp]. }
  unfold pixel_in_palette in H. rewrite Hs in H. clear Hs.
  induction s as [|c s IH]; [reflexivity|]. cbn [all_chars] in *.
  apply andb_true_iff in H as [Hc Hs]. rewrite (IH Hs), andb_true_r.
  unfold palette_or_newline. rewrite Hc. apply orb_true_r.
Qed.

Lemma render_from_alphabet width pixels : ∀ i acc s,
  Forall luminance pixels →
  all_chars palette_or_newline acc = true →
  render_from width i pixels acc = Some s →
  all_chars palette_or_newline s = true.
Proof.
  induction pixels as [|p pixels IH]; intros i acc s Hl Hacc; cbn [render_from].
  - now intros [= <-].
  - apply Forall_cons in Hl as [Hp Hl].
    destruct (width =? 0); [discriminate|].
    destruct (pixel_chars p) as [cc|] eqn:Hcc; [|discriminate].
    apply IH; [exact Hl|].
    rewrite all_chars_app, (pixel_chars_palette p cc Hp Hcc), andb_true_r.
    destruct (_ && _); [|exact Hacc].
    rewrite all_chars_app, Hacc. reflexivity.
Qed.

(** X26: nothing but the palette.  Whatever the width and the number of
    pixels, the text rendered from luminance values contains only
    characters of the palette and line breaks. *)
Theorem rendered_text_alphabet (width : Z) (pixels : list Z) (s : string) :
  Forall luminance pixels →
  image_to_ascii width pixels = Some s →
  all_chars palette_or_newline s = true.
Proof.
  intros Hl Hs. now apply (render_from_alphabet width pixels 0 EmptyString s).
Qed.

Lemma rendered_text_alphabet_witness :
  all_chars palette_or_newline ("  $$" +:+ String newline "uu``") = true.
Proof.
  apply (rendered_text_alphabet 2 [0; 255; 128; 15]).
  - repeat constructor; unfold luminance; lia.
  - vm_compute. reflexivity.
Defined.

(** ** The list of results *)

Lemma tag_names_outcome tags :
  if forallb has_name tags
  then ∃ l, Cli.tag_names tags = Ret l
  else Cli.tag_names tags = Raise KeyError.
Proof.
  induction tags as [|[n|] tags IH]; cbn [forallb has_name Cli.tag_names andb].
  - now exists [].
  - destruct (forallb has_name tags).
    + destruct IH as [l ->]. now exists (n :: l).
    + now rewrite IH.
  - reflexivity.
Qed.

Lemma listing_outcome ms : ∀ idx,
  if forallb named_tags ms
  then ∃ lines, Cli.listing idx ms = Ret lines ∧ length lines = length ms
  else Cli.listing idx ms = Raise KeyError.
Proof.
  induction ms as [|m ms IH]; intros idx; cbn [forallb Cli.listing].
  - now exists [].
  - unfold named_tags at 1.
    pose proof (tag_names_outcome (take 3 (Cli.m_tag_names m))) as Ht.
    destruct (forallb has_name (take 3 (Cli.m_tag_names m))); cbn [andb].
    + destruct Ht as [names ->]. specialize (IH (idx + 1)).
      destruct (forallb named_tags ms).
      * destruct IH as (lines & -> & Hlen). eexists. split; [reflexivity|].
        cbn [length]. now rewrite Hlen.
      * now rewrite IH.
    + now rewrite Ht.
Qed.

(** X27: a tag without an English name stops [search].  The results are
    listed when, for every entry, each of its first three tags has an
    English name, one line per entry; otherwise the listing raises
    [KeyError], and [search] ends with it before any prompt: no input is
    read.  Tags after the third are never looked at. *)
Theorem unnamed_tag_stops_search (ms : list Cli.manga) :
  (forallb named_tags ms = true →
   ∃ lines, Cli.listing 1 ms = Ret lines ∧ length lines = length ms) ∧
  (forallb named_tags ms = false →
   ∀ w st, (Cli.search w (Some ms) st).1 = (Raise KeyError, []) ∧
           stdin (Cli.search w (Some ms) st).2 = stdin st).
Proof.
  pose proof (listing_outcome ms 1) as H. split; intros Hn; rewrite Hn in H.
  - exact H.
  - intros w st. unfold Cli.search. rewrite bind_eq. unfold Cli.lift_store at 1.
    cbn [fst snd prepend]. destruct ms as [|m ms]; [discriminate|].
    rewrite H. now split.
Qed.
